(** * YouTube Music playlist creator: a shallow embedding

    The development follows [ytmusic_playlist_creator.py]: the Python string
    methods the script relies on, the curl capture parser
    ([extract_headers_from_curl]), the session bootstrapper
    ([setup_ytmusic]), the setlist reader ([read_setlist_from_file]) and the
    playlist builder ([create_playlist_from_setlist]).

    Text is a [string] whose characters are the code points below 256; on
    that range the string methods below are those of Python's [str].  The
    one property that depends on the alphabet, the case of the header names,
    is treated over all code points: module [Unicode] redoes the string
    methods and the parser on sequences of code points. *)

From Stdlib Require Import ZArith Lia Bool List Ascii String.
From stdpp Require Import base strings gmap list fin_maps.

Set Warnings "-register-all".
Local Open Scope string_scope.
Local Open Scope Z_scope.
Local Open Scope list_scope.

(** ** Python [str] methods *)

Module PyStr.

(** The double quote, written by its code. *)
Definition dquote : ascii := "034"%char.
(** The line feed. *)
Definition LF : ascii := "010"%char.
(** The carriage return. *)
Definition CR : ascii := "013"%char.

(** [c.isspace()] for a code point below 256. *)
Definition isspace (c : ascii) : bool :=
  let n := Z.of_nat (nat_of_ascii c) in
  ((9 <=? n) && (n <=? 13)) || ((28 <=? n) && (n <=? 32))
  || (n =? 133) || (n =? 160).

(** [c.isupper()] for a code point below 256: A-Z and the Latin-1 capitals
    (all of 192..222 but the multiplication sign 215). *)
Definition isupper (c : ascii) : bool :=
  let n := Z.of_nat (nat_of_ascii c) in
  ((65 <=? n) && (n <=? 90))
  || ((192 <=? n) && (n <=? 222) && negb (n =? 215)).

(** [c.lower()]: every upper-case code point below 256 has its lower-case
    partner 32 places up. *)
Definition lower_char (c : ascii) : ascii :=
  if isupper c then ascii_of_nat (nat_of_ascii c + 32) else c.

(** [s.lower()] *)
Fixpoint lower (s : string) : string :=
  match s with
  | EmptyString => EmptyString
  | String c s' => String (lower_char c) (lower s')
  end.

(** [s.lstrip()] *)
Fixpoint lstrip (s : string) : string :=
  match s with
  | EmptyString => EmptyString
  | String c s' => if isspace c then lstrip s' else s
  end.

(** [s.rstrip()] *)
Fixpoint rstrip (s : string) : string :=
  match s with
  | EmptyString => EmptyString
  | String c s' =>
      match rstrip s' with
      | EmptyString => if isspace c then EmptyString else String c EmptyString
      | r => String c r
      end
  end.

(** [s.strip()] *)
Definition strip (s : string) : string := rstrip (lstrip s).

(** [s.startswith(p)] *)
Fixpoint startswith (s p : string) {struct p} : bool :=
  match p with
  | EmptyString => true
  | String a p' =>
      match s with
      | EmptyString => false
      | String b s' => Ascii.eqb a b && startswith s' p'
      end
  end.

(** [sub in s] *)
Fixpoint contains (sub s : string) : bool :=
  startswith s sub
  || match s with
     | EmptyString => false
     | String _ s' => contains sub s'
     end.

(** The characters of [s] from position [n] on. *)
Fixpoint drop (n : nat) (s : string) : string :=
  match n, s with
  | O, _ => s
  | S n', String _ s' => drop n' s'
  | S _, EmptyString => EmptyString
  end.

(** The first [n] characters of [s]. *)
Fixpoint take (n : nat) (s : string) : string :=
  match n, s with
  | S n', String c s' => String c (take n' s')
  | _, _ => EmptyString
  end.

(** Lowest position at which [sub] occurs in [s]. *)
Fixpoint find_first (sub s : string) : option nat :=
  if startswith s sub then Some O
  else match s with
       | EmptyString => None
       | String _ s' => option_map S (find_first sub s')
       end.

(** How Python turns a slice bound into a position of a string of length
    [len]: a negative bound counts from the end, and the result is clipped
    to [0..len]. *)
Definition clip (len i : Z) : Z :=
  if i <? 0 then Z.max 0 (i + len) else Z.min i len.

(** [s.find(sub, start)]: the lowest index at or after [start] where [sub]
    occurs, [-1] when there is none. *)
Definition find (s sub : string) (start : Z) : Z :=
  let len := Z.of_nat (String.length s) in
  let start := if start <? 0 then Z.max 0 (start + len) else start in
  if len <? start then -1
  else match find_first sub (drop (Z.to_nat start) s) with
       | Some i => start + Z.of_nat i
       | None => -1
       end.

(** [s[start:stop]] *)
Definition slice (s : string) (start stop : Z) : string :=
  let len := Z.of_nat (String.length s) in
  let a := clip len start in
  let b := clip len stop in
  take (Z.to_nat (b - a)) (drop (Z.to_nat a) s).

(** [s[start:]] *)
Definition slice_from (s : string) (start : Z) : string :=
  drop (Z.to_nat (clip (Z.of_nat (String.length s)) start)) s.

(** [s.split(sep)] for a separator of one character. *)
Fixpoint split (sep : ascii) (s : string) : list string :=
  match s with
  | EmptyString => [EmptyString]
  | String c s' =>
      if Ascii.eqb c sep then EmptyString :: split sep s'
      else match split sep s' with
           | h :: t => String c h :: t
           | [] => [String c EmptyString]
           end
  end.

(** [s.split(sep, 1)] for a separator of one character. *)
Fixpoint split1 (sep : ascii) (s : string) : list string :=
  match s with
  | EmptyString => [EmptyString]
  | String c s' =>
      if Ascii.eqb c sep then [EmptyString; s']
      else match split1 sep s' with
           | h :: t => String c h :: t
           | [] => [String c EmptyString]
           end
  end.

(** A string of one character. *)
Definition chr (c : ascii) : string := String c EmptyString.

(** What reading in text mode does to line ends: a carriage return, with
    the line feed that follows it if there is one, becomes a line feed. *)
Fixpoint universal_newlines (s : string) : string :=
  match s with
  | EmptyString => EmptyString
  | String c s' =>
      if Ascii.eqb c CR then
        match s' with
        | String c' s'' =>
            if Ascii.eqb c' LF then String LF (universal_newlines s'')
            else String LF (universal_newlines s')
        | EmptyString => String LF EmptyString
        end
      else String c (universal_newlines s')
  end.

(** The lines of a text, each with the line feed that ends it (the last
    one may have none): what [f.readlines()] returns for that text. *)
Fixpoint lines_of (s : string) : list string :=
  match s with
  | EmptyString => []
  | String c s' =>
      if Ascii.eqb c LF then chr LF :: lines_of s'
      else match lines_of s' with
           | l :: ls => String c l :: ls
           | [] => [chr c]
           end
  end.

End PyStr.

(** ** Python values and exceptions *)

(** The values that cross the boundary with the client library: what
    [create_playlist], [search] and [add_playlist_items] return is decoded
    JSON, and the script reads it with subscripts and [.get]. *)
Inductive pyval : Type :=
  | PNone
  | PBool (b : bool)
  | PInt (z : Z)
  | PStr (s : string)
  | PList (items : list pyval)
  | PDict (items : list (string * pyval)).

(** The instances of Python's [Exception] that the script can meet.
    [LibraryError] stands for whatever else the client library raises. *)
Inductive exn : Type :=
  | ValueError
  | UnboundLocalError
  | KeyError (key : pyval)
  | IndexError
  | TypeError
  | AttributeError
  | FileNotFoundError (path : string)
  | OSError (path : string)
  | LibraryError (what : string).

(** A computation that returns or raises. *)
Definition result (A : Type) : Type := (exn + A)%type.

Definition rbind {A B} (r : result A) (k : A -> result B) : result B :=
  match r with
  | inl e => inl e
  | inr a => k a
  end.

Notation "'let?' x ':=' r 'in' k" := (rbind r (fun x => k))
  (at level 10, x name, r at level 100, k at level 200).

(** The entry of a decoded JSON object under a key. *)
Fixpoint dict_lookup (items : list (string * pyval)) (key : string)
  : option pyval :=
  match items with
  | [] => None
  | (k, v) :: rest => if String.eqb k key then Some v else dict_lookup rest key
  end.

(** [v[key]] for a string key. *)
Definition getitem (v : pyval) (key : string) : result pyval :=
  match v with
  | PDict items =>
      match dict_lookup items key with
      | Some x => inr x
      | None => inl (KeyError (PStr key))
      end
  | _ => inl TypeError
  end.

(** [v.get(key, default)] *)
Definition get (v : pyval) (key : string) (default : pyval) : result pyval :=
  match v with
  | PDict items =>
      match dict_lookup items key with
      | Some x => inr x
      | None => inr default
      end
  | _ => inl AttributeError
  end.

(** [v[0]] *)
Definition getitem0 (v : pyval) : result pyval :=
  match v with
  | PList (x :: _) => inr x
  | PList [] => inl IndexError
  | PStr (String c _) => inr (PStr (PyStr.chr c))
  | PStr EmptyString => inl IndexError
  | PDict _ => inl (KeyError (PInt 0))
  | _ => inl TypeError
  end.

(** ** The curl capture parser *)

(** The four markers the parser looks for. *)
Definition H_squote : string := "-H '".
Definition H_dquote : string := "-H " +:+ PyStr.chr PyStr.dquote.
Definition b_squote : string := "-b '".
Definition b_dquote : string := "-b " +:+ PyStr.chr PyStr.dquote.

(** The block the source repeats for each marker:
<<
    start = line.find(marker) + 4
    end = line.find(quote, start)
    if end == -1: content = line[start:]
    else:         content = line[start:end]
>> *)
Definition quoted_content (line marker quote : string) : string :=
  let start := PyStr.find line marker 0 + 4 in
  let end_ := PyStr.find line quote start in
  if end_ =? -1 then PyStr.slice_from line start
  else PyStr.slice line start end_.

(** The body of [for line in lines:]. *)
Definition scan_line (headers : gmap string string) (line : string)
  : result (gmap string string) :=
  let line := PyStr.strip line in
  if PyStr.contains H_squote line || PyStr.contains H_dquote line then
    let? header_content :=
      (if PyStr.contains H_squote line then
         inr (quoted_content line H_squote "'")
       else if PyStr.contains H_dquote line then
         inr (quoted_content line H_dquote (PyStr.chr PyStr.dquote))
       else inl UnboundLocalError) in
    if PyStr.contains ":" header_content then
      match PyStr.split1 ":" header_content with
      | [key; value] =>
          inr (<[PyStr.lower (PyStr.strip key) := PyStr.strip value]> headers)
      | _ => inl ValueError
      end
    else inr headers
  else if PyStr.contains b_squote line || PyStr.contains b_dquote line then
    let? cookie_content :=
      (if PyStr.contains b_squote line then
         inr (quoted_content line b_squote "'")
       else if PyStr.contains b_dquote line then
         inr (quoted_content line b_dquote (PyStr.chr PyStr.dquote))
       else inl UnboundLocalError) in
    inr (<["cookie" := cookie_content]> headers)
  else inr headers.

(** [for line in lines: ...] *)
Fixpoint scan_lines (lines : list string) (headers : gmap string string)
  : result (gmap string string) :=
  match lines with
  | [] => inr headers
  | line :: rest =>
      let? headers' := scan_line headers line in
      scan_lines rest headers'
  end.

(** [headers = {}; lines = curl_content.split('\\'); for line in lines: ...] *)
Definition scan_capture (curl_content : string) : result (gmap string string) :=
  scan_lines (PyStr.split "\" curl_content) ∅.

Definition critical_headers : list string := ["authorization"; "cookie"].

(** [[h for h in critical_headers if h not in headers]] *)
Definition missing_headers (headers : gmap string string) : list string :=
  List.filter (fun h => negb (bool_decide (is_Some (headers !! h))))
    critical_headers.

(** The literal [defaults] dictionary, in the order of its items. *)
Definition defaults : list (string * string) :=
  [ ("accept", "*/*");
    ("accept-language", "en-US,en;q=0.9");
    ("content-type", "application/json");
    ("origin", "https://music.youtube.com");
    ("referer", "https://music.youtube.com/");
    ("x-origin", "https://music.youtube.com");
    ("x-youtube-bootstrap-logged-in", "true");
    ("x-youtube-client-name", "67");
    ("x-youtube-client-version", "1.20250811.03.00") ].

(** [for key, value in defaults.items(): if key not in headers: headers[key] = value] *)
Definition add_defaults (headers : gmap string string) : gmap string string :=
  fold_left
    (fun hd kv =>
       if bool_decide (is_Some (hd !! kv.1)) then hd else <[kv.1 := kv.2]> hd)
    defaults headers.

(** ** The world the script runs in *)

(** A file that exists: its decoded text, or [Unreadable] when opening or
    decoding it raises. *)
Inductive file : Type :=
  | Unreadable
  | Text (content : string).

(** What [with open(path, 'w') as f: json.dump(headers, f, indent=2)] does
    to the file at [path].  [open] may raise, and then the file is as it was;
    once the file is open it has been emptied, and if the dump or the closing
    of the file raises, the file holds what got through. *)
Inductive written : Type :=
  | Saved
  | Refused (e : exn)
  | Cut (kept : string) (e : exn).

(** What lies outside the repository: the [json] module, the disk the
    artifact is written to, and the [ytmusicapi] client with the remote
    service behind it.  Each remote operation reads and changes the state of
    the service, and returns or raises. *)
Record Platform : Type := {
  client : Type;
  service : Type;
  (** the text [json.dump(headers, f, indent=2)] writes *)
  json_dump : gmap string string -> string;
  (** what becomes of writing a text to a path *)
  save : string -> string -> written;
  (** [YTMusic(path)], from what is on disk at [path] *)
  YTMusic : option file -> service -> result client * service;
  (** [ytmusic.create_playlist(name, description)] *)
  create_playlist : client -> string -> string -> service -> result pyval * service;
  (** [ytmusic.search(query, filter="songs", limit=5)] *)
  search : client -> string -> service -> result (list pyval) * service;
  (** [ytmusic.add_playlist_items(playlist_id, video_ids)] *)
  add_playlist_items : client -> pyval -> list pyval -> service -> result pyval * service
}.

(** One constructor for each [print] of the script, with the values its
    f-string interpolates.  A block of fixed instruction lines is one
    message. *)
Inductive msg : Type :=
  | MsgUsingUpdatedHeaders
  | MsgErrorReadingPaste (e : exn)
  | MsgNoValidHeaders
  | MsgGetStarted
  | MsgHeadersFound (keys : gset string)
  | MsgMissingCritical (missing : list string)
  | MsgCompleteCurlHint
  | MsgHeadersProcessed (total : nat)
  | MsgErrorProcessingPaste (e : exn)
  | MsgValidCurlHint
  | MsgCreatingPlaylist (playlist_name : string)
  | MsgPlaylistCreated (playlist_id : pyval)
  | MsgSearching (i n : nat) (song : string)
  | MsgAdded (artist song_title : pyval)
  | MsgNotFound (song : string)
  | MsgErrorWith (song : string) (e : exn)
  | MsgPlaylistDone (playlist_name : string)
  | MsgSongsAdded (successful_adds n : nat)
  | MsgSongsNotFound
  | MsgFailedSong (song : string)
  | MsgErrorCreating (e : exn)
  | MsgReadSongs (n : nat) (filename : string)
  | MsgFileNotFound (filename : string)
  | MsgFormatHint
  | MsgErrorReadingFile (e : exn).

(** The calls made on the client, in the order they are made. *)
Inductive call : Type :=
  | CallCreatePlaylist (name description : string)
  | CallSearch (query : string)
  | CallAddPlaylistItems (playlist_id : pyval) (video_ids : list pyval).

Record world (P : Platform) : Type := World {
  fs : gmap string file;
  console : list msg;
  calls : list call;
  remote : service P
}.
Arguments World {P}.
Arguments fs {P}.
Arguments console {P}.
Arguments calls {P}.
Arguments remote {P}.

(** ** Statements that read and change the world, and may raise *)

Definition M (P : Platform) (A : Type) : Type := world P -> result A * world P.

Definition ret {P A} (a : A) : M P A := fun w => (inr a, w).

Definition bind {P A B} (m : M P A) (k : A -> M P B) : M P B :=
  fun w =>
    match m w with
    | (inl e, w') => (inl e, w')
    | (inr a, w') => k a w'
    end.

(** [try: m  except Exception as e: h e] *)
Definition try_except {P A} (m : M P A) (h : exn -> M P A) : M P A :=
  fun w =>
    match m w with
    | (inl e, w') => h e w'
    | (inr a, w') => (inr a, w')
    end.

(** A pure step that may raise. *)
Definition lift {P A} (r : result A) : M P A := fun w => (r, w).

Declare Scope py_scope.
Delimit Scope py_scope with py.
Notation "x <- m ;; k" := (bind m (fun x => k))
  (at level 100, m at next level, k at level 200, right associativity) : py_scope.
Notation "m ;; k" := (bind m (fun _ => k))
  (at level 100, k at level 200, right associativity) : py_scope.
Local Open Scope py_scope.

Section Script.
Context {P : Platform}.

(** [print(...)]; printing is taken not to fail. *)
Definition print (m : msg) : M P unit :=
  fun w => (inr tt, World (fs w) (console w ++ [m]) (calls w) (remote w)).

(** [os.path.exists(path)] *)
Definition path_exists (path : string) : M P bool :=
  fun w => (inr (bool_decide (is_Some (fs w !! path))), w).

(** [with open(path, 'r') as f: f.read()]: the text of the file, its line
    ends translated as text mode does. *)
Definition read_text (path : string) : M P string :=
  fun w =>
    match fs w !! path with
    | None => (inl (FileNotFoundError path), w)
    | Some Unreadable => (inl (OSError path), w)
    | Some (Text s) => (inr (PyStr.universal_newlines s), w)
    end.

(** [with open(path, 'r', encoding='utf-8') as f: f.readlines()] *)
Definition readlines (path : string) : M P (list string) :=
  text <- read_text path ;;
  ret (PyStr.lines_of text).

(** [with open(path, 'w') as f: json.dump(headers, f, indent=2)]: the file
    is created or replaced, unless opening it or writing to it raises. *)
Definition write_json (path : string) (headers : gmap string string) : M P unit :=
  fun w =>
    match save P path (json_dump P headers) with
    | Saved =>
        (inr tt,
         World (<[path := Text (json_dump P headers)]> (fs w))
               (console w) (calls w) (remote w))
    | Refused e => (inl e, w)
    | Cut kept e =>
        (inl e,
         World (<[path := Text kept]> (fs w))
               (console w) (calls w) (remote w))
    end.

(** [extract_headers_from_curl(filename)]: [None] is Python's [None].  The
    dictionary is a finite map; the message that lists its keys carries them
    as a set. *)
Definition extract_headers_from_curl (filename : string)
  : M P (option (gmap string string)) :=
  try_except
    (curl_content <- read_text filename ;;
     headers <- lift (scan_capture curl_content) ;;
     print (MsgHeadersFound (dom headers)) ;;
     let missing := missing_headers headers in
     match missing with
     | _ :: _ =>
         print (MsgMissingCritical missing) ;;
         print MsgCompleteCurlHint ;;
         ret None
     | [] =>
         let headers := add_defaults headers in
         print (MsgHeadersProcessed (size headers)) ;;
         ret (Some headers)
     end)
    (fun e =>
       print (MsgErrorProcessingPaste e) ;;
       print MsgValidCurlHint ;;
       ret None).

(** [setup_ytmusic()]: [None] is Python's [None].  The [try] block either
    returns the client (its [return] statement) or falls through to the
    instructions. *)
Definition setup_ytmusic : M P (option (client P)) :=
  paste <- path_exists "paste.txt" ;;
  returned <-
    (if paste then
       try_except
         (headers <- extract_headers_from_curl "paste.txt" ;;
          match headers with
          | Some hd =>
              if bool_decide (hd = ∅) then ret None
              else
                print MsgUsingUpdatedHeaders ;;
                write_json "headers_auth.json" hd ;;
                ytmusic <- (fun w =>
                              let '(r, s) := YTMusic P (fs w !! "headers_auth.json") (remote w) in
                              (r, World (fs w) (console w) (calls w) s)) ;;
                ret (Some ytmusic)
          | None => ret None
          end)
         (fun e => print (MsgErrorReadingPaste e) ;; ret None)
     else ret None) ;;
  match returned with
  | Some ytmusic => ret (Some ytmusic)
  | None =>
      print MsgNoValidHeaders ;;
      print MsgGetStarted ;;
      ret None
  end.

(** The loop of [read_setlist_from_file]:
<<
  setlist = []
  for line in lines:
      line = line.strip()
      if line and not line.startswith('#'):
          setlist.append(line)
>> *)
Definition collect_songs (lines : list string) : list string :=
  fold_left
    (fun setlist line =>
       let line := PyStr.strip line in
       if negb (String.eqb line "") && negb (PyStr.startswith line "#")
       then setlist ++ [line]
       else setlist)
    lines [].

(** [read_setlist_from_file(filename)] *)
Definition read_setlist_from_file (filename : string) : M P (list string) :=
  try_except
    (lines <- readlines filename ;;
     let setlist := collect_songs lines in
     print (MsgReadSongs (length setlist) filename) ;;
     ret setlist)
    (fun e =>
       match e with
       | FileNotFoundError _ =>
           print (MsgFileNotFound filename) ;;
           print MsgFormatHint ;;
           ret []
       | _ =>
           print (MsgErrorReadingFile e) ;;
           ret []
       end).

(** The three remote operations, each entered in the call log. *)
Definition log_call {A} (c : call)
    (op : service P -> result A * service P) : M P A :=
  fun w =>
    let '(r, s) := op (remote w) in
    (r, World (fs w) (console w) (calls w ++ [c]) s).

Definition call_create_playlist (ytmusic : client P) (name description : string)
  : M P pyval :=
  log_call (CallCreatePlaylist name description)
    (create_playlist P ytmusic name description).

Definition call_search (ytmusic : client P) (query : string) : M P (list pyval) :=
  log_call (CallSearch query) (search P ytmusic query).

Definition call_add_playlist_items (ytmusic : client P) (playlist_id : pyval)
    (video_ids : list pyval) : M P pyval :=
  log_call (CallAddPlaylistItems playlist_id video_ids)
    (add_playlist_items P ytmusic playlist_id video_ids).

(** The two counters of the loop: [successful_adds] and [failed_songs]. *)
Definition tally : Type := (nat * list string)%type.

(** The [try] block of the loop body.  Each branch changes a counter as its
    last statement, so the block returns the counters it leaves. *)
Definition search_and_add (ytmusic : client P) (playlist_id : pyval)
    (song : string) (t : tally) : M P tally :=
  let '(successful_adds, failed_songs) := t in
  search_results <- call_search ytmusic song ;;
  match search_results with
  | first :: _ =>
      video_id <- lift (getitem first "videoId") ;;
      song_title <- lift (get first "title" (PStr "Unknown")) ;;
      artists <- lift (get first "artists" (PList [PDict []])) ;;
      artist0 <- lift (getitem0 artists) ;;
      artist <- lift (get artist0 "name" (PStr "Unknown")) ;;
      call_add_playlist_items ytmusic playlist_id [video_id] ;;
      print (MsgAdded artist song_title) ;;
      ret (S successful_adds, failed_songs)
  | [] =>
      print (MsgNotFound song) ;;
      ret (successful_adds, failed_songs ++ [song])
  end.

(** The body of [for i, song in enumerate(setlist, 1):], [n] being
    [len(setlist)].  The handler runs with the counters as they were when
    the [try] block was entered: nothing in the block raises after a counter
    has changed. *)
Definition song_step (ytmusic : client P) (playlist_id : pyval) (n i : nat)
    (song : string) (t : tally) : M P tally :=
  print (MsgSearching i n song) ;;
  try_except
    (search_and_add ytmusic playlist_id song t)
    (fun e =>
       print (MsgErrorWith song e) ;;
       ret (t.1, t.2 ++ [song])).

(** [for i, song in enumerate(setlist, i): ...] *)
Fixpoint for_songs (ytmusic : client P) (playlist_id : pyval) (n i : nat)
    (setlist : list string) (t : tally) : M P tally :=
  match setlist with
  | [] => ret t
  | song :: rest =>
      t' <- song_step ytmusic playlist_id n i song t ;;
      for_songs ytmusic playlist_id n (S i) rest t'
  end.

(** [for song in failed_songs: print(...)] *)
Fixpoint print_failed (failed_songs : list string) : M P unit :=
  match failed_songs with
  | [] => ret tt
  | song :: rest => print (MsgFailedSong song) ;; print_failed rest
  end.

(** [create_playlist_from_setlist(setlist, playlist_name, description)]:
    the value returned, [None] being Python's [None].  A client object is
    truthy, so [if not ytmusic] is the test for [None]. *)
Definition create_playlist_from_setlist (setlist : list string)
    (playlist_name description : string) : M P (option pyval) :=
  try_except
    (ytmusic <- setup_ytmusic ;;
     match ytmusic with
     | None => ret None
     | Some ytmusic =>
         print (MsgCreatingPlaylist playlist_name) ;;
         playlist_id <- call_create_playlist ytmusic playlist_name description ;;
         print (MsgPlaylistCreated playlist_id) ;;
         t <- for_songs ytmusic playlist_id (length setlist) 1 setlist (O, []) ;;
         let '(successful_adds, failed_songs) := t in
         print (MsgPlaylistDone playlist_name) ;;
         print (MsgSongsAdded successful_adds (length setlist)) ;;
         match failed_songs with
         | _ :: _ =>
             print MsgSongsNotFound ;;
             print_failed failed_songs
         | [] => ret tt
         end ;;
         ret (Some playlist_id)
     end)
    (fun e =>
       print (MsgErrorCreating e) ;;
       ret None).

End Script.

(** ** Vocabulary of the properties *)

(** The value the [defaults] table gives a key. *)
Definition default_of (key : string) : option string :=
  (list_to_map defaults : gmap string string) !! key.

(** The world after the messages [ms] have been printed. *)
Definition say {P} (ms : list msg) (w : world P) : world P :=
  World (fs w) (console w ++ ms) (calls w) (remote w).

(** The queries of the [search] calls of a call log, in order. *)
Fixpoint searched (cs : list call) : list string :=
  match cs with
  | [] => []
  | CallSearch q :: rest => q :: searched rest
  | _ :: rest => searched rest
  end.

(** The number of [add_playlist_items] calls of a call log. *)
Fixpoint added (cs : list call) : nat :=
  match cs with
  | [] => O
  | CallAddPlaylistItems _ _ :: rest => S (added rest)
  | _ :: rest => added rest
  end.

(** A line of the setlist file that is neither blank nor a comment. *)
Definition is_song_line (line : string) : bool :=
  let stripped := PyStr.strip line in
  negb (String.eqb stripped "") && negb (PyStr.startswith stripped "#").

(** The setlist as the specification words it: the song lines, stripped, in
    file order. *)
Definition song_queries (lines : list string) : list string :=
  map PyStr.strip (List.filter is_song_line lines).

(** The text of a file made of the given lines, a line feed after each. *)
Fixpoint text_of_lines (lines : list string) : string :=
  match lines with
  | [] => EmptyString
  | l :: rest => l +:+ PyStr.chr PyStr.LF +:+ text_of_lines rest
  end.

(** A line as an editor shows it: no line feed and no carriage return in
    it. *)
Definition one_line (line : string) : bool :=
  negb (PyStr.contains (PyStr.chr PyStr.LF) line)
  && negb (PyStr.contains (PyStr.chr PyStr.CR) line).

(** The four markers of [scan_line], in the order it tries them. *)
Inductive marker : Type := HeaderSingle | HeaderDouble | CookieSingle | CookieDouble.

(** The flag with its blank, without the quote. *)
Definition flag_of (m : marker) : string :=
  match m with
  | HeaderSingle | HeaderDouble => "-H "
  | CookieSingle | CookieDouble => "-b "
  end.

Definition quote_of (m : marker) : string :=
  match m with
  | HeaderSingle | CookieSingle => "'"
  | HeaderDouble | CookieDouble => PyStr.chr PyStr.dquote
  end.

Definition marker_text (m : marker) : string := flag_of m +:+ quote_of m.

(** The markers [scan_line] tries before [m]. *)
Definition tried_before (m : marker) : list string :=
  match m with
  | HeaderSingle => []
  | HeaderDouble => [H_squote]
  | CookieSingle => [H_squote; H_dquote]
  | CookieDouble => [H_squote; H_dquote; b_squote]
  end.

(** [scan_line] reaches the marker [m] in [line], at the end of [before]:
    no marker tried earlier occurs in the line, and [m] does not occur before
    that place. *)
Definition selects (m : marker) (line before : string) : bool :=
  forallb (fun m' => negb (PyStr.contains m' line)) (tried_before m)
  && negb (PyStr.contains (marker_text m) (before +:+ flag_of m)).

(** A small service to run the script against: it is on line or not; when it
    is, every query finds one track, but ["nothing"] finds none and ["boom"]
    makes the search raise.  Its disk takes every write. *)
Definition jukebox : Platform := {|
  client := unit;
  service := bool;
  json_dump := fun headers => "{...}";
  save := fun _ _ => Saved;
  YTMusic := fun f s =>
    match f with
    | Some (Text _) => (inr tt, s)
    | _ => (inl (LibraryError "no credentials"), s)
    end;
  create_playlist := fun _ name _ s =>
    if s then (inr (PStr ("PL-" +:+ name)), s)
    else (inl (LibraryError "server error"), s);
  search := fun _ query s =>
    if String.eqb query "nothing" then (inr [], s)
    else if String.eqb query "boom" then (inl (LibraryError "timeout"), s)
    else (inr [PDict [("videoId", PStr query); ("title", PStr query)]], s);
  add_playlist_items := fun _ _ _ s => (inr (PStr "STATUS_SUCCEEDED"), s)
|}.

(** The jukebox on a disk that cannot be written to. *)
Definition read_only_jukebox : Platform := {|
  client := client jukebox;
  service := service jukebox;
  json_dump := json_dump jukebox;
  save := fun path _ => Refused (OSError path);
  YTMusic := YTMusic jukebox;
  create_playlist := create_playlist jukebox;
  search := search jukebox;
  add_playlist_items := add_playlist_items jukebox
|}.

(** A capture with both critical headers, one header per fragment. *)
Definition sample_capture : string :=
  "curl 'https://music.youtube.com/youtubei/v1/browse' \ -H 'Authorization: SAPISIDHASH 1_abc' \ -H 'X-Goog-AuthUser: 0' \ -b 'SID=xyz; HSID=q'".

(** A capture that lacks the cookie. *)
Definition capture_without_cookie : string :=
  "curl 'https://music.youtube.com/youtubei/v1/browse' \ -H 'Authorization: SAPISIDHASH 1_abc'".

(** A world of the jukebox with the given files and nothing printed or called
    yet. *)
Definition jukebox_world (files : gmap string file) (online : bool) : world jukebox :=
  @World jukebox files [] [] online.

(** The jukebox world whose only file is [paste.txt], holding [text]. *)
Definition paste_world (text : string) (online : bool) : world jukebox :=
  jukebox_world {[ "paste.txt" := Text text ]} online.

(** The same on the disk that cannot be written to, with an artifact left
    by an earlier run. *)
Definition read_only_world : world read_only_jukebox :=
  @World read_only_jukebox
    {[ "paste.txt" := Text sample_capture;
       "headers_auth.json" := Text "{old}" ]} [] [] true.

(** C9 as it is worded: whenever the parse of [paste.txt] returns a Header
    Map, the artifact holds the dump of that map after [setup_ytmusic]. *)
Definition written_whenever_parsed (P : Platform) : Prop :=
  forall (w : world P) (hd : gmap string string),
    is_Some (fs w !! "paste.txt") ->
    (extract_headers_from_curl "paste.txt" w).1 = inr (Some hd) ->
    fs (setup_ytmusic w).2 !! "headers_auth.json"
    = Some (Text (json_dump P hd)).

(** What scanning [text] stores, the empty map if scanning raised. *)
Definition scanned (text : string) : gmap string string :=
  match scan_capture text with
  | inr h => h
  | inl _ => ∅
  end.

(** The world once the playlist has been created: both messages printed,
    the call logged, the service in the state [s] the call left it in. *)
Definition created {P} (w : world P) (playlist_name description : string)
    (playlist_id : pyval) (s : service P) : world P :=
  World (fs w)
        (console w ++ [MsgCreatingPlaylist playlist_name;
                       MsgPlaylistCreated playlist_id])
        (calls w ++ [CallCreatePlaylist playlist_name description])
        s.

(** The summary printed after the loop. *)
Definition summary (playlist_name : string) (n : nat) (t : tally) : list msg :=
  MsgPlaylistDone playlist_name
  :: MsgSongsAdded t.1 n
  :: match t.2 with
     | [] => []
     | _ :: _ => MsgSongsNotFound :: map MsgFailedSong t.2
     end.

(** What it would mean for [create_playlist_from_setlist] to return the
    counters of the loop with the identifier: the counters could be read off
    the value returned, whatever the run. *)
Definition counters_returned (P : Platform) : Prop :=
  exists read : result (option pyval) -> tally,
    forall (setlist : list string) (playlist_name description : string)
           (w w1 w3 : world P) (ytmusic : client P) (playlist_id : pyval)
           (s : service P) (t : tally),
      setup_ytmusic w = (inr (Some ytmusic), w1) ->
      create_playlist P ytmusic playlist_name description (remote w1)
      = (inr playlist_id, s) ->
      for_songs ytmusic playlist_id (length setlist) 1 setlist (O, [])
        (created w1 playlist_name description playlist_id s) = (inr t, w3) ->
      read (create_playlist_from_setlist setlist playlist_name description w).1
      = t.

(** A jukebox world whose [setlist.txt] holds the setlist of the
    specification's scenario. *)
Definition scenario_world : world jukebox :=
  jukebox_world
    {[ "setlist.txt" :=
         Text (text_of_lines ["Oasis - Wonderwall"; ""; "# comment";
                              "Billy Idol - White Wedding"]) ]}
    true.

(** ** Text over all code points

    Whether a header name comes out of [str.lower()] without upper-case
    characters depends on the alphabet: below 256 every upper-case code point
    has a lower-case partner, above it some have none.  This part therefore
    takes text as Python has it, a sequence of code points, and redoes the
    string methods and the capture parser over it.  The tables are those of
    the Unicode character database version 14.0.0 that Python's [str]
    methods consult. *)

Module Unicode.

(** A Python [str]: its code points. *)
Definition text : Type := list N.

(** The text of a literal whose characters are all below 256. *)
Fixpoint latin (s : string) : text :=
  match s with
  | EmptyString => []
  | String a s' => N_of_ascii a :: latin s'
  end.

Definition backslash : N := 92.
Definition colon : N := 58.
Definition squote : N := 39.
Definition dquote : N := 34.
Definition LF : N := 10.
Definition CR : N := 13.
(** The capital sigma and the two small ones. *)
Definition capital_sigma : N := 931.
Definition final_sigma : N := 962.
Definition small_sigma : N := 963.
(** The capital I with a dot above; its lower case is two code points. *)
Definition capital_i_dot : N := 304.

(** The code points [c] for which [chr(c).isspace()] holds, as ranges. *)
Definition space_ranges : list (N * N) :=
  [ (9, 13); (28, 32); (133, 133); (160, 160); (5760, 5760); (8192, 8202);
    (8232, 8233); (8239, 8239); (8287, 8287); (12288, 12288) ]%N.

(** The code points with the property Uppercase: those for which
    [chr(c).isupper()] holds. *)
Definition upper_ranges : list (N * N) :=
  [ (65, 90); (192, 214); (216, 222); (256, 256); (258, 258); (260, 260);
    (262, 262); (264, 264); (266, 266); (268, 268); (270, 270); (272, 272);
    (274, 274); (276, 276); (278, 278); (280, 280); (282, 282); (284, 284);
    (286, 286); (288, 288); (290, 290); (292, 292); (294, 294); (296, 296);
    (298, 298); (300, 300); (302, 302); (304, 304); (306, 306); (308, 308);
    (310, 310); (313, 313); (315, 315); (317, 317); (319, 319); (321, 321);
    (323, 323); (325, 325); (327, 327); (330, 330); (332, 332); (334, 334);
    (336, 336); (338, 338); (340, 340); (342, 342); (344, 344); (346, 346);
    (348, 348); (350, 350); (352, 352); (354, 354); (356, 356); (358, 358);
    (360, 360); (362, 362); (364, 364); (366, 366); (368, 368); (370, 370);
    (372, 372); (374, 374); (376, 377); (379, 379); (381, 381); (385, 386);
    (388, 388); (390, 391); (393, 395); (398, 401); (403, 404); (406, 408);
    (412, 413); (415, 416); (418, 418); (420, 420); (422, 423); (425, 425);
    (428, 428); (430, 431); (433, 435); (437, 437); (439, 440); (444, 444);
    (452, 452); (455, 455); (458, 458); (461, 461); (463, 463); (465, 465);
    (467, 467); (469, 469); (471, 471); (473, 473); (475, 475); (478, 478);
    (480, 480); (482, 482); (484, 484); (486, 486); (488, 488); (490, 490);
    (492, 492); (494, 494); (497, 497); (500, 500); (502, 504); (506, 506);
    (508, 508); (510, 510); (512, 512); (514, 514); (516, 516); (518, 518);
    (520, 520); (522, 522); (524, 524); (526, 526); (528, 528); (530, 530);
    (532, 532); (534, 534); (536, 536); (538, 538); (540, 540); (542, 542);
    (544, 544); (546, 546); (548, 548); (550, 550); (552, 552); (554, 554);
    (556, 556); (558, 558); (560, 560); (562, 562); (570, 571); (573, 574);
    (577, 577); (579, 582); (584, 584); (586, 586); (588, 588); (590, 590);
    (880, 880); (882, 882); (886, 886); (895, 895); (902, 902); (904, 906);
    (908, 908); (910, 911); (913, 929); (931, 939); (975, 975); (978, 980);
    (984, 984); (986, 986); (988, 988); (990, 990); (992, 992); (994, 994);
    (996, 996); (998, 998); (1000, 1000); (1002, 1002); (1004, 1004); (1006,
    1006); (1012, 1012); (1015, 1015); (1017, 1018); (1021, 1071); (1120,
    1120); (1122, 1122); (1124, 1124); (1126, 1126); (1128, 1128); (1130,
    1130); (1132, 1132); (1134, 1134); (1136, 1136); (1138, 1138); (1140,
    1140); (1142, 1142); (1144, 1144); (1146, 1146); (1148, 1148); (1150,
    1150); (1152, 1152); (1162, 1162); (1164, 1164); (1166, 1166); (1168,
    1168); (1170, 1170); (1172, 1172); (1174, 1174); (1176, 1176); (1178,
    1178); (1180, 1180); (1182, 1182); (1184, 1184); (1186, 1186); (1188,
    1188); (1190, 1190); (1192, 1192); (1194, 1194); (1196, 1196); (1198,
    1198); (1200, 1200); (1202, 1202); (1204, 1204); (1206, 1206); (1208,
    1208); (1210, 1210); (1212, 1212); (1214, 1214); (1216, 1217); (1219,
    1219); (1221, 1221); (1223, 1223); (1225, 1225); (1227, 1227); (1229,
    1229); (1232, 1232); (1234, 1234); (1236, 1236); (1238, 1238); (1240,
    1240); (1242, 1242); (1244, 1244); (1246, 1246); (1248, 1248); (1250,
    1250); (1252, 1252); (1254, 1254); (1256, 1256); (1258, 1258); (1260,
    1260); (1262, 1262); (1264, 1264); (1266, 1266); (1268, 1268); (1270,
    1270); (1272, 1272); (1274, 1274); (1276, 1276); (1278, 1278); (1280,
    1280); (1282, 1282); (1284, 1284); (1286, 1286); (1288, 1288); (1290,
    1290); (1292, 1292); (1294, 1294); (1296, 1296); (1298, 1298); (1300,
    1300); (1302, 1302); (1304, 1304); (1306, 1306); (1308, 1308); (1310,
    1310); (1312, 1312); (1314, 1314); (1316, 1316); (1318, 1318); (1320,
    1320); (1322, 1322); (1324, 1324); (1326, 1326); (1329, 1366); (4256,
    4293); (4295, 4295); (4301, 4301); (5024, 5109); (7312, 7354); (7357,
    7359); (7680, 7680); (7682, 7682); (7684, 7684); (7686, 7686); (7688,
    7688); (7690, 7690); (7692, 7692); (7694, 7694); (7696, 7696); (7698,
    7698); (7700, 7700); (7702, 7702); (7704, 7704); (7706, 7706); (7708,
    7708); (7710, 7710); (7712, 7712); (7714, 7714); (7716, 7716); (7718,
    7718); (7720, 7720); (7722, 7722); (7724, 7724); (7726, 7726); (7728,
    7728); (7730, 7730); (7732, 7732); (7734, 7734); (7736, 7736); (7738,
    7738); (7740, 7740); (7742, 7742); (7744, 7744); (7746, 7746); (7748,
    7748); (7750, 7750); (7752, 7752); (7754, 7754); (7756, 7756); (7758,
    7758); (7760, 7760); (7762, 7762); (7764, 7764); (7766, 7766); (7768,
    7768); (7770, 7770); (7772, 7772); (7774, 7774); (7776, 7776); (7778,
    7778); (7780, 7780); (7782, 7782); (7784, 7784); (7786, 7786); (7788,
    7788); (7790, 7790); (7792, 7792); (7794, 7794); (7796, 7796); (7798,
    7798); (7800, 7800); (7802, 7802); (7804, 7804); (7806, 7806); (7808,
    7808); (7810, 7810); (7812, 7812); (7814, 7814); (7816, 7816); (7818,
    7818); (7820, 7820); (7822, 7822); (7824, 7824); (7826, 7826); (7828,
    7828); (7838, 7838); (7840, 7840); (7842, 7842); (7844, 7844); (7846,
    7846); (7848, 7848); (7850, 7850); (7852, 7852); (7854, 7854); (7856,
    7856); (7858, 7858); (7860, 7860); (7862, 7862); (7864, 7864); (7866,
    7866); (7868, 7868); (7870, 7870); (7872, 7872); (7874, 7874); (7876,
    7876); (7878, 7878); (7880, 7880); (7882, 7882); (7884, 7884); (7886,
    7886); (7888, 7888); (7890, 7890); (7892, 7892); (7894, 7894); (7896,
    7896); (7898, 7898); (7900, 7900); (7902, 7902); (7904, 7904); (7906,
    7906); (7908, 7908); (7910, 7910); (7912, 7912); (7914, 7914); (7916,
    7916); (7918, 7918); (7920, 7920); (7922, 7922); (7924, 7924); (7926,
    7926); (7928, 7928); (7930, 7930); (7932, 7932); (7934, 7934); (7944,
    7951); (7960, 7965); (7976, 7983); (7992, 7999); (8008, 8013); (8025,
    8025); (8027, 8027); (8029, 8029); (8031, 8031); (8040, 8047); (8120,
    8123); (8136, 8139); (8152, 8155); (8168, 8172); (8184, 8187); (8450,
    8450); (8455, 8455); (8459, 8461); (8464, 8466); (8469, 8469); (8473,
    8477); (8484, 8484); (8486, 8486); (8488, 8488); (8490, 8493); (8496,
    8499); (8510, 8511); (8517, 8517); (8544, 8559); (8579, 8579); (9398,
    9423); (11264, 11311); (11360, 11360); (11362, 11364); (11367, 11367);
    (11369, 11369); (11371, 11371); (11373, 11376); (11378, 11378); (11381,
    11381); (11390, 11392); (11394, 11394); (11396, 11396); (11398, 11398);
    (11400, 11400); (11402, 11402); (11404, 11404); (11406, 11406); (11408,
    11408); (11410, 11410); (11412, 11412); (11414, 11414); (11416, 11416);
    (11418, 11418); (11420, 11420); (11422, 11422); (11424, 11424); (11426,
    11426); (11428, 11428); (11430, 11430); (11432, 11432); (11434, 11434);
    (11436, 11436); (11438, 11438); (11440, 11440); (11442, 11442); (11444,
    11444); (11446, 11446); (11448, 11448); (11450, 11450); (11452, 11452);
    (11454, 11454); (11456, 11456); (11458, 11458); (11460, 11460); (11462,
    11462); (11464, 11464); (11466, 11466); (11468, 11468); (11470, 11470);
    (11472, 11472); (11474, 11474); (11476, 11476); (11478, 11478); (11480,
    11480); (11482, 11482); (11484, 11484); (11486, 11486); (11488, 11488);
    (11490, 11490); (11499, 11499); (11501, 11501); (11506, 11506); (42560,
    42560); (42562, 42562); (42564, 42564); (42566, 42566); (42568, 42568);
    (42570, 42570); (42572, 42572); (42574, 42574); (42576, 42576); (42578,
    42578); (42580, 42580); (42582, 42582); (42584, 42584); (42586, 42586);
    (42588, 42588); (42590, 42590); (42592, 42592); (42594, 42594); (42596,
    42596); (42598, 42598); (42600, 42600); (42602, 42602); (42604, 42604);
    (42624, 42624); (42626, 42626); (42628, 42628); (42630, 42630); (42632,
    42632); (42634, 42634); (42636, 42636); (42638, 42638); (42640, 42640);
    (42642, 42642); (42644, 42644); (42646, 42646); (42648, 42648); (42650,
    42650); (42786, 42786); (42788, 42788); (42790, 42790); (42792, 42792);
    (42794, 42794); (42796, 42796); (42798, 42798); (42802, 42802); (42804,
    42804); (42806, 42806); (42808, 42808); (42810, 42810); (42812, 42812);
    (42814, 42814); (42816, 42816); (42818, 42818); (42820, 42820); (42822,
    42822); (42824, 42824); (42826, 42826); (42828, 42828); (42830, 42830);
    (42832, 42832); (42834, 42834); (42836, 42836); (42838, 42838); (42840,
    42840); (42842, 42842); (42844, 42844); (42846, 42846); (42848, 42848);
    (42850, 42850); (42852, 42852); (42854, 42854); (42856, 42856); (42858,
    42858); (42860, 42860); (42862, 42862); (42873, 42873); (42875, 42875);
    (42877, 42878); (42880, 42880); (42882, 42882); (42884, 42884); (42886,
    42886); (42891, 42891); (42893, 42893); (42896, 42896); (42898, 42898);
    (42902, 42902); (42904, 42904); (42906, 42906); (42908, 42908); (42910,
    42910); (42912, 42912); (42914, 42914); (42916, 42916); (42918, 42918);
    (42920, 42920); (42922, 42926); (42928, 42932); (42934, 42934); (42936,
    42936); (42938, 42938); (42940, 42940); (42942, 42942); (42944, 42944);
    (42946, 42946); (42948, 42951); (42953, 42953); (42960, 42960); (42966,
    42966); (42968, 42968); (42997, 42997); (65313, 65338); (66560, 66599);
    (66736, 66771); (66928, 66938); (66940, 66954); (66956, 66962); (66964,
    66965); (68736, 68786); (71840, 71871); (93760, 93791); (119808, 119833);
    (119860, 119885); (119912, 119937); (119964, 119964); (119966, 119967);
    (119970, 119970); (119973, 119974); (119977, 119980); (119982, 119989);
    (120016, 120041); (120068, 120069); (120071, 120074); (120077, 120084);
    (120086, 120092); (120120, 120121); (120123, 120126); (120128, 120132);
    (120134, 120134); (120138, 120144); (120172, 120197); (120224, 120249);
    (120276, 120301); (120328, 120353); (120380, 120405); (120432, 120457);
    (120488, 120512); (120546, 120570); (120604, 120628); (120662, 120686);
    (120720, 120744); (120778, 120778); (125184, 125217); (127280, 127305);
    (127312, 127337); (127344, 127369) ]%N.

(** The code points with the property Cased. *)
Definition cased_ranges : list (N * N) :=
  [ (65, 90); (97, 122); (170, 170); (181, 181); (186, 186); (192, 214); (216,
    246); (248, 442); (444, 447); (452, 659); (661, 696); (704, 705); (736,
    740); (837, 837); (880, 883); (886, 887); (890, 893); (895, 895); (902,
    902); (904, 906); (908, 908); (910, 929); (931, 1013); (1015, 1153);
    (1162, 1327); (1329, 1366); (1376, 1416); (4256, 4293); (4295, 4295);
    (4301, 4301); (4304, 4346); (4349, 4351); (5024, 5109); (5112, 5117);
    (7296, 7304); (7312, 7354); (7357, 7359); (7424, 7615); (7680, 7957);
    (7960, 7965); (7968, 8005); (8008, 8013); (8016, 8023); (8025, 8025);
    (8027, 8027); (8029, 8029); (8031, 8061); (8064, 8116); (8118, 8124);
    (8126, 8126); (8130, 8132); (8134, 8140); (8144, 8147); (8150, 8155);
    (8160, 8172); (8178, 8180); (8182, 8188); (8305, 8305); (8319, 8319);
    (8336, 8348); (8450, 8450); (8455, 8455); (8458, 8467); (8469, 8469);
    (8473, 8477); (8484, 8484); (8486, 8486); (8488, 8488); (8490, 8493);
    (8495, 8500); (8505, 8505); (8508, 8511); (8517, 8521); (8526, 8526);
    (8544, 8575); (8579, 8580); (9398, 9449); (11264, 11492); (11499, 11502);
    (11506, 11507); (11520, 11557); (11559, 11559); (11565, 11565); (42560,
    42605); (42624, 42653); (42786, 42887); (42891, 42894); (42896, 42954);
    (42960, 42961); (42963, 42963); (42965, 42969); (42997, 42998); (43000,
    43002); (43824, 43866); (43868, 43880); (43888, 43967); (64256, 64262);
    (64275, 64279); (65313, 65338); (65345, 65370); (66560, 66639); (66736,
    66771); (66776, 66811); (66928, 66938); (66940, 66954); (66956, 66962);
    (66964, 66965); (66967, 66977); (66979, 66993); (66995, 67001); (67003,
    67004); (67456, 67456); (67459, 67461); (67463, 67504); (67506, 67514);
    (68736, 68786); (68800, 68850); (71840, 71903); (93760, 93823); (119808,
    119892); (119894, 119964); (119966, 119967); (119970, 119970); (119973,
    119974); (119977, 119980); (119982, 119993); (119995, 119995); (119997,
    120003); (120005, 120069); (120071, 120074); (120077, 120084); (120086,
    120092); (120094, 120121); (120123, 120126); (120128, 120132); (120134,
    120134); (120138, 120144); (120146, 120485); (120488, 120512); (120514,
    120538); (120540, 120570); (120572, 120596); (120598, 120628); (120630,
    120654); (120656, 120686); (120688, 120712); (120714, 120744); (120746,
    120770); (120772, 120779); (122624, 122633); (122635, 122654); (125184,
    125251); (127280, 127305); (127312, 127337); (127344, 127369) ]%N.

(** The code points with the property Case_Ignorable. *)
Definition case_ignorable_ranges : list (N * N) :=
  [ (39, 39); (46, 46); (58, 58); (94, 94); (96, 96); (168, 168); (173, 173);
    (175, 175); (180, 180); (183, 184); (688, 879); (884, 885); (890, 890);
    (900, 901); (903, 903); (1155, 1161); (1369, 1369); (1375, 1375); (1425,
    1469); (1471, 1471); (1473, 1474); (1476, 1477); (1479, 1479); (1524,
    1524); (1536, 1541); (1552, 1562); (1564, 1564); (1600, 1600); (1611,
    1631); (1648, 1648); (1750, 1757); (1759, 1768); (1770, 1773); (1807,
    1807); (1809, 1809); (1840, 1866); (1958, 1968); (2027, 2037); (2042,
    2042); (2045, 2045); (2070, 2093); (2137, 2139); (2184, 2184); (2192,
    2193); (2200, 2207); (2249, 2306); (2362, 2362); (2364, 2364); (2369,
    2376); (2381, 2381); (2385, 2391); (2402, 2403); (2417, 2417); (2433,
    2433); (2492, 2492); (2497, 2500); (2509, 2509); (2530, 2531); (2558,
    2558); (2561, 2562); (2620, 2620); (2625, 2626); (2631, 2632); (2635,
    2637); (2641, 2641); (2672, 2673); (2677, 2677); (2689, 2690); (2748,
    2748); (2753, 2757); (2759, 2760); (2765, 2765); (2786, 2787); (2810,
    2815); (2817, 2817); (2876, 2876); (2879, 2879); (2881, 2884); (2893,
    2893); (2901, 2902); (2914, 2915); (2946, 2946); (3008, 3008); (3021,
    3021); (3072, 3072); (3076, 3076); (3132, 3132); (3134, 3136); (3142,
    3144); (3146, 3149); (3157, 3158); (3170, 3171); (3201, 3201); (3260,
    3260); (3263, 3263); (3270, 3270); (3276, 3277); (3298, 3299); (3328,
    3329); (3387, 3388); (3393, 3396); (3405, 3405); (3426, 3427); (3457,
    3457); (3530, 3530); (3538, 3540); (3542, 3542); (3633, 3633); (3636,
    3642); (3654, 3662); (3761, 3761); (3764, 3772); (3782, 3782); (3784,
    3789); (3864, 3865); (3893, 3893); (3895, 3895); (3897, 3897); (3953,
    3966); (3968, 3972); (3974, 3975); (3981, 3991); (3993, 4028); (4038,
    4038); (4141, 4144); (4146, 4151); (4153, 4154); (4157, 4158); (4184,
    4185); (4190, 4192); (4209, 4212); (4226, 4226); (4229, 4230); (4237,
    4237); (4253, 4253); (4348, 4348); (4957, 4959); (5906, 5908); (5938,
    5939); (5970, 5971); (6002, 6003); (6068, 6069); (6071, 6077); (6086,
    6086); (6089, 6099); (6103, 6103); (6109, 6109); (6155, 6159); (6211,
    6211); (6277, 6278); (6313, 6313); (6432, 6434); (6439, 6440); (6450,
    6450); (6457, 6459); (6679, 6680); (6683, 6683); (6742, 6742); (6744,
    6750); (6752, 6752); (6754, 6754); (6757, 6764); (6771, 6780); (6783,
    6783); (6823, 6823); (6832, 6862); (6912, 6915); (6964, 6964); (6966,
    6970); (6972, 6972); (6978, 6978); (7019, 7027); (7040, 7041); (7074,
    7077); (7080, 7081); (7083, 7085); (7142, 7142); (7144, 7145); (7149,
    7149); (7151, 7153); (7212, 7219); (7222, 7223); (7288, 7293); (7376,
    7378); (7380, 7392); (7394, 7400); (7405, 7405); (7412, 7412); (7416,
    7417); (7468, 7530); (7544, 7544); (7579, 7679); (8125, 8125); (8127,
    8129); (8141, 8143); (8157, 8159); (8173, 8175); (8189, 8190); (8203,
    8207); (8216, 8217); (8228, 8228); (8231, 8231); (8234, 8238); (8288,
    8292); (8294, 8303); (8305, 8305); (8319, 8319); (8336, 8348); (8400,
    8432); (11388, 11389); (11503, 11505); (11631, 11631); (11647, 11647);
    (11744, 11775); (11823, 11823); (12293, 12293); (12330, 12333); (12337,
    12341); (12347, 12347); (12441, 12446); (12540, 12542); (40981, 40981);
    (42232, 42237); (42508, 42508); (42607, 42610); (42612, 42621); (42623,
    42623); (42652, 42655); (42736, 42737); (42752, 42785); (42864, 42864);
    (42888, 42890); (42994, 42996); (43000, 43001); (43010, 43010); (43014,
    43014); (43019, 43019); (43045, 43046); (43052, 43052); (43204, 43205);
    (43232, 43249); (43263, 43263); (43302, 43309); (43335, 43345); (43392,
    43394); (43443, 43443); (43446, 43449); (43452, 43453); (43471, 43471);
    (43493, 43494); (43561, 43566); (43569, 43570); (43573, 43574); (43587,
    43587); (43596, 43596); (43632, 43632); (43644, 43644); (43696, 43696);
    (43698, 43700); (43703, 43704); (43710, 43711); (43713, 43713); (43741,
    43741); (43756, 43757); (43763, 43764); (43766, 43766); (43867, 43871);
    (43881, 43883); (44005, 44005); (44008, 44008); (44013, 44013); (64286,
    64286); (64434, 64450); (65024, 65039); (65043, 65043); (65056, 65071);
    (65106, 65106); (65109, 65109); (65279, 65279); (65287, 65287); (65294,
    65294); (65306, 65306); (65342, 65342); (65344, 65344); (65392, 65392);
    (65438, 65439); (65507, 65507); (65529, 65531); (66045, 66045); (66272,
    66272); (66422, 66426); (67456, 67461); (67463, 67504); (67506, 67514);
    (68097, 68099); (68101, 68102); (68108, 68111); (68152, 68154); (68159,
    68159); (68325, 68326); (68900, 68903); (69291, 69292); (69446, 69456);
    (69506, 69509); (69633, 69633); (69688, 69702); (69744, 69744); (69747,
    69748); (69759, 69761); (69811, 69814); (69817, 69818); (69821, 69821);
    (69826, 69826); (69837, 69837); (69888, 69890); (69927, 69931); (69933,
    69940); (70003, 70003); (70016, 70017); (70070, 70078); (70089, 70092);
    (70095, 70095); (70191, 70193); (70196, 70196); (70198, 70199); (70206,
    70206); (70367, 70367); (70371, 70378); (70400, 70401); (70459, 70460);
    (70464, 70464); (70502, 70508); (70512, 70516); (70712, 70719); (70722,
    70724); (70726, 70726); (70750, 70750); (70835, 70840); (70842, 70842);
    (70847, 70848); (70850, 70851); (71090, 71093); (71100, 71101); (71103,
    71104); (71132, 71133); (71219, 71226); (71229, 71229); (71231, 71232);
    (71339, 71339); (71341, 71341); (71344, 71349); (71351, 71351); (71453,
    71455); (71458, 71461); (71463, 71467); (71727, 71735); (71737, 71738);
    (71995, 71996); (71998, 71998); (72003, 72003); (72148, 72151); (72154,
    72155); (72160, 72160); (72193, 72202); (72243, 72248); (72251, 72254);
    (72263, 72263); (72273, 72278); (72281, 72283); (72330, 72342); (72344,
    72345); (72752, 72758); (72760, 72765); (72767, 72767); (72850, 72871);
    (72874, 72880); (72882, 72883); (72885, 72886); (73009, 73014); (73018,
    73018); (73020, 73021); (73023, 73029); (73031, 73031); (73104, 73105);
    (73109, 73109); (73111, 73111); (73459, 73460); (78896, 78904); (92912,
    92916); (92976, 92982); (92992, 92995); (94031, 94031); (94095, 94111);
    (94176, 94177); (94179, 94180); (110576, 110579); (110581, 110587);
    (110589, 110590); (113821, 113822); (113824, 113827); (118528, 118573);
    (118576, 118598); (119143, 119145); (119155, 119170); (119173, 119179);
    (119210, 119213); (119362, 119364); (121344, 121398); (121403, 121452);
    (121461, 121461); (121476, 121476); (121499, 121503); (121505, 121519);
    (122880, 122886); (122888, 122904); (122907, 122913); (122915, 122916);
    (122918, 122922); (123184, 123197); (123566, 123566); (123628, 123631);
    (125136, 125142); (125252, 125259); (127995, 127999); (917505, 917505);
    (917536, 917631); (917760, 917999) ]%N.

(** The code points whose lower case is one other code point, each with
    that code point. *)
Definition lower_table : list (N * N) :=
  [ (65, 97); (66, 98); (67, 99); (68, 100); (69, 101); (70, 102); (71, 103);
    (72, 104); (73, 105); (74, 106); (75, 107); (76, 108); (77, 109); (78,
    110); (79, 111); (80, 112); (81, 113); (82, 114); (83, 115); (84, 116);
    (85, 117); (86, 118); (87, 119); (88, 120); (89, 121); (90, 122); (192,
    224); (193, 225); (194, 226); (195, 227); (196, 228); (197, 229); (198,
    230); (199, 231); (200, 232); (201, 233); (202, 234); (203, 235); (204,
    236); (205, 237); (206, 238); (207, 239); (208, 240); (209, 241); (210,
    242); (211, 243); (212, 244); (213, 245); (214, 246); (216, 248); (217,
    249); (218, 250); (219, 251); (220, 252); (221, 253); (222, 254); (256,
    257); (258, 259); (260, 261); (262, 263); (264, 265); (266, 267); (268,
    269); (270, 271); (272, 273); (274, 275); (276, 277); (278, 279); (280,
    281); (282, 283); (284, 285); (286, 287); (288, 289); (290, 291); (292,
    293); (294, 295); (296, 297); (298, 299); (300, 301); (302, 303); (306,
    307); (308, 309); (310, 311); (313, 314); (315, 316); (317, 318); (319,
    320); (321, 322); (323, 324); (325, 326); (327, 328); (330, 331); (332,
    333); (334, 335); (336, 337); (338, 339); (340, 341); (342, 343); (344,
    345); (346, 347); (348, 349); (350, 351); (352, 353); (354, 355); (356,
    357); (358, 359); (360, 361); (362, 363); (364, 365); (366, 367); (368,
    369); (370, 371); (372, 373); (374, 375); (376, 255); (377, 378); (379,
    380); (381, 382); (385, 595); (386, 387); (388, 389); (390, 596); (391,
    392); (393, 598); (394, 599); (395, 396); (398, 477); (399, 601); (400,
    603); (401, 402); (403, 608); (404, 611); (406, 617); (407, 616); (408,
    409); (412, 623); (413, 626); (415, 629); (416, 417); (418, 419); (420,
    421); (422, 640); (423, 424); (425, 643); (428, 429); (430, 648); (431,
    432); (433, 650); (434, 651); (435, 436); (437, 438); (439, 658); (440,
    441); (444, 445); (452, 454); (453, 454); (455, 457); (456, 457); (458,
    460); (459, 460); (461, 462); (463, 464); (465, 466); (467, 468); (469,
    470); (471, 472); (473, 474); (475, 476); (478, 479); (480, 481); (482,
    483); (484, 485); (486, 487); (488, 489); (490, 491); (492, 493); (494,
    495); (497, 499); (498, 499); (500, 501); (502, 405); (503, 447); (504,
    505); (506, 507); (508, 509); (510, 511); (512, 513); (514, 515); (516,
    517); (518, 519); (520, 521); (522, 523); (524, 525); (526, 527); (528,
    529); (530, 531); (532, 533); (534, 535); (536, 537); (538, 539); (540,
    541); (542, 543); (544, 414); (546, 547); (548, 549); (550, 551); (552,
    553); (554, 555); (556, 557); (558, 559); (560, 561); (562, 563); (570,
    11365); (571, 572); (573, 410); (574, 11366); (577, 578); (579, 384);
    (580, 649); (581, 652); (582, 583); (584, 585); (586, 587); (588, 589);
    (590, 591); (880, 881); (882, 883); (886, 887); (895, 1011); (902, 940);
    (904, 941); (905, 942); (906, 943); (908, 972); (910, 973); (911, 974);
    (913, 945); (914, 946); (915, 947); (916, 948); (917, 949); (918, 950);
    (919, 951); (920, 952); (921, 953); (922, 954); (923, 955); (924, 956);
    (925, 957); (926, 958); (927, 959); (928, 960); (929, 961); (931, 963);
    (932, 964); (933, 965); (934, 966); (935, 967); (936, 968); (937, 969);
    (938, 970); (939, 971); (975, 983); (984, 985); (986, 987); (988, 989);
    (990, 991); (992, 993); (994, 995); (996, 997); (998, 999); (1000, 1001);
    (1002, 1003); (1004, 1005); (1006, 1007); (1012, 952); (1015, 1016);
    (1017, 1010); (1018, 1019); (1021, 891); (1022, 892); (1023, 893); (1024,
    1104); (1025, 1105); (1026, 1106); (1027, 1107); (1028, 1108); (1029,
    1109); (1030, 1110); (1031, 1111); (1032, 1112); (1033, 1113); (1034,
    1114); (1035, 1115); (1036, 1116); (1037, 1117); (1038, 1118); (1039,
    1119); (1040, 1072); (1041, 1073); (1042, 1074); (1043, 1075); (1044,
    1076); (1045, 1077); (1046, 1078); (1047, 1079); (1048, 1080); (1049,
    1081); (1050, 1082); (1051, 1083); (1052, 1084); (1053, 1085); (1054,
    1086); (1055, 1087); (1056, 1088); (1057, 1089); (1058, 1090); (1059,
    1091); (1060, 1092); (1061, 1093); (1062, 1094); (1063, 1095); (1064,
    1096); (1065, 1097); (1066, 1098); (1067, 1099); (1068, 1100); (1069,
    1101); (1070, 1102); (1071, 1103); (1120, 1121); (1122, 1123); (1124,
    1125); (1126, 1127); (1128, 1129); (1130, 1131); (1132, 1133); (1134,
    1135); (1136, 1137); (1138, 1139); (1140, 1141); (1142, 1143); (1144,
    1145); (1146, 1147); (1148, 1149); (1150, 1151); (1152, 1153); (1162,
    1163); (1164, 1165); (1166, 1167); (1168, 1169); (1170, 1171); (1172,
    1173); (1174, 1175); (1176, 1177); (1178, 1179); (1180, 1181); (1182,
    1183); (1184, 1185); (1186, 1187); (1188, 1189); (1190, 1191); (1192,
    1193); (1194, 1195); (1196, 1197); (1198, 1199); (1200, 1201); (1202,
    1203); (1204, 1205); (1206, 1207); (1208, 1209); (1210, 1211); (1212,
    1213); (1214, 1215); (1216, 1231); (1217, 1218); (1219, 1220); (1221,
    1222); (1223, 1224); (1225, 1226); (1227, 1228); (1229, 1230); (1232,
    1233); (1234, 1235); (1236, 1237); (1238, 1239); (1240, 1241); (1242,
    1243); (1244, 1245); (1246, 1247); (1248, 1249); (1250, 1251); (1252,
    1253); (1254, 1255); (1256, 1257); (1258, 1259); (1260, 1261); (1262,
    1263); (1264, 1265); (1266, 1267); (1268, 1269); (1270, 1271); (1272,
    1273); (1274, 1275); (1276, 1277); (1278, 1279); (1280, 1281); (1282,
    1283); (1284, 1285); (1286, 1287); (1288, 1289); (1290, 1291); (1292,
    1293); (1294, 1295); (1296, 1297); (1298, 1299); (1300, 1301); (1302,
    1303); (1304, 1305); (1306, 1307); (1308, 1309); (1310, 1311); (1312,
    1313); (1314, 1315); (1316, 1317); (1318, 1319); (1320, 1321); (1322,
    1323); (1324, 1325); (1326, 1327); (1329, 1377); (1330, 1378); (1331,
    1379); (1332, 1380); (1333, 1381); (1334, 1382); (1335, 1383); (1336,
    1384); (1337, 1385); (1338, 1386); (1339, 1387); (1340, 1388); (1341,
    1389); (1342, 1390); (1343, 1391); (1344, 1392); (1345, 1393); (1346,
    1394); (1347, 1395); (1348, 1396); (1349, 1397); (1350, 1398); (1351,
    1399); (1352, 1400); (1353, 1401); (1354, 1402); (1355, 1403); (1356,
    1404); (1357, 1405); (1358, 1406); (1359, 1407); (1360, 1408); (1361,
    1409); (1362, 1410); (1363, 1411); (1364, 1412); (1365, 1413); (1366,
    1414); (4256, 11520); (4257, 11521); (4258, 11522); (4259, 11523); (4260,
    11524); (4261, 11525); (4262, 11526); (4263, 11527); (4264, 11528); (4265,
    11529); (4266, 11530); (4267, 11531); (4268, 11532); (4269, 11533); (4270,
    11534); (4271, 11535); (4272, 11536); (4273, 11537); (4274, 11538); (4275,
    11539); (4276, 11540); (4277, 11541); (4278, 11542); (4279, 11543); (4280,
    11544); (4281, 11545); (4282, 11546); (4283, 11547); (4284, 11548); (4285,
    11549); (4286, 11550); (4287, 11551); (4288, 11552); (4289, 11553); (4290,
    11554); (4291, 11555); (4292, 11556); (4293, 11557); (4295, 11559); (4301,
    11565); (5024, 43888); (5025, 43889); (5026, 43890); (5027, 43891); (5028,
    43892); (5029, 43893); (5030, 43894); (5031, 43895); (5032, 43896); (5033,
    43897); (5034, 43898); (5035, 43899); (5036, 43900); (5037, 43901); (5038,
    43902); (5039, 43903); (5040, 43904); (5041, 43905); (5042, 43906); (5043,
    43907); (5044, 43908); (5045, 43909); (5046, 43910); (5047, 43911); (5048,
    43912); (5049, 43913); (5050, 43914); (5051, 43915); (5052, 43916); (5053,
    43917); (5054, 43918); (5055, 43919); (5056, 43920); (5057, 43921); (5058,
    43922); (5059, 43923); (5060, 43924); (5061, 43925); (5062, 43926); (5063,
    43927); (5064, 43928); (5065, 43929); (5066, 43930); (5067, 43931); (5068,
    43932); (5069, 43933); (5070, 43934); (5071, 43935); (5072, 43936); (5073,
    43937); (5074, 43938); (5075, 43939); (5076, 43940); (5077, 43941); (5078,
    43942); (5079, 43943); (5080, 43944); (5081, 43945); (5082, 43946); (5083,
    43947); (5084, 43948); (5085, 43949); (5086, 43950); (5087, 43951); (5088,
    43952); (5089, 43953); (5090, 43954); (5091, 43955); (5092, 43956); (5093,
    43957); (5094, 43958); (5095, 43959); (5096, 43960); (5097, 43961); (5098,
    43962); (5099, 43963); (5100, 43964); (5101, 43965); (5102, 43966); (5103,
    43967); (5104, 5112); (5105, 5113); (5106, 5114); (5107, 5115); (5108,
    5116); (5109, 5117); (7312, 4304); (7313, 4305); (7314, 4306); (7315,
    4307); (7316, 4308); (7317, 4309); (7318, 4310); (7319, 4311); (7320,
    4312); (7321, 4313); (7322, 4314); (7323, 4315); (7324, 4316); (7325,
    4317); (7326, 4318); (7327, 4319); (7328, 4320); (7329, 4321); (7330,
    4322); (7331, 4323); (7332, 4324); (7333, 4325); (7334, 4326); (7335,
    4327); (7336, 4328); (7337, 4329); (7338, 4330); (7339, 4331); (7340,
    4332); (7341, 4333); (7342, 4334); (7343, 4335); (7344, 4336); (7345,
    4337); (7346, 4338); (7347, 4339); (7348, 4340); (7349, 4341); (7350,
    4342); (7351, 4343); (7352, 4344); (7353, 4345); (7354, 4346); (7357,
    4349); (7358, 4350); (7359, 4351); (7680, 7681); (7682, 7683); (7684,
    7685); (7686, 7687); (7688, 7689); (7690, 7691); (7692, 7693); (7694,
    7695); (7696, 7697); (7698, 7699); (7700, 7701); (7702, 7703); (7704,
    7705); (7706, 7707); (7708, 7709); (7710, 7711); (7712, 7713); (7714,
    7715); (7716, 7717); (7718, 7719); (7720, 7721); (7722, 7723); (7724,
    7725); (7726, 7727); (7728, 7729); (7730, 7731); (7732, 7733); (7734,
    7735); (7736, 7737); (7738, 7739); (7740, 7741); (7742, 7743); (7744,
    7745); (7746, 7747); (7748, 7749); (7750, 7751); (7752, 7753); (7754,
    7755); (7756, 7757); (7758, 7759); (7760, 7761); (7762, 7763); (7764,
    7765); (7766, 7767); (7768, 7769); (7770, 7771); (7772, 7773); (7774,
    7775); (7776, 7777); (7778, 7779); (7780, 7781); (7782, 7783); (7784,
    7785); (7786, 7787); (7788, 7789); (7790, 7791); (7792, 7793); (7794,
    7795); (7796, 7797); (7798, 7799); (7800, 7801); (7802, 7803); (7804,
    7805); (7806, 7807); (7808, 7809); (7810, 7811); (7812, 7813); (7814,
    7815); (7816, 7817); (7818, 7819); (7820, 7821); (7822, 7823); (7824,
    7825); (7826, 7827); (7828, 7829); (7838, 223); (7840, 7841); (7842,
    7843); (7844, 7845); (7846, 7847); (7848, 7849); (7850, 7851); (7852,
    7853); (7854, 7855); (7856, 7857); (7858, 7859); (7860, 7861); (7862,
    7863); (7864, 7865); (7866, 7867); (7868, 7869); (7870, 7871); (7872,
    7873); (7874, 7875); (7876, 7877); (7878, 7879); (7880, 7881); (7882,
    7883); (7884, 7885); (7886, 7887); (7888, 7889); (7890, 7891); (7892,
    7893); (7894, 7895); (7896, 7897); (7898, 7899); (7900, 7901); (7902,
    7903); (7904, 7905); (7906, 7907); (7908, 7909); (7910, 7911); (7912,
    7913); (7914, 7915); (7916, 7917); (7918, 7919); (7920, 7921); (7922,
    7923); (7924, 7925); (7926, 7927); (7928, 7929); (7930, 7931); (7932,
    7933); (7934, 7935); (7944, 7936); (7945, 7937); (7946, 7938); (7947,
    7939); (7948, 7940); (7949, 7941); (7950, 7942); (7951, 7943); (7960,
    7952); (7961, 7953); (7962, 7954); (7963, 7955); (7964, 7956); (7965,
    7957); (7976, 7968); (7977, 7969); (7978, 7970); (7979, 7971); (7980,
    7972); (7981, 7973); (7982, 7974); (7983, 7975); (7992, 7984); (7993,
    7985); (7994, 7986); (7995, 7987); (7996, 7988); (7997, 7989); (7998,
    7990); (7999, 7991); (8008, 8000); (8009, 8001); (8010, 8002); (8011,
    8003); (8012, 8004); (8013, 8005); (8025, 8017); (8027, 8019); (8029,
    8021); (8031, 8023); (8040, 8032); (8041, 8033); (8042, 8034); (8043,
    8035); (8044, 8036); (8045, 8037); (8046, 8038); (8047, 8039); (8072,
    8064); (8073, 8065); (8074, 8066); (8075, 8067); (8076, 8068); (8077,
    8069); (8078, 8070); (8079, 8071); (8088, 8080); (8089, 8081); (8090,
    8082); (8091, 8083); (8092, 8084); (8093, 8085); (8094, 8086); (8095,
    8087); (8104, 8096); (8105, 8097); (8106, 8098); (8107, 8099); (8108,
    8100); (8109, 8101); (8110, 8102); (8111, 8103); (8120, 8112); (8121,
    8113); (8122, 8048); (8123, 8049); (8124, 8115); (8136, 8050); (8137,
    8051); (8138, 8052); (8139, 8053); (8140, 8131); (8152, 8144); (8153,
    8145); (8154, 8054); (8155, 8055); (8168, 8160); (8169, 8161); (8170,
    8058); (8171, 8059); (8172, 8165); (8184, 8056); (8185, 8057); (8186,
    8060); (8187, 8061); (8188, 8179); (8486, 969); (8490, 107); (8491, 229);
    (8498, 8526); (8544, 8560); (8545, 8561); (8546, 8562); (8547, 8563);
    (8548, 8564); (8549, 8565); (8550, 8566); (8551, 8567); (8552, 8568);
    (8553, 8569); (8554, 8570); (8555, 8571); (8556, 8572); (8557, 8573);
    (8558, 8574); (8559, 8575); (8579, 8580); (9398, 9424); (9399, 9425);
    (9400, 9426); (9401, 9427); (9402, 9428); (9403, 9429); (9404, 9430);
    (9405, 9431); (9406, 9432); (9407, 9433); (9408, 9434); (9409, 9435);
    (9410, 9436); (9411, 9437); (9412, 9438); (9413, 9439); (9414, 9440);
    (9415, 9441); (9416, 9442); (9417, 9443); (9418, 9444); (9419, 9445);
    (9420, 9446); (9421, 9447); (9422, 9448); (9423, 9449); (11264, 11312);
    (11265, 11313); (11266, 11314); (11267, 11315); (11268, 11316); (11269,
    11317); (11270, 11318); (11271, 11319); (11272, 11320); (11273, 11321);
    (11274, 11322); (11275, 11323); (11276, 11324); (11277, 11325); (11278,
    11326); (11279, 11327); (11280, 11328); (11281, 11329); (11282, 11330);
    (11283, 11331); (11284, 11332); (11285, 11333); (11286, 11334); (11287,
    11335); (11288, 11336); (11289, 11337); (11290, 11338); (11291, 11339);
    (11292, 11340); (11293, 11341); (11294, 11342); (11295, 11343); (11296,
    11344); (11297, 11345); (11298, 11346); (11299, 11347); (11300, 11348);
    (11301, 11349); (11302, 11350); (11303, 11351); (11304, 11352); (11305,
    11353); (11306, 11354); (11307, 11355); (11308, 11356); (11309, 11357);
    (11310, 11358); (11311, 11359); (11360, 11361); (11362, 619); (11363,
    7549); (11364, 637); (11367, 11368); (11369, 11370); (11371, 11372);
    (11373, 593); (11374, 625); (11375, 592); (11376, 594); (11378, 11379);
    (11381, 11382); (11390, 575); (11391, 576); (11392, 11393); (11394,
    11395); (11396, 11397); (11398, 11399); (11400, 11401); (11402, 11403);
    (11404, 11405); (11406, 11407); (11408, 11409); (11410, 11411); (11412,
    11413); (11414, 11415); (11416, 11417); (11418, 11419); (11420, 11421);
    (11422, 11423); (11424, 11425); (11426, 11427); (11428, 11429); (11430,
    11431); (11432, 11433); (11434, 11435); (11436, 11437); (11438, 11439);
    (11440, 11441); (11442, 11443); (11444, 11445); (11446, 11447); (11448,
    11449); (11450, 11451); (11452, 11453); (11454, 11455); (11456, 11457);
    (11458, 11459); (11460, 11461); (11462, 11463); (11464, 11465); (11466,
    11467); (11468, 11469); (11470, 11471); (11472, 11473); (11474, 11475);
    (11476, 11477); (11478, 11479); (11480, 11481); (11482, 11483); (11484,
    11485); (11486, 11487); (11488, 11489); (11490, 11491); (11499, 11500);
    (11501, 11502); (11506, 11507); (42560, 42561); (42562, 42563); (42564,
    42565); (42566, 42567); (42568, 42569); (42570, 42571); (42572, 42573);
    (42574, 42575); (42576, 42577); (42578, 42579); (42580, 42581); (42582,
    42583); (42584, 42585); (42586, 42587); (42588, 42589); (42590, 42591);
    (42592, 42593); (42594, 42595); (42596, 42597); (42598, 42599); (42600,
    42601); (42602, 42603); (42604, 42605); (42624, 42625); (42626, 42627);
    (42628, 42629); (42630, 42631); (42632, 42633); (42634, 42635); (42636,
    42637); (42638, 42639); (42640, 42641); (42642, 42643); (42644, 42645);
    (42646, 42647); (42648, 42649); (42650, 42651); (42786, 42787); (42788,
    42789); (42790, 42791); (42792, 42793); (42794, 42795); (42796, 42797);
    (42798, 42799); (42802, 42803); (42804, 42805); (42806, 42807); (42808,
    42809); (42810, 42811); (42812, 42813); (42814, 42815); (42816, 42817);
    (42818, 42819); (42820, 42821); (42822, 42823); (42824, 42825); (42826,
    42827); (42828, 42829); (42830, 42831); (42832, 42833); (42834, 42835);
    (42836, 42837); (42838, 42839); (42840, 42841); (42842, 42843); (42844,
    42845); (42846, 42847); (42848, 42849); (42850, 42851); (42852, 42853);
    (42854, 42855); (42856, 42857); (42858, 42859); (42860, 42861); (42862,
    42863); (42873, 42874); (42875, 42876); (42877, 7545); (42878, 42879);
    (42880, 42881); (42882, 42883); (42884, 42885); (42886, 42887); (42891,
    42892); (42893, 613); (42896, 42897); (42898, 42899); (42902, 42903);
    (42904, 42905); (42906, 42907); (42908, 42909); (42910, 42911); (42912,
    42913); (42914, 42915); (42916, 42917); (42918, 42919); (42920, 42921);
    (42922, 614); (42923, 604); (42924, 609); (42925, 620); (42926, 618);
    (42928, 670); (42929, 647); (42930, 669); (42931, 43859); (42932, 42933);
    (42934, 42935); (42936, 42937); (42938, 42939); (42940, 42941); (42942,
    42943); (42944, 42945); (42946, 42947); (42948, 42900); (42949, 642);
    (42950, 7566); (42951, 42952); (42953, 42954); (42960, 42961); (42966,
    42967); (42968, 42969); (42997, 42998); (65313, 65345); (65314, 65346);
    (65315, 65347); (65316, 65348); (65317, 65349); (65318, 65350); (65319,
    65351); (65320, 65352); (65321, 65353); (65322, 65354); (65323, 65355);
    (65324, 65356); (65325, 65357); (65326, 65358); (65327, 65359); (65328,
    65360); (65329, 65361); (65330, 65362); (65331, 65363); (65332, 65364);
    (65333, 65365); (65334, 65366); (65335, 65367); (65336, 65368); (65337,
    65369); (65338, 65370); (66560, 66600); (66561, 66601); (66562, 66602);
    (66563, 66603); (66564, 66604); (66565, 66605); (66566, 66606); (66567,
    66607); (66568, 66608); (66569, 66609); (66570, 66610); (66571, 66611);
    (66572, 66612); (66573, 66613); (66574, 66614); (66575, 66615); (66576,
    66616); (66577, 66617); (66578, 66618); (66579, 66619); (66580, 66620);
    (66581, 66621); (66582, 66622); (66583, 66623); (66584, 66624); (66585,
    66625); (66586, 66626); (66587, 66627); (66588, 66628); (66589, 66629);
    (66590, 66630); (66591, 66631); (66592, 66632); (66593, 66633); (66594,
    66634); (66595, 66635); (66596, 66636); (66597, 66637); (66598, 66638);
    (66599, 66639); (66736, 66776); (66737, 66777); (66738, 66778); (66739,
    66779); (66740, 66780); (66741, 66781); (66742, 66782); (66743, 66783);
    (66744, 66784); (66745, 66785); (66746, 66786); (66747, 66787); (66748,
    66788); (66749, 66789); (66750, 66790); (66751, 66791); (66752, 66792);
    (66753, 66793); (66754, 66794); (66755, 66795); (66756, 66796); (66757,
    66797); (66758, 66798); (66759, 66799); (66760, 66800); (66761, 66801);
    (66762, 66802); (66763, 66803); (66764, 66804); (66765, 66805); (66766,
    66806); (66767, 66807); (66768, 66808); (66769, 66809); (66770, 66810);
    (66771, 66811); (66928, 66967); (66929, 66968); (66930, 66969); (66931,
    66970); (66932, 66971); (66933, 66972); (66934, 66973); (66935, 66974);
    (66936, 66975); (66937, 66976); (66938, 66977); (66940, 66979); (66941,
    66980); (66942, 66981); (66943, 66982); (66944, 66983); (66945, 66984);
    (66946, 66985); (66947, 66986); (66948, 66987); (66949, 66988); (66950,
    66989); (66951, 66990); (66952, 66991); (66953, 66992); (66954, 66993);
    (66956, 66995); (66957, 66996); (66958, 66997); (66959, 66998); (66960,
    66999); (66961, 67000); (66962, 67001); (66964, 67003); (66965, 67004);
    (68736, 68800); (68737, 68801); (68738, 68802); (68739, 68803); (68740,
    68804); (68741, 68805); (68742, 68806); (68743, 68807); (68744, 68808);
    (68745, 68809); (68746, 68810); (68747, 68811); (68748, 68812); (68749,
    68813); (68750, 68814); (68751, 68815); (68752, 68816); (68753, 68817);
    (68754, 68818); (68755, 68819); (68756, 68820); (68757, 68821); (68758,
    68822); (68759, 68823); (68760, 68824); (68761, 68825); (68762, 68826);
    (68763, 68827); (68764, 68828); (68765, 68829); (68766, 68830); (68767,
    68831); (68768, 68832); (68769, 68833); (68770, 68834); (68771, 68835);
    (68772, 68836); (68773, 68837); (68774, 68838); (68775, 68839); (68776,
    68840); (68777, 68841); (68778, 68842); (68779, 68843); (68780, 68844);
    (68781, 68845); (68782, 68846); (68783, 68847); (68784, 68848); (68785,
    68849); (68786, 68850); (71840, 71872); (71841, 71873); (71842, 71874);
    (71843, 71875); (71844, 71876); (71845, 71877); (71846, 71878); (71847,
    71879); (71848, 71880); (71849, 71881); (71850, 71882); (71851, 71883);
    (71852, 71884); (71853, 71885); (71854, 71886); (71855, 71887); (71856,
    71888); (71857, 71889); (71858, 71890); (71859, 71891); (71860, 71892);
    (71861, 71893); (71862, 71894); (71863, 71895); (71864, 71896); (71865,
    71897); (71866, 71898); (71867, 71899); (71868, 71900); (71869, 71901);
    (71870, 71902); (71871, 71903); (93760, 93792); (93761, 93793); (93762,
    93794); (93763, 93795); (93764, 93796); (93765, 93797); (93766, 93798);
    (93767, 93799); (93768, 93800); (93769, 93801); (93770, 93802); (93771,
    93803); (93772, 93804); (93773, 93805); (93774, 93806); (93775, 93807);
    (93776, 93808); (93777, 93809); (93778, 93810); (93779, 93811); (93780,
    93812); (93781, 93813); (93782, 93814); (93783, 93815); (93784, 93816);
    (93785, 93817); (93786, 93818); (93787, 93819); (93788, 93820); (93789,
    93821); (93790, 93822); (93791, 93823); (125184, 125218); (125185,
    125219); (125186, 125220); (125187, 125221); (125188, 125222); (125189,
    125223); (125190, 125224); (125191, 125225); (125192, 125226); (125193,
    125227); (125194, 125228); (125195, 125229); (125196, 125230); (125197,
    125231); (125198, 125232); (125199, 125233); (125200, 125234); (125201,
    125235); (125202, 125236); (125203, 125237); (125204, 125238); (125205,
    125239); (125206, 125240); (125207, 125241); (125208, 125242); (125209,
    125243); (125210, 125244); (125211, 125245); (125212, 125246); (125213,
    125247); (125214, 125248); (125215, 125249); (125216, 125250); (125217,
    125251) ]%N.

Definition in_ranges (ranges : list (N * N)) (c : N) : bool :=
  existsb (fun r => (r.1 <=? c)%N && (c <=? r.2)%N) ranges.

(** [chr(c).isspace()] *)
Definition isspace (c : N) : bool := in_ranges space_ranges c.

(** [chr(c).isupper()] *)
Definition isupper (c : N) : bool := in_ranges upper_ranges c.

Definition cased (c : N) : bool := in_ranges cased_ranges c.

Definition case_ignorable (c : N) : bool := in_ranges case_ignorable_ranges c.

(** The lower case of one code point, whatever is around it. *)
Definition to_lower_full (c : N) : text :=
  if (c =? capital_i_dot)%N then [105; 775]%N
  else match List.find (fun p => (p.1 =? c)%N) lower_table with
       | Some p => [p.2]
       | None => [c]
       end.

(** [chr(c).lower() != chr(c)]: the code point has a lower case other than
    itself. *)
Definition has_lower_case (c : N) : bool :=
  negb (bool_decide (to_lower_full c = [c])).

(** Some character of [s] is upper-case. *)
Definition has_upper (s : text) : bool := existsb isupper s.

(** No character of [s] has a lower case other than itself. *)
Definition settled (s : text) : Prop :=
  forall c, c ∈ s -> has_lower_case c = false.

Fixpoint skip_ignorable (s : text) : text :=
  match s with
  | [] => []
  | c :: s' => if case_ignorable c then skip_ignorable s' else s
  end.

(** The lower case of a capital sigma: the final sigma when a cased
    character comes before it and none after it, characters that case
    ignores being skipped on both sides.  [before] is what precedes the
    sigma, nearest character first; [after] is what follows it. *)
Definition handle_capital_sigma (before after : text) : N :=
  let final :=
    match skip_ignorable before with
    | c :: _ => cased c
    | [] => false
    end
    && match skip_ignorable after with
       | c :: _ => negb (cased c)
       | [] => true
       end in
  if final then final_sigma else small_sigma.

(** [s.lower()], the characters of [before] (nearest first) having been
    done. *)
Fixpoint lower_from (before s : text) : text :=
  match s with
  | [] => []
  | c :: s' =>
      (if (c =? capital_sigma)%N then [handle_capital_sigma before s']
       else to_lower_full c)
      ++ lower_from (c :: before) s'
  end.

(** [s.lower()] *)
Definition lower (s : text) : text := lower_from [] s.

(** [s.lstrip()] *)
Fixpoint lstrip (s : text) : text :=
  match s with
  | [] => []
  | c :: s' => if isspace c then lstrip s' else s
  end.

(** [s.rstrip()] *)
Fixpoint rstrip (s : text) : text :=
  match s with
  | [] => []
  | c :: s' =>
      match rstrip s' with
      | [] => if isspace c then [] else [c]
      | r => c :: r
      end
  end.

(** [s.strip()] *)
Definition strip (s : text) : text := rstrip (lstrip s).

(** [s.startswith(p)] *)
Fixpoint startswith (s p : text) {struct p} : bool :=
  match p with
  | [] => true
  | a :: p' =>
      match s with
      | [] => false
      | b :: s' => (a =? b)%N && startswith s' p'
      end
  end.

(** [sub in s] *)
Fixpoint contains (sub s : text) : bool :=
  startswith s sub
  || match s with
     | [] => false
     | _ :: s' => contains sub s'
     end.

(** Lowest position at which [sub] occurs in [s]. *)
Fixpoint find_first (sub s : text) : option nat :=
  if startswith s sub then Some O
  else match s with
       | [] => None
       | _ :: s' => option_map S (find_first sub s')
       end.

(** [s.find(sub, start)] *)
Definition find (s sub : text) (start : Z) : Z :=
  let len := Z.of_nat (length s) in
  let start := if start <? 0 then Z.max 0 (start + len) else start in
  if len <? start then -1
  else match find_first sub (skipn (Z.to_nat start) s) with
       | Some i => start + Z.of_nat i
       | None => -1
       end.

(** [s[start:stop]] *)
Definition slice (s : text) (start stop : Z) : text :=
  let len := Z.of_nat (length s) in
  let a := PyStr.clip len start in
  let b := PyStr.clip len stop in
  firstn (Z.to_nat (b - a)) (skipn (Z.to_nat a) s).

(** [s[start:]] *)
Definition slice_from (s : text) (start : Z) : text :=
  skipn (Z.to_nat (PyStr.clip (Z.of_nat (length s)) start)) s.

(** [s.split(sep)] for a separator of one character. *)
Fixpoint split (sep : N) (s : text) : list text :=
  match s with
  | [] => [[]]
  | c :: s' =>
      if (c =? sep)%N then [] :: split sep s'
      else match split sep s' with
           | h :: t => (c :: h) :: t
           | [] => [[c]]
           end
  end.

(** [s.split(sep, 1)] for a separator of one character. *)
Fixpoint split1 (sep : N) (s : text) : list text :=
  match s with
  | [] => [[]]
  | c :: s' =>
      if (c =? sep)%N then [[]; s']
      else match split1 sep s' with
           | h :: t => (c :: h) :: t
           | [] => [[c]]
           end
  end.

(** What reading in text mode does to line ends. *)
Fixpoint universal_newlines (s : text) : text :=
  match s with
  | [] => []
  | c :: s' =>
      if (c =? CR)%N then
        match s' with
        | c' :: s'' =>
            if (c' =? LF)%N then LF :: universal_newlines s''
            else LF :: universal_newlines s'
        | [] => [LF]
        end
      else c :: universal_newlines s'
  end.

(** The four markers. *)
Definition H_squote : text := latin "-H '".
Definition H_dquote : text := latin "-H " ++ [dquote].
Definition b_squote : text := latin "-b '".
Definition b_dquote : text := latin "-b " ++ [dquote].

(** The block the source repeats for each marker:
<<
    start = line.find(marker) + 4
    end = line.find(quote, start)
    if end == -1: content = line[start:]
    else:         content = line[start:end]
>> *)
Definition quoted_content (line marker quote : text) : text :=
  let start := find line marker 0 + 4 in
  let end_ := find line quote start in
  if end_ =? -1 then slice_from line start
  else slice line start end_.

(** The body of [for line in lines:]. *)
Definition scan_line (headers : gmap text text) (line : text)
  : result (gmap text text) :=
  let line := strip line in
  if contains H_squote line || contains H_dquote line then
    let? header_content :=
      (if contains H_squote line then
         inr (quoted_content line H_squote [squote])
       else if contains H_dquote line then
         inr (quoted_content line H_dquote [dquote])
       else inl UnboundLocalError) in
    if contains [colon] header_content then
      match split1 colon header_content with
      | [key; value] => inr (<[lower (strip key) := strip value]> headers)
      | _ => inl ValueError
      end
    else inr headers
  else if contains b_squote line || contains b_dquote line then
    let? cookie_content :=
      (if contains b_squote line then
         inr (quoted_content line b_squote [squote])
       else if contains b_dquote line then
         inr (quoted_content line b_dquote [dquote])
       else inl UnboundLocalError) in
    inr (<[latin "cookie" := cookie_content]> headers)
  else inr headers.

(** [for line in lines: ...] *)
Fixpoint scan_lines (lines : list text) (headers : gmap text text)
  : result (gmap text text) :=
  match lines with
  | [] => inr headers
  | line :: rest =>
      let? headers' := scan_line headers line in
      scan_lines rest headers'
  end.

(** [headers = {}; lines = curl_content.split('\\'); for line in lines: ...] *)
Definition scan_capture (curl_content : text) : result (gmap text text) :=
  scan_lines (split backslash curl_content) ∅.

(** [[h for h in critical_headers if h not in headers]] *)
Definition missing_headers (headers : gmap text text) : list text :=
  List.filter (fun h => negb (bool_decide (is_Some (headers !! h))))
    (map latin critical_headers).

(** [for key, value in defaults.items(): if key not in headers: headers[key] = value] *)
Definition add_defaults (headers : gmap text text) : gmap text text :=
  fold_left
    (fun hd kv =>
       if bool_decide (is_Some (hd !! latin kv.1)) then hd
       else <[latin kv.1 := latin kv.2]> hd)
    defaults headers.

(** What [extract_headers_from_curl] returns for a file that decodes to
    [content]: the Header Map, or [None] when scanning raises or a critical
    header is missing.  What it prints is left out. *)
Definition extract_headers_from_curl (content : text)
  : option (gmap text text) :=
  match scan_capture (universal_newlines content) with
  | inl _ => None
  | inr headers =>
      match missing_headers headers with
      | _ :: _ => None
      | [] => Some (add_defaults headers)
      end
  end.

(** A capture with a header whose name is the double-struck capital C,
    U+2102: an upper-case letter without a lower case. *)
Definition double_struck_capture : text :=
  latin "curl 'https://music.youtube.com/youtubei/v1/browse' \ -H 'Authorization: SAPISIDHASH 1_abc' \ -H '"
  ++ [8450%N]
  ++ latin ": 1' \ -b 'SID=xyz; HSID=q'".

(** A capture with upper-case names that have a lower case: Latin, Greek
    with capital sigmas, and the capital I with a dot above. *)
Definition mixed_case_capture : text :=
  latin "curl 'https://music.youtube.com/youtubei/v1/browse' \ -H 'Authorization: SAPISIDHASH 1_abc' \ -H '"
  ++ [927; 916; 927; 931; 45; 931; 304]%N
  ++ latin ": 1' \ -b 'SID=xyz; HSID=q'".

(** A header map whose keys are all settled. *)
Definition settled_keys (h : gmap text text) : Prop :=
  forall k, is_Some (h !! k) -> settled k.

(** What [extract_headers_from_curl] returns, the empty map for [None]. *)
Definition returned (content : text) : gmap text text :=
  default ∅ (extract_headers_from_curl content).

(** C10 as it is worded: no key of a returned map contains an upper-case
    character. *)
Definition keys_without_upper_case : Prop :=
  forall (content : text) (h : gmap text text),
    extract_headers_from_curl content = Some h ->
    forall k, is_Some (h !! k) -> has_upper k = false.

End Unicode.

(** ** The command line: [main] *)

From Stdlib Require DecimalString.

(** [str(n)] for a length: its decimal digits. *)
Definition str_of_nat (n : nat) : string :=
  DecimalString.NilEmpty.string_of_uint (Nat.to_uint n).

(** [bool(v)]: what [if v:] tests. *)
Definition truthy (v : pyval) : bool :=
  match v with
  | PNone => false
  | PBool b => b
  | PInt z => negb (z =? 0)
  | PStr s => negb (String.eqb s "")
  | PList items => match items with [] => false | _ :: _ => true end
  | PDict items => match items with [] => false | _ :: _ => true end
  end.

(** What [main] itself writes on the terminal: one constructor for each of
    its [print]s and for each prompt of [input], with the values
    interpolated.  The three lines that end a successful run are one
    message. *)
Inductive line : Type :=
  | MsgSetlistPreview
  | MsgPreviewSong (i : nat) (song : string)
  | MsgMoreSongs (n : nat)
  | PromptPlaylistName
  | PromptConfirm (playlist_name : string) (n : nat)
  | MsgCancelled
  | MsgPlaylistURL (playlist_id : pyval)
  | MsgUseAgain.

(** The terminal of [main]: the lines typed that [input] has not read yet,
    and what [main] has written, in order.  What the functions [main] calls
    print stays in the [console] of the world. *)
Record terminal : Type := Terminal {
  stdin : list string;
  shown : list line
}.

(** What can end [main] early: [input] at the end of the input, or an
    exception of a function it calls. *)
Inductive main_exn : Type :=
  | EOFError
  | Escaped (e : exn).

(** A statement of [main]: it reads and changes the terminal and the world,
    and returns or raises. *)
Definition T (P : Platform) (A : Type) : Type :=
  terminal -> world P -> (main_exn + A) * terminal * world P.

Definition tret {P A} (a : A) : T P A := fun t w => (inr a, t, w).

Definition tbind {P A B} (m : T P A) (k : A -> T P B) : T P B :=
  fun t w =>
    match m t w with
    | (inl e, t', w') => (inl e, t', w')
    | (inr a, t', w') => k a t' w'
    end.

(** A call of one of the functions above. *)
Definition run {P A} (m : M P A) : T P A :=
  fun t w =>
    match m w with
    | (inl e, w') => (inl (Escaped e), t, w')
    | (inr a, w') => (inr a, t, w')
    end.

(** A [print] of [main]. *)
Definition show {P} (l : line) : T P unit :=
  fun t w => (inr tt, Terminal (stdin t) (shown t ++ [l]), w).

(** [input(prompt)]: writes the prompt and returns the next line typed,
    without its line end. *)
Definition input {P} (prompt : line) : T P string :=
  fun t w =>
    match stdin t with
    | [] => (inl EOFError, Terminal [] (shown t ++ [prompt]), w)
    | answer :: rest => (inr answer, Terminal rest (shown t ++ [prompt]), w)
    end.

Notation "x <<- m ;; k" := (tbind m (fun x => k))
  (at level 100, m at next level, k at level 200, right associativity) : py_scope.
Notation "m >>> k" := (tbind m (fun _ => k))
  (at level 100, k at level 200, right associativity) : py_scope.

Section CommandLine.
Context {P : Platform}.

(** [for i, song in enumerate(songs, i): print(f"   {i}. {song}")] *)
Fixpoint show_preview (i : nat) (songs : list string) : T P unit :=
  match songs with
  | [] => tret tt
  | song :: rest => show (MsgPreviewSong i song) >>> show_preview (S i) rest
  end.

(** [main()] *)
Definition main : T P unit :=
  setlist <<- run (read_setlist_from_file "setlist.txt") ;;
  match setlist with
  | [] => tret tt
  | _ :: _ =>
      show MsgSetlistPreview >>>
      show_preview 1 (firstn 5 setlist) >>>
      (if (5 <? length setlist)%nat
       then show (MsgMoreSongs (length setlist - 5))
       else tret tt) >>>
      answer <<- input PromptPlaylistName ;;
      let playlist_name := PyStr.strip answer in
      let playlist_name :=
        if String.eqb playlist_name "" then "Concert Playlist"
        else playlist_name in
      let description :=
        "Setlist with " +:+ str_of_nat (length setlist)
        +:+ " songs imported from setlist.txt" in
      answer <<- input (PromptConfirm playlist_name (length setlist)) ;;
      let confirm := PyStr.lower (PyStr.strip answer) in
      if negb (existsb (String.eqb confirm) ["y"; "yes"]) then
        show MsgCancelled
      else
        playlist_id <<-
          run (create_playlist_from_setlist setlist playlist_name description) ;;
        match playlist_id with
        | Some v =>
            if truthy v then
              show (MsgPlaylistURL v) >>>
              show MsgUseAgain
            else tret tt
        | None => tret tt
        end
  end.

End CommandLine.

(** ** Vocabulary of the further properties *)

(** The text of a file made of the given lines, each ended the way [ending]
    says (a line feed, a carriage return, or both). *)
Fixpoint text_with_endings (ending : string) (lines : list string) : string :=
  match lines with
  | [] => EmptyString
  | l :: rest => l +:+ ending +:+ text_with_endings ending rest
  end.

(** The line ends that reading in text mode knows. *)
Definition line_ending (ending : string) : bool :=
  String.eqb ending (PyStr.chr PyStr.LF)
  || String.eqb ending (PyStr.chr PyStr.CR)
  || String.eqb ending (String PyStr.CR (PyStr.chr PyStr.LF)).

(** A string that does not begin with a blank. *)
Definition no_blank_in_front (s : string) : Prop :=
  match s with
  | EmptyString => True
  | String c _ => PyStr.isspace c = false
  end.

(** The three values the loop reads off the first search result, as the
    source computes them, in its order:
<<
    video_id = search_results[0]['videoId']
    song_title = search_results[0].get('title', 'Unknown')
    artist = search_results[0].get('artists', [{}])[0].get('name', 'Unknown')
>> *)
Definition first_result_fields (first : pyval) : result (pyval * pyval * pyval) :=
  let? video_id := getitem first "videoId" in
  let? song_title := get first "title" (PStr "Unknown") in
  let? artists := get first "artists" (PList [PDict []]) in
  let? artist0 := getitem0 artists in
  let? artist := get artist0 "name" (PStr "Unknown") in
  inr (video_id, song_title, artist).

(** A call the loop may make for the playlist [playlist_id] and the songs
    of [setlist]: a search for one of the songs, or the addition of one track
    to that playlist. *)
Definition loop_call (playlist_id : pyval) (setlist : list string) (c : call)
  : Prop :=
  match c with
  | CallSearch query => query ∈ setlist
  | CallAddPlaylistItems p video_ids => p = playlist_id /\ length video_ids = 1%nat
  | CallCreatePlaylist _ _ => False
  end.

(** The preview lines of [songs], numbered from [i]. *)
Fixpoint numbered (i : nat) (songs : list string) : list line :=
  match songs with
  | [] => []
  | song :: rest => MsgPreviewSong i song :: numbered (S i) rest
  end.

(** The preview [main] shows of a setlist: its heading, its first five
    songs, and how many more there are when there are more. *)
Definition preview_lines (setlist : list string) : list line :=
  MsgSetlistPreview
  :: numbered 1 (firstn 5 setlist)
  ++ (if (5 <? length setlist)%nat then [MsgMoreSongs (length setlist - 5)]
      else []).

(** The name of the playlist for an answer to the first prompt. *)
Definition playlist_name_of (answer : string) : string :=
  if String.eqb (PyStr.strip answer) "" then "Concert Playlist"
  else PyStr.strip answer.

(** The description [main] gives a playlist of [n] songs. *)
Definition description_of (n : nat) : string :=
  "Setlist with " +:+ str_of_nat n +:+ " songs imported from setlist.txt".

(** The answer to the second prompt is a yes. *)
Definition confirmed (answer : string) : bool :=
  existsb (String.eqb (PyStr.lower (PyStr.strip answer))) ["y"; "yes"].

(** What [main] shows after the prompts when the builder has returned. *)
Definition closing_lines (returned : option pyval) : list line :=
  match returned with
  | Some v => if truthy v then [MsgPlaylistURL v; MsgUseAgain] else []
  | None => []
  end.

(** ** A capture as the browser writes it *)

(** A header flag and the cookie flag of "Copy as cURL". *)
Definition header_flag (name value : string) : string :=
  H_squote +:+ name +:+ ": " +:+ value +:+ "'".

Definition cookie_flag (cookie : string) : string :=
  b_squote +:+ cookie +:+ "'".

(** The command with its address. *)
Definition curl_command (url : string) : string := "curl '" +:+ url +:+ "'".

(** The flags, each on a line of its own: the line before is continued by a
    blank and a backslash, the flag is indented by two blanks. *)
Fixpoint continued (flags : list string) : string :=
  match flags with
  | [] => EmptyString
  | flag :: rest =>
      " \" +:+ PyStr.chr PyStr.LF +:+ "  " +:+ flag +:+ continued rest
  end.

(** The capture of a request with the headers [hs] and the cookie
    [cookie]. *)
Definition capture_of (url : string) (hs : list (string * string))
    (cookie : string) : string :=
  curl_command url
  +:+ continued (map (fun nv => header_flag nv.1 nv.2) hs ++ [cookie_flag cookie]).

(** The fragments of such a capture: every line but the last ends with the
    blank that comes before the backslash; every line but the first begins
    with the line feed and the indentation. *)
Fixpoint pieces (first : string) (flags : list string) : list string :=
  match flags with
  | [] => [first]
  | flag :: rest =>
      (first +:+ " ") :: pieces (PyStr.chr PyStr.LF +:+ "  " +:+ flag) rest
  end.

(** Only blanks. *)
Fixpoint blank (s : string) : bool :=
  match s with
  | EmptyString => true
  | String c s' => PyStr.isspace c && blank s'
  end.

(** Neither a single quote nor a backslash. *)
Definition plain (s : string) : bool :=
  negb (PyStr.contains "'" s) && negb (PyStr.contains "\" s).

(** A header that a header flag can carry: name and value are plain, and
    the name has no colon. *)
Definition header_ok (nv : string * string) : bool :=
  plain nv.1 && plain nv.2 && negb (PyStr.contains ":" nv.1).

(** A cookie that the cookie flag can carry: it is plain, and its flag does
    not read as a header flag. *)
Definition cookie_ok (cookie : string) : bool :=
  plain cookie
  && negb (PyStr.contains H_squote (cookie_flag cookie))
  && negb (PyStr.contains H_dquote (cookie_flag cookie)).

(** An address that does not read as a flag. *)
Definition url_ok (url : string) : bool :=
  negb (PyStr.contains "\" url)
  && forallb (fun m => negb (PyStr.contains m (curl_command url)))
       [H_squote; H_dquote; b_squote; b_dquote].

(** The headers as the parser stores them, one after the other. *)
Definition headers_of (hs : list (string * string)) (h : gmap string string)
  : gmap string string :=
  fold_left
    (fun h nv => <[PyStr.lower (PyStr.strip nv.1) := PyStr.strip nv.2]> h)
    hs h.

(** ** Further examples *)

(** A service whose search answers from a short catalogue: one track comes
    with its [videoId] alone, one with an empty [artists] list, one without
    a [videoId]; any other query finds two tracks, the first with all three
    values. *)
Definition record_shop : Platform := {|
  client := unit;
  service := nat;
  json_dump := fun headers => "{...}";
  save := fun _ _ => Saved;
  YTMusic := fun f s => (inr tt, s);
  create_playlist := fun _ name _ s => (inr (PStr ("PL-" +:+ name)), S s);
  search := fun _ query s =>
    if String.eqb query "bare" then
      (inr [PDict [("videoId", PStr "v-bare")]], S s)
    else if String.eqb query "anonymous" then
      (inr [PDict [("videoId", PStr "v-anon"); ("title", PStr "Anonymous");
                   ("artists", PList [])];
            PDict [("videoId", PStr "v-other")]], S s)
    else if String.eqb query "broken" then
      (inr [PDict [("title", PStr "Broken")]], S s)
    else
      (inr [PDict [("videoId", PStr "v-1"); ("title", PStr query);
                   ("artists", PList [PDict [("name", PStr "Oasis")]])];
            PDict [("videoId", PStr "v-2"); ("title", PStr "Live")]], S s);
  add_playlist_items := fun _ _ _ s => (inr (PStr "STATUS_FAILED"), S s)
|}.

(** A world of the record shop with no file, nothing printed or called yet,
    and the service in its first state. *)
Definition record_shop_world : world record_shop :=
  @World record_shop ∅ [] [] O.

(** A jukebox world with a setlist of two songs and a capture to read the
    session from. *)
Definition stage_world : world jukebox :=
  jukebox_world
    {[ "setlist.txt" :=
         Text (text_of_lines ["Oasis - Wonderwall"; "nothing"]);
       "paste.txt" := Text sample_capture ]}
    true.

(** The setlist file of the scenario as a Windows editor saves it, the last
    line not ended. *)
Definition windows_world : world jukebox :=
  jukebox_world
    {[ "setlist.txt" :=
         Text (text_with_endings (String PyStr.CR (PyStr.chr PyStr.LF))
                 ["Oasis - Wonderwall"; ""; "# comment"]
               +:+ "Billy Idol - White Wedding") ]}
    true.

(** The request of the sample capture, for [capture_of]. *)
Definition sample_url : string :=
  "https://music.youtube.com/youtubei/v1/browse?prettyPrint=false".

Definition sample_headers : list (string * string) :=
  [("Authorization", "SAPISIDHASH 1_abc"); ("X-Goog-AuthUser", "0");
   ("authorization", "SAPISIDHASH 2_def")].

Definition sample_cookie : string := "SID=xyz; HSID=q".

(** * Properties *)

(** ** Strings *)

Section StringFacts.
Import PyStr.

Lemma append_nil (b : string) : EmptyString +:+ b = b.
Proof. reflexivity. Qed.

Lemma append_cons (c : ascii) (a b : string) :
  String c a +:+ b = String c (a +:+ b).
Proof. reflexivity. Qed.

Lemma length_append (a b : string) :
  String.length (a +:+ b) = (String.length a + String.length b)%nat.
Proof.
  induction a as [|c a IH]; [reflexivity|].
  rewrite append_cons. simpl. now rewrite IH.
Qed.

Lemma append_assoc (a b c : string) : (a +:+ b) +:+ c = a +:+ (b +:+ c).
Proof.
  induction a as [|x a IH]; [reflexivity|].
  rewrite !append_cons. now rewrite IH.
Qed.

Lemma drop_append (a b : string) : drop (String.length a) (a +:+ b) = b.
Proof.
  induction a as [|c a IH]; [now destruct b|].
  rewrite append_cons. exact IH.
Qed.

Lemma startswith_append (p r : string) : startswith (p +:+ r) p = true.
Proof.
  induction p as [|c p IH]; [reflexivity|].
  rewrite append_cons. simpl. now rewrite Ascii.eqb_refl, IH.
Qed.

(** Whether [p] starts a string is decided by its first [length p]
    characters. *)
Lemma startswith_long (p a b : string) :
  (String.length p <= String.length a)%nat ->
  startswith (a +:+ b) p = startswith a p.
Proof.
  revert a; induction p as [|x p IH]; intros a Hlen; [reflexivity|].
  destruct a as [|y a]; simpl in Hlen; [lia|].
  rewrite append_cons. simpl. rewrite IH by lia. reflexivity.
Qed.

Lemma find_first_unfold (sub s : string) :
  find_first sub s
  = if startswith s sub then Some O
    else match s with
         | EmptyString => None
         | String _ s' => option_map S (find_first sub s')
         end.
Proof. destruct s; reflexivity. Qed.

Lemma contains_unfold (sub s : string) :
  contains sub s
  = startswith s sub
    || match s with
       | EmptyString => false
       | String _ s' => contains sub s'
       end.
Proof. destruct s; reflexivity. Qed.

Lemma contains_append (sub pre rest : string) :
  contains sub (pre +:+ sub +:+ rest) = true.
Proof.
  induction pre as [|c pre IH].
  - rewrite append_nil, contains_unfold, startswith_append. reflexivity.
  - rewrite append_cons, contains_unfold, IH. apply orb_true_r.
Qed.

Lemma find_first_absent (sub s : string) :
  contains sub s = false -> find_first sub s = None.
Proof.
  induction s as [|c s IH]; rewrite contains_unfold, find_first_unfold;
    intros H; apply orb_false_iff in H as [-> H]; [reflexivity|].
  now rewrite IH.
Qed.

(** The first occurrence of a marker [flag +:+ q]: when it does not occur
    in [pre +:+ flag], it is found in [pre +:+ (flag +:+ q) +:+ rest] right
    after [pre]. *)
Lemma find_first_here (flag q pre rest : string) :
  String.length q = 1%nat ->
  contains (flag +:+ q) (pre +:+ flag) = false ->
  find_first (flag +:+ q) (pre +:+ (flag +:+ q) +:+ rest)
  = Some (String.length pre).
Proof.
  intros Hq. induction pre as [|c pre IH]; intros H.
  - now rewrite append_nil, find_first_unfold, startswith_append.
  - rewrite append_cons, contains_unfold in H.
    apply orb_false_iff in H as [Hs Hc].
    rewrite find_first_unfold.
    replace (String c pre +:+ (flag +:+ q) +:+ rest)
      with (String c (pre +:+ flag) +:+ (q +:+ rest))
      by now rewrite <- append_cons, !append_assoc.
    rewrite startswith_long, Hs.
    + rewrite append_cons, append_assoc, <- (append_assoc flag q rest).
      rewrite (IH Hc). reflexivity.
    + rewrite <- append_cons, !length_append, Hq. simpl. lia.
Qed.

Lemma contains_char_cons (c a : ascii) (s : string) :
  contains (chr c) (String a s) = Ascii.eqb c a || contains (chr c) s.
Proof. simpl. now rewrite andb_true_r. Qed.

(** [split(sep, 1)] cuts at the first separator. *)
Lemma split1_cut (c : ascii) (k v : string) :
  contains (chr c) k = false ->
  split1 c (k +:+ chr c +:+ v) = [k; v].
Proof.
  induction k as [|a k IH]; intros H.
  - rewrite append_nil. unfold chr. rewrite append_cons, append_nil.
    simpl. now rewrite Ascii.eqb_refl.
  - rewrite contains_char_cons in H. apply orb_false_iff in H as [Ha Hk].
    rewrite append_cons. cbn [split1].
    rewrite Ascii.eqb_sym, Ha, (IH Hk). reflexivity.
Qed.

(** When the separator occurs, [split(sep, 1)] has two parts. *)
Lemma split1_two (c : ascii) (s : string) :
  contains (chr c) s = true ->
  exists k v, split1 c s = [k; v].
Proof.
  induction s as [|a s IH]; intros H; [discriminate|].
  rewrite contains_char_cons in H. cbn [split1].
  destruct (Ascii.eqb a c) eqn:E.
  - now exists EmptyString, s.
  - rewrite Ascii.eqb_sym, E in H. destruct (IH H) as (k & v & ->).
    now exists (String a k), v.
Qed.

End StringFacts.

(** ** The curl capture parser *)

Section ParserFacts.
Import PyStr.
Implicit Types headers h : gmap string string.

(** The loop over the defaults is a left-biased union with the table. *)
Lemma fold_defaults_union (table : list (string * string)) headers :
  fold_left
    (fun hd kv =>
       if bool_decide (is_Some (hd !! kv.1)) then hd else <[kv.1 := kv.2]> hd)
    table headers
  = headers ∪ list_to_map table.
Proof.
  revert headers; induction table as [|[k v] table IH]; intros headers.
  - cbn. now rewrite (right_id_L ∅ (∪)).
  - cbn [fold_left fst snd]. rewrite IH, list_to_map_cons.
    apply map_eq; intros i. rewrite !lookup_union.
    case_bool_decide as Hk.
    + destruct Hk as [x Hx].
      destruct (decide (k = i)) as [<-|Hne].
      * rewrite Hx, lookup_insert_eq. now destruct (list_to_map table !! k).
      * now rewrite lookup_insert_ne.
    + apply eq_None_not_Some in Hk.
      destruct (decide (k = i)) as [<-|Hne].
      * rewrite Hk, !lookup_insert_eq.
        now destruct (list_to_map table !! k).
      * now rewrite !lookup_insert_ne.
Qed.

Lemma add_defaults_lookup headers k :
  add_defaults headers !! k
  = match headers !! k with
    | Some v => Some v
    | None => default_of k
    end.
Proof.
  unfold add_defaults, default_of. rewrite fold_defaults_union, lookup_union.
  destruct (headers !! k), (list_to_map defaults !! k); reflexivity.
Qed.

(** Nothing is missing exactly when both critical headers are there. *)
Lemma missing_headers_nil headers :
  missing_headers headers = []
  <-> is_Some (headers !! "authorization") /\ is_Some (headers !! "cookie").
Proof.
  unfold missing_headers, critical_headers. cbn [List.filter].
  repeat case_bool_decide; cbn [negb]; split; intros Hm;
    try discriminate; tauto.
Qed.

Context {P : Platform}.

(** [extract_headers_from_curl] by cases on what reading and scanning
    give. *)
Lemma extract_headers_unfold filename (w : world P) :
  extract_headers_from_curl filename w
  = match (read_text filename w).1 with
    | inl e => (inr None, say [MsgErrorProcessingPaste e; MsgValidCurlHint] w)
    | inr text =>
        match scan_capture text with
        | inl e =>
            (inr None, say [MsgErrorProcessingPaste e; MsgValidCurlHint] w)
        | inr h =>
            match missing_headers h with
            | [] =>
                (inr (Some (add_defaults h)),
                 say [MsgHeadersFound (dom h);
                      MsgHeadersProcessed (size (add_defaults h))] w)
            | _ :: _ =>
                (inr None,
                 say [MsgHeadersFound (dom h);
                      MsgMissingCritical (missing_headers h);
                      MsgCompleteCurlHint] w)
            end
        end
    end.
Proof.
  unfold extract_headers_from_curl, try_except, bind, read_text, lift, say.
  destruct (fs w !! filename) as [[|s]|]; cbn [fst];
    [| destruct (scan_capture (universal_newlines s)) as [e|h];
       [| destruct (missing_headers h)] |];
    unfold print, ret; cbn [fs console calls remote];
    now rewrite <- ?app_assoc.
Qed.

End ParserFacts.

Section ParserTheorems.
Context {P : Platform}.
Implicit Types (w : world P) (h : gmap string string).

(** C4. When the scan of the capture text stores no ["authorization"]
    entry or no ["cookie"] entry, [extract_headers_from_curl] returns
    [None] (it does not raise) after reporting the missing keys, and leaves
    the files alone; no Header Map is returned, so no default is filled
    in. *)
Theorem missing_critical_header_fails w filename text h :
  read_text filename w = (inr text, w) ->
  scan_capture text = inr h ->
  h !! "authorization" = None \/ h !! "cookie" = None ->
  missing_headers h <> []
  /\ extract_headers_from_curl filename w
     = (inr None,
        say [MsgHeadersFound (dom h);
             MsgMissingCritical (missing_headers h);
             MsgCompleteCurlHint] w).
Proof.
  intros Hread Hscan Hmiss.
  assert (missing_headers h <> []) as Hne.
  { rewrite missing_headers_nil. intros [[a Ha] [c Hc]].
    destruct Hmiss; congruence. }
  split; [exact Hne|].
  rewrite extract_headers_unfold, Hread. cbn [fst]. rewrite Hscan.
  destruct (missing_headers h); [congruence | reflexivity].
Qed.


End ParserTheorems.

(** ** Unterminated quotes *)

Section QuoteFacts.
Import PyStr.

Lemma find_at_first (line sub : string) (n : nat) :
  find_first sub line = Some n -> find line sub 0 = Z.of_nat n.
Proof.
  intros H. unfold find. change (0 <? 0) with false. cbn iota.
  destruct (Z.ltb_spec (Z.of_nat (String.length line)) 0) as [Hlt|_]; [lia|].
  change (drop (Z.to_nat 0) line) with line. now rewrite H.
Qed.

Lemma find_absent_after (a b sub : string) :
  contains sub b = false ->
  find (a +:+ b) sub (Z.of_nat (String.length a)) = -1.
Proof.
  intros H. unfold find.
  destruct (Z.ltb_spec (Z.of_nat (String.length a)) 0) as [Hlt|_]; [lia|].
  rewrite length_append.
  destruct (Z.ltb_spec (Z.of_nat (String.length a + String.length b))
              (Z.of_nat (String.length a))) as [Hlt|_]; [lia|].
  now rewrite Nat2Z.id, drop_append, (find_first_absent _ _ H).
Qed.

Lemma slice_from_append (a b : string) :
  slice_from (a +:+ b) (Z.of_nat (String.length a)) = b.
Proof.
  unfold slice_from, clip. rewrite length_append.
  destruct (Z.ltb_spec (Z.of_nat (String.length a)) 0) as [Hlt|_]; [lia|].
  rewrite Z.min_l by lia. now rewrite Nat2Z.id, drop_append.
Qed.

(** The block of [quoted_content] on a line whose first marker opens a quote
    that is never closed: the content is all that follows the marker. *)
Lemma quoted_content_unterminated (flag q before rest : string) :
  String.length flag = 3%nat ->
  String.length q = 1%nat ->
  contains (flag +:+ q) (before +:+ flag) = false ->
  contains q rest = false ->
  quoted_content (before +:+ (flag +:+ q) +:+ rest) (flag +:+ q) q = rest.
Proof.
  intros Hflag Hq Hfirst Hopen. unfold quoted_content.
  rewrite (find_at_first _ _ _ (find_first_here flag q before rest Hq Hfirst)).
  replace (Z.of_nat (String.length before) + 4)
    with (Z.of_nat (String.length (before +:+ flag +:+ q)))
    by (rewrite !length_append, Hflag, Hq; lia).
  replace (before +:+ (flag +:+ q) +:+ rest)
    with ((before +:+ flag +:+ q) +:+ rest)
    by now rewrite !append_assoc.
  rewrite (find_absent_after _ _ _ Hopen). cbn [Z.eqb].
  apply slice_from_append.
Qed.

(** C8, as amended. Take a fragment which, stripped, reads [before], a
    marker, [rest]; let that marker be the one [scan_line] reaches (no marker
    it tries earlier occurs in the fragment, and this is the first occurrence
    of the marker) and let no closing quote occur in [rest]. Then scanning
    the fragment does not raise and takes all of [rest] as the content: for
    a cookie marker it is stored under ["cookie"]; for a header marker it is
    cut at its first [':'] into the stripped, lower-cased name and the
    stripped value, and nothing is stored when it has no [':']. *)
Theorem unterminated_quote_takes_remainder (m : marker)
    (headers : gmap string string) (fragment before rest : string) :
  strip fragment = before +:+ marker_text m +:+ rest ->
  selects m (strip fragment) before = true ->
  contains (quote_of m) rest = false ->
  match m with
  | HeaderSingle | HeaderDouble =>
      (contains ":" rest = false -> scan_line headers fragment = inr headers)
      /\ (forall name value,
            rest = name +:+ ":" +:+ value ->
            contains ":" name = false ->
            scan_line headers fragment
            = inr (<[lower (strip name) := strip value]> headers))
  | CookieSingle | CookieDouble =>
      scan_line headers fragment = inr (<["cookie" := rest]> headers)
  end.
Proof.
  intros Hline Hsel Hopen. unfold selects in Hsel.
  apply andb_true_iff in Hsel as [Hearlier Hfirst].
  apply negb_true_iff in Hfirst.
  assert (contains (marker_text m) (strip fragment) = true) as Hin
    by (rewrite Hline; apply contains_append).
  assert (quoted_content (strip fragment) (marker_text m) (quote_of m) = rest)
    as Hcontent.
  { rewrite Hline. unfold marker_text in *.
    apply quoted_content_unterminated; try assumption; now destruct m. }
  unfold scan_line.
  destruct m; cbn [tried_before forallb] in Hearlier;
    repeat (apply andb_true_iff in Hearlier as [?%negb_true_iff Hearlier]);
    change (marker_text HeaderSingle) with H_squote in *;
    change (marker_text HeaderDouble) with H_dquote in *;
    change (marker_text CookieSingle) with b_squote in *;
    change (marker_text CookieDouble) with b_dquote in *;
    change (quote_of HeaderSingle) with "'" in *;
    change (quote_of CookieSingle) with "'" in *;
    change (quote_of HeaderDouble) with (chr dquote) in *;
    change (quote_of CookieDouble) with (chr dquote) in *;
    repeat match goal with
           | H : contains _ (strip fragment) = _ |- _ => rewrite H
           end;
    cbn [orb rbind]; rewrite Hcontent.
  1, 2: split;
    [ intros ->; reflexivity
    | intros name value -> Hname;
      pose proof (split1_cut ":" name value Hname) as Hcut;
      unfold chr in Hcut; rewrite contains_append, Hcut;
      reflexivity ].
  all: reflexivity.
Qed.

End QuoteFacts.

(** ** The setlist reader *)

Section ReaderFacts.
Context {P : Platform}.
Implicit Types (w : world P).

(** The loop of the reader, started from any list. *)
Lemma collect_from (lines acc : list string) :
  fold_left
    (fun setlist line =>
       let line := PyStr.strip line in
       if negb (String.eqb line "") && negb (PyStr.startswith line "#")
       then setlist ++ [line]
       else setlist)
    lines acc
  = acc ++ song_queries lines.
Proof.
  revert acc; induction lines as [|line rest IH]; intros acc.
  - cbn. now rewrite app_nil_r.
  - cbn [fold_left]. rewrite IH. unfold song_queries, is_song_line.
    cbn [List.filter].
    destruct (negb (String.eqb (PyStr.strip line) "")
              && negb (PyStr.startswith (PyStr.strip line) "#")).
    + cbn [map]. now rewrite <- app_assoc.
    + reflexivity.
Qed.

(** The loop builds the setlist the specification describes. *)
Lemma collect_songs_spec (lines : list string) :
  collect_songs lines = song_queries lines.
Proof. unfold collect_songs. now rewrite collect_from. Qed.

Lemma readlines_text w filename text :
  fs w !! filename = Some (Text text) ->
  readlines filename w
  = (inr (PyStr.lines_of (PyStr.universal_newlines text)), w).
Proof.
  intros H. unfold readlines, bind, read_text, ret. now rewrite H.
Qed.

Lemma contains_char_append (c : ascii) (a b : string) :
  PyStr.contains (PyStr.chr c) (a +:+ b)
  = PyStr.contains (PyStr.chr c) a || PyStr.contains (PyStr.chr c) b.
Proof.
  induction a as [|x a IH].
  - rewrite append_nil. reflexivity.
  - rewrite append_cons, !contains_char_cons, IH. now rewrite orb_assoc.
Qed.

(** A text without carriage returns is read as it is. *)
Lemma universal_newlines_plain (s : string) :
  PyStr.contains (PyStr.chr PyStr.CR) s = false ->
  PyStr.universal_newlines s = s.
Proof.
  induction s as [|c s IH]; [reflexivity|].
  rewrite contains_char_cons. intros H.
  apply orb_false_iff in H as [Hc Hs].
  cbn [PyStr.universal_newlines]. rewrite Ascii.eqb_sym, Hc.
  now rewrite (IH Hs).
Qed.

(** The first line of a text is what comes before its first line feed. *)
Lemma lines_of_first (l rest : string) :
  PyStr.contains (PyStr.chr PyStr.LF) l = false ->
  PyStr.lines_of (l +:+ PyStr.chr PyStr.LF +:+ rest)
  = (l +:+ PyStr.chr PyStr.LF) :: PyStr.lines_of rest.
Proof.
  induction l as [|c l IH]; intros H.
  - reflexivity.
  - rewrite contains_char_cons in H. apply orb_false_iff in H as [Hc Hl].
    rewrite !append_cons. cbn [PyStr.lines_of].
    rewrite Ascii.eqb_sym, Hc, (IH Hl). reflexivity.
Qed.

Lemma lines_of_text (lines : list string) :
  forallb one_line lines = true ->
  PyStr.lines_of (PyStr.universal_newlines (text_of_lines lines))
  = map (fun l => l +:+ PyStr.chr PyStr.LF) lines.
Proof.
  intros H.
  assert (PyStr.contains (PyStr.chr PyStr.CR) (text_of_lines lines) = false)
    as Hcr.
  { induction lines as [|l rest IH]; [reflexivity|].
    cbn [forallb] in H. apply andb_true_iff in H as [Hl Hrest].
    unfold one_line in Hl. apply andb_true_iff in Hl as [_ Hl].
    apply negb_true_iff in Hl.
    cbn [text_of_lines]. rewrite !contains_char_append, Hl, (IH Hrest).
    reflexivity. }
  rewrite (universal_newlines_plain _ Hcr). clear Hcr.
  induction lines as [|l rest IH]; [reflexivity|].
  cbn [forallb] in H. apply andb_true_iff in H as [Hl Hrest].
  unfold one_line in Hl. apply andb_true_iff in Hl as [Hl _].
  apply negb_true_iff in Hl.
  cbn [text_of_lines map]. rewrite (lines_of_first _ _ Hl), (IH Hrest).
  reflexivity.
Qed.

Lemma rstrip_line_feed (l : string) :
  PyStr.rstrip (l +:+ PyStr.chr PyStr.LF) = PyStr.rstrip l.
Proof.
  induction l as [|c l IH]; [reflexivity|].
  rewrite append_cons. cbn [PyStr.rstrip]. now rewrite IH.
Qed.

Lemma lstrip_line_feed (l : string) :
  PyStr.lstrip (l +:+ PyStr.chr PyStr.LF) = PyStr.lstrip l +:+ PyStr.chr PyStr.LF
  \/ (PyStr.lstrip (l +:+ PyStr.chr PyStr.LF) = EmptyString
      /\ PyStr.lstrip l = EmptyString).
Proof.
  induction l as [|c l IH]; [now right|].
  rewrite append_cons. cbn [PyStr.lstrip].
  destruct (PyStr.isspace c); [exact IH | now left].
Qed.

(** Stripping a line drops the line feed that ends it. *)
Lemma strip_line_feed (l : string) :
  PyStr.strip (l +:+ PyStr.chr PyStr.LF) = PyStr.strip l.
Proof.
  unfold PyStr.strip.
  destruct (lstrip_line_feed l) as [-> | [-> ->]];
    [apply rstrip_line_feed | reflexivity].
Qed.

Lemma song_queries_line_feeds (lines : list string) :
  song_queries (map (fun l => l +:+ PyStr.chr PyStr.LF) lines)
  = song_queries lines.
Proof.
  unfold song_queries, is_song_line.
  induction lines as [|l rest IH]; [reflexivity|].
  cbn [map List.filter]. rewrite strip_line_feed.
  destruct (negb (String.eqb (PyStr.strip l) "")
            && negb (PyStr.startswith (PyStr.strip l) "#")).
  - cbn [map]. now rewrite strip_line_feed, IH.
  - exact IH.
Qed.

(** C3. Whatever lines [readlines] gives, [read_setlist_from_file] returns
    those of them that, stripped, are neither empty nor start with ['#'],
    stripped and in file order; there are as many queries as such lines.
    So the file made of the lines [lines] gives the song lines among
    [lines], stripped, whatever blank or comment lines lie between them.  In
    particular a file with the lines [Oasis - Wonderwall], an empty line,
    [# comment] and [Billy Idol - White Wedding] gives the two songs. *)
Theorem setlist_reader_returns_song_lines w filename :
  (forall lines,
      readlines filename w = (inr lines, w) ->
      read_setlist_from_file filename w
      = (inr (song_queries lines),
         say [MsgReadSongs (length (song_queries lines)) filename] w)
      /\ song_queries lines = map PyStr.strip (List.filter is_song_line lines)
      /\ length (song_queries lines) = length (List.filter is_song_line lines))
  /\ (forall lines,
        forallb one_line lines = true ->
        fs w !! filename = Some (Text (text_of_lines lines)) ->
        (read_setlist_from_file filename w).1
        = inr (map PyStr.strip (List.filter is_song_line lines)))
  /\ (fs w !! filename
      = Some (Text (text_of_lines
                      ["Oasis - Wonderwall"; ""; "# comment";
                       "Billy Idol - White Wedding"])) ->
      (read_setlist_from_file filename w).1
      = inr ["Oasis - Wonderwall"; "Billy Idol - White Wedding"]).
Proof.
  assert (forall lines,
      readlines filename w = (inr lines, w) ->
      read_setlist_from_file filename w
      = (inr (song_queries lines),
         say [MsgReadSongs (length (song_queries lines)) filename] w)) as Hrun.
  { intros lines Hread. unfold read_setlist_from_file, try_except, bind.
    rewrite Hread, collect_songs_spec. reflexivity. }
  split; [|split].
  - intros lines Hread. split; [now apply Hrun|]. split; [reflexivity|].
    unfold song_queries. apply length_map.
  - intros lines Hlines Hfile.
    rewrite (Hrun _ (readlines_text _ _ _ Hfile)). cbn [fst].
    now rewrite (lines_of_text _ Hlines), song_queries_line_feeds.
  - intros Hfile. rewrite (Hrun _ (readlines_text _ _ _ Hfile)).
    reflexivity.
Qed.

End ReaderFacts.

(** ** The playlist builder *)

Section BuilderFacts.
Context {P : Platform}.
Implicit Types (w : world P) (t : tally) (ytmusic : client P).

Lemma say_say (ms1 ms2 : list msg) w : say ms2 (say ms1 w) = say (ms1 ++ ms2) w.
Proof. unfold say. cbn. now rewrite app_assoc. Qed.

Lemma searched_app (cs1 cs2 : list call) :
  searched (cs1 ++ cs2) = searched cs1 ++ searched cs2.
Proof.
  induction cs1 as [|c cs1 IH]; [reflexivity|].
  destruct c; cbn; now rewrite IH.
Qed.

Lemma added_app (cs1 cs2 : list call) :
  added (cs1 ++ cs2) = (added cs1 + added cs2)%nat.
Proof.
  induction cs1 as [|c cs1 IH]; [reflexivity|].
  destruct c; cbn; now rewrite IH.
Qed.

(** One turn of the loop never raises: it counts the song as added, after
    a call that adds it, or as failed; and it has searched for it. *)
Lemma song_step_counts ytmusic playlist_id n i song t w :
  exists t' w',
    song_step ytmusic playlist_id n i song t w = (inr t', w')
    /\ ((t' = (S t.1, t.2) /\ added (calls w') = S (added (calls w)))
        \/ (t' = (t.1, t.2 ++ [song])
            /\ (added (calls w) <= added (calls w'))%nat))
    /\ searched (calls w') = searched (calls w) ++ [song].
Proof.
  destruct t as [adds failed].
  unfold song_step, search_and_add, try_except, bind, print, call_search,
    call_add_playlist_items, log_call, lift, ret.
  cbn [fs console calls remote fst snd].
  destruct (search P ytmusic song (remote w)) as [[e|[|first more]] s].
  all: cbn [fs console calls remote].
  1, 2: eexists _, _; split; [reflexivity|]; split;
        [right; split; [reflexivity|]; cbn [calls]; rewrite added_app; lia|];
        cbn [calls]; now rewrite searched_app.
  destruct (getitem first "videoId") as [e|video_id];
    [|destruct (get first "title" (PStr "Unknown")) as [e|song_title];
      [|destruct (get first "artists" (PList [PDict []])) as [e|artists];
        [|destruct (getitem0 artists) as [e|artist0];
          [|destruct (get artist0 "name" (PStr "Unknown")) as [e|artist];
            [|destruct (add_playlist_items P ytmusic playlist_id [video_id] s)
                as [[e|status] s']]]]]].
  all: cbn [fs console calls remote].
  all: eexists _, _; split; [reflexivity|];
       split;
       [ first [ left; split; [reflexivity|];
                 cbn [calls]; rewrite !added_app; cbn; lia
               | right; split; [reflexivity|];
                 cbn [calls]; rewrite ?added_app; lia ]
       | cbn [calls]; rewrite ?searched_app; cbn; now rewrite ?app_nil_r ].
Qed.



(** The loop never raises; every song is counted once, as added or as
    failed; the failed list only grows; every song is searched for; and there
    is a call that adds for each song counted as added. *)
Lemma for_songs_counts ytmusic playlist_id n i setlist t w :
  exists t' w',
    for_songs ytmusic playlist_id n i setlist t w = (inr t', w')
    /\ (t'.1 + length t'.2 = t.1 + length t.2 + length setlist)%nat
    /\ (exists more, t'.2 = t.2 ++ more)
    /\ searched (calls w') = searched (calls w) ++ setlist
    /\ (t'.1 + added (calls w) <= t.1 + added (calls w'))%nat.
Proof.
  revert i t w; induction setlist as [|song rest IH]; intros i t w.
  - exists t, w. cbn. rewrite !app_nil_r. repeat split; [lia| |lia].
    exists []. now rewrite app_nil_r.
  - cbn [for_songs]. unfold bind.
    destruct (song_step_counts ytmusic playlist_id n i song t w)
      as (t1 & w1 & -> & Ht1 & Hs1).
    destruct (IH (S i) t1 w1)
      as (t' & w' & -> & Hcount & [more Hmore] & Hs & Hadd).
    exists t', w'. split; [reflexivity|].
    rewrite Hs, Hs1, <- app_assoc. cbn [length app].
    destruct Ht1 as [[-> Ha] | [-> Ha]]; cbn [fst snd] in *.
    + repeat split; [lia | now exists more | lia].
    + rewrite length_app in Hcount. cbn [length] in Hcount.
      repeat split; [lia| |lia]. exists (song :: more).
      now rewrite Hmore, <- app_assoc.
Qed.

End BuilderFacts.

Section BuilderTheorems.
Context {P : Platform}.
Implicit Types (w : world P) (t : tally) (ytmusic : client P).

(** C1. The loop over a setlist completes, and when it has, the number of
    songs counted as added plus the number of songs listed as failed is the
    length of the setlist. *)
Theorem successes_plus_failures ytmusic playlist_id n i setlist w :
  exists successful_adds failed_songs w',
    for_songs ytmusic playlist_id n i setlist (O, []) w
    = (inr (successful_adds, failed_songs), w')
    /\ (successful_adds + length failed_songs = length setlist)%nat.
Proof.
  destruct (for_songs_counts ytmusic playlist_id n i setlist (O, []) w)
    as ([adds failed] & w' & Hrun & Hcount & _).
  exists adds, failed, w'. split; [exact Hrun|]. cbn in Hcount. lia.
Qed.


(** [extract_headers_from_curl] catches what reading and scanning raise
    and only prints; a map it returns is not empty. *)
Lemma extract_headers_says filename w :
  exists parsed ms,
    extract_headers_from_curl filename w = (inr parsed, say ms w)
    /\ (forall hd, parsed = Some hd -> hd <> ∅).
Proof.
  rewrite extract_headers_unfold.
  destruct (read_text filename w).1 as [e|text].
  { eexists _, _. split; [reflexivity | discriminate]. }
  destruct (scan_capture text) as [e|h].
  { eexists _, _. split; [reflexivity | discriminate]. }
  destruct (missing_headers h).
  - eexists _, _. split; [reflexivity|].
    intros hd Heq Hempty.
    assert (add_defaults h = hd) as Hhd by congruence.
    assert (add_defaults h !! "accept" = None) as Hnone
      by now rewrite Hhd, Hempty, lookup_empty.
    rewrite add_defaults_lookup in Hnone.
    destruct (h !! "accept"); discriminate.
  - eexists _, _. split; [reflexivity | discriminate].
Qed.

(** The world after a successful parse: the message printed, then the
    artifact written and the client constructor run, or the writing failed
    and the error printed. *)
Lemma setup_ytmusic_unfold w :
  forall parsed ms,
    extract_headers_from_curl "paste.txt" w = (inr parsed, say ms w) ->
    (forall hd, parsed = Some hd -> hd <> ∅) ->
    setup_ytmusic w
    = match fs w !! "paste.txt", parsed with
      | Some _, Some hd =>
          let gave_up files e :=
            (inr None,
             World files
                   (console w ++ ms ++ [MsgUsingUpdatedHeaders;
                                        MsgErrorReadingPaste e;
                                        MsgNoValidHeaders; MsgGetStarted])
                   (calls w) (remote w)) in
          match save P "headers_auth.json" (json_dump P hd) with
          | Saved =>
              let files :=
                <["headers_auth.json" := Text (json_dump P hd)]> (fs w) in
              match YTMusic P (Some (Text (json_dump P hd))) (remote w) with
              | (inr ytmusic, s) =>
                  (inr (Some ytmusic),
                   World files (console w ++ ms ++ [MsgUsingUpdatedHeaders])
                         (calls w) s)
              | (inl e, s) =>
                  (inr None,
                   World files
                         (console w ++ ms ++ [MsgUsingUpdatedHeaders;
                                              MsgErrorReadingPaste e;
                                              MsgNoValidHeaders; MsgGetStarted])
                         (calls w) s)
              end
          | Refused e => gave_up (fs w) e
          | Cut kept e => gave_up (<["headers_auth.json" := Text kept]> (fs w)) e
          end
      | Some _, None =>
          (inr None, say (ms ++ [MsgNoValidHeaders; MsgGetStarted]) w)
      | None, _ =>
          (inr None, say [MsgNoValidHeaders; MsgGetStarted] w)
      end.
Proof.
  intros parsed ms Hparse Hne.
  unfold setup_ytmusic, bind, path_exists, try_except.
  destruct (fs w !! "paste.txt") as [f|] eqn:Hpaste.
  2: { rewrite bool_decide_eq_false_2 by (intros [? ?]; discriminate).
       unfold ret, print, say. cbn [fs console calls remote].
       now rewrite <- !app_assoc. }
  rewrite bool_decide_eq_true_2 by eauto.
  rewrite Hparse. destruct parsed as [hd|].
  2: { unfold ret, print, say. cbn [fs console calls remote].
       now rewrite <- !app_assoc. }
  rewrite bool_decide_eq_false_2 by now apply Hne.
  unfold print, write_json, say, ret. cbn [fs console calls remote].
  destruct (save P "headers_auth.json" (json_dump P hd)) as [|e|kept e];
    cbn [fs console calls remote].
  - rewrite lookup_insert_eq.
    destruct (YTMusic P (Some (Text (json_dump P hd))) (remote w))
      as [[e|c] s];
      cbn [fs console calls remote]; now rewrite <- !app_assoc.
  - now rewrite <- !app_assoc.
  - now rewrite <- !app_assoc.
Qed.

(** C9, amended. [setup_ytmusic] writes [headers_auth.json] only when the
    parse of [paste.txt] succeeds, and then unless the writing itself fails.
    If [paste.txt] is absent, or [extract_headers_from_curl] returns no
    Header Map (which is also what it does when reading or scanning raises),
    [setup_ytmusic] returns no client and the files are as they were. If the
    parse returns a Header Map, the artifact is opened for writing and the
    map dumped into it: when that succeeds the artifact holds the dump,
    whatever it held before, and the client is the one the constructor makes
    from that new artifact (none if the constructor raises); when opening
    raises, no client is returned and the files are as they were; when the
    dump raises, no client is returned and the artifact holds what got
    through. *)
Theorem artifact_written_when_parsed_and_saved w :
  exists parsed ms,
    extract_headers_from_curl "paste.txt" w = (inr parsed, say ms w)
    /\ match fs w !! "paste.txt", parsed with
       | Some _, Some hd =>
           match save P "headers_auth.json" (json_dump P hd) with
           | Saved =>
               fs (setup_ytmusic w).2
               = <["headers_auth.json" := Text (json_dump P hd)]> (fs w)
               /\ (setup_ytmusic w).1
                  = match (YTMusic P (Some (Text (json_dump P hd)))
                             (remote w)).1 with
                    | inr ytmusic => inr (Some ytmusic)
                    | inl _ => inr None
                    end
           | Refused e =>
               (setup_ytmusic w).1 = inr None
               /\ fs (setup_ytmusic w).2 = fs w
               /\ MsgErrorReadingPaste e ∈ console (setup_ytmusic w).2
           | Cut kept e =>
               (setup_ytmusic w).1 = inr None
               /\ fs (setup_ytmusic w).2
                  = <["headers_auth.json" := Text kept]> (fs w)
               /\ MsgErrorReadingPaste e ∈ console (setup_ytmusic w).2
           end
       | _, _ =>
           (setup_ytmusic w).1 = inr None /\ fs (setup_ytmusic w).2 = fs w
       end.
Proof.
  destruct (extract_headers_says "paste.txt" w) as (parsed & ms & Hparse & Hne).
  exists parsed, ms. split; [exact Hparse|].
  rewrite (setup_ytmusic_unfold w parsed ms Hparse Hne).
  destruct (fs w !! "paste.txt") as [f|]; [|now split].
  destruct parsed as [hd|]; [|now split].
  cbn zeta.
  destruct (save P "headers_auth.json" (json_dump P hd)) as [|e|kept e].
  - destruct (YTMusic P (Some (Text (json_dump P hd))) (remote w))
      as [[e|c] s];
      now split.
  - cbn [fst snd fs console]. repeat split.
    rewrite !elem_of_app. right. right. do 2 constructor.
  - cbn [fst snd fs console]. repeat split.
    rewrite !elem_of_app. right. right. do 2 constructor.
Qed.

(** [setup_ytmusic] makes no call on the client. *)
Lemma setup_ytmusic_calls w : calls (setup_ytmusic w).2 = calls w.
Proof.
  destruct (extract_headers_says "paste.txt" w) as (parsed & ms & Hparse & Hne).
  rewrite (setup_ytmusic_unfold w parsed ms Hparse Hne).
  destruct (fs w !! "paste.txt") as [f|]; [|reflexivity].
  destruct parsed as [hd|]; [|reflexivity].
  cbn zeta.
  destruct (save P "headers_auth.json" (json_dump P hd)) as [|e|kept e];
    [|reflexivity|reflexivity].
  now destruct (YTMusic P (Some (Text (json_dump P hd))) (remote w))
    as [[e|c] s].
Qed.

(** C7. When the session is set up and the remote [create_playlist] call
    raises, [create_playlist_from_setlist] prints the error and returns
    [None]; the only call made on the client in the whole run is that
    [create_playlist]: no song is searched for or added. *)
Theorem playlist_creation_failure_is_fatal setlist playlist_name description
    w ytmusic w1 e s :
  setup_ytmusic w = (inr (Some ytmusic), w1) ->
  create_playlist P ytmusic playlist_name description (remote w1) = (inl e, s) ->
  create_playlist_from_setlist setlist playlist_name description w
  = (inr None,
     World (fs w1)
           (console w1 ++ [MsgCreatingPlaylist playlist_name; MsgErrorCreating e])
           (calls w ++ [CallCreatePlaylist playlist_name description])
           s).
Proof.
  intros Hsetup Hcreate.
  pose proof (setup_ytmusic_calls w) as Hcalls. rewrite Hsetup in Hcalls.
  cbn [snd] in Hcalls.
  unfold create_playlist_from_setlist, try_except, bind.
  rewrite Hsetup.
  unfold print, call_create_playlist, log_call, ret.
  cbn [fs console calls remote]. rewrite Hcreate.
  cbn [fs console calls remote]. now rewrite Hcalls, <- app_assoc.
Qed.

(** Runs the next [print] of the goal. *)
Ltac run_print :=
  match goal with
  | |- context [print ?m ?w] =>
      change (print m w) with (@inr exn unit tt, say [m] w); cbv iota beta
  end.

Lemma print_failed_says (failed_songs : list string) w :
  print_failed failed_songs w = (inr tt, say (map MsgFailedSong failed_songs) w).
Proof.
  revert w; induction failed_songs as [|song rest IH]; intros w.
  - unfold say. cbn. rewrite app_nil_r. now destruct w.
  - cbn [print_failed map]. unfold bind. run_print.
    now rewrite IH, say_say.
Qed.

(** C6, as amended. When the session is set up, the playlist is created
    and the loop has completed, [create_playlist_from_setlist] returns the
    playlist identifier, and nothing else; the number of songs added out of
    the number attempted, and the failed queries in order, are printed. *)
Theorem returns_identifier_prints_summary setlist playlist_name description
    w ytmusic w1 playlist_id s t w3 :
  setup_ytmusic w = (inr (Some ytmusic), w1) ->
  create_playlist P ytmusic playlist_name description (remote w1)
  = (inr playlist_id, s) ->
  for_songs ytmusic playlist_id (length setlist) 1 setlist (O, [])
    (created w1 playlist_name description playlist_id s) = (inr t, w3) ->
  create_playlist_from_setlist setlist playlist_name description w
  = (inr (Some playlist_id),
     say (summary playlist_name (length setlist) t) w3).
Proof.
  intros Hsetup Hcreate Hloop.
  unfold create_playlist_from_setlist, try_except, bind.
  rewrite Hsetup.
  unfold print at 1, call_create_playlist, log_call.
  cbn [fs console calls remote]. rewrite Hcreate.
  unfold print at 1. cbn [fs console calls remote].
  rewrite <- app_assoc. cbn [app].
  unfold created in Hloop. rewrite Hloop.
  destruct t as [successful_adds failed_songs]. unfold summary. cbn [fst snd].
  run_print. run_print. rewrite say_say.
  destruct failed_songs as [|song rest]; [reflexivity|].
  run_print. rewrite print_failed_says, !say_say. reflexivity.
Qed.

End BuilderTheorems.

(** ** Header names over all code points *)

Section UnicodeFacts.
Import Unicode.
Implicit Types headers h : gmap text text.

Lemma has_lower_case_false (c : N) :
  has_lower_case c = false <-> to_lower_full c = [c].
Proof.
  unfold has_lower_case. rewrite negb_false_iff. apply bool_decide_eq_true.
Qed.

(** The table maps to code points that have no lower case of their own. *)
Lemma lower_table_settled (p : N * N) :
  In p lower_table -> has_lower_case p.2 = false.
Proof.
  assert (forallb (fun p => negb (has_lower_case p.2)) lower_table = true)
    as Hall by (vm_compute; reflexivity).
  rewrite forallb_forall in Hall. intros Hp.
  apply negb_true_iff. now apply Hall.
Qed.

(** The lower case of a code point is made of code points that have no
    lower case of their own. *)
Lemma to_lower_full_settled (c : N) : settled (to_lower_full c).
Proof.
  intros c' Hc'. unfold to_lower_full in Hc'.
  destruct (c =? capital_i_dot)%N eqn:Edot.
  { apply elem_of_cons in Hc' as [->|Hc']; [reflexivity|].
    apply elem_of_cons in Hc' as [->|Hc']; [reflexivity|].
    now apply elem_of_nil in Hc'. }
  destruct (List.find (fun p => (p.1 =? c)%N) lower_table) as [p|] eqn:Efind.
  - apply list_elem_of_singleton in Hc' as ->.
    apply find_some in Efind as [Hp _]. now apply lower_table_settled.
  - apply list_elem_of_singleton in Hc' as ->.
    apply has_lower_case_false. unfold to_lower_full.
    now rewrite Edot, Efind.
Qed.

Lemma settled_app (a b : text) : settled a -> settled b -> settled (a ++ b).
Proof.
  intros Ha Hb c Hc. apply elem_of_app in Hc as [Hc|Hc]; auto.
Qed.

(** What [lower] returns is settled. *)
Lemma lower_from_settled (before s : text) : settled (lower_from before s).
Proof.
  revert before; induction s as [|c s IH]; intros before.
  - intros c Hc. now apply elem_of_nil in Hc.
  - cbn [lower_from]. apply settled_app; [|apply IH].
    destruct (c =? capital_sigma)%N; [|apply to_lower_full_settled].
    intros c' Hc'. apply list_elem_of_singleton in Hc' as ->.
    unfold handle_capital_sigma.
    now destruct (_ && _).
Qed.

(** [lower] leaves a settled text as it is. *)
Lemma settled_lower_from (before s : text) :
  settled s -> lower_from before s = s.
Proof.
  revert before; induction s as [|c s IH]; intros before Hs; [reflexivity|].
  cbn [lower_from].
  assert (has_lower_case c = false) as Hc by (apply Hs; constructor).
  destruct (c =? capital_sigma)%N eqn:Esigma.
  { apply N.eqb_eq in Esigma. subst c. discriminate Hc. }
  apply has_lower_case_false in Hc. rewrite Hc. cbn [app].
  f_equal. apply IH. intros c' Hc'. apply Hs. now constructor.
Qed.

(** Below 256 every upper-case code point has a lower case. *)
Lemma latin_upper_has_lower_case (c : N) :
  (c < 256)%N -> isupper c = true -> has_lower_case c = true.
Proof.
  assert (forallb (fun n => implb (isupper (N.of_nat n))
                              (has_lower_case (N.of_nat n)))
            (seq 0 256) = true) as Hall by (vm_compute; reflexivity).
  rewrite forallb_forall in Hall. intros Hc Hup.
  specialize (Hall (N.to_nat c)). rewrite N2Nat.id, Hup in Hall.
  apply Hall. apply in_seq. lia.
Qed.

Lemma contains_colon_cons (a : N) (s : text) :
  contains [colon] (a :: s) = (colon =? a)%N || contains [colon] s.
Proof. cbn. now rewrite andb_true_r. Qed.

(** When the colon occurs, [split(':', 1)] has two parts. *)
Lemma split1_colon (s : text) :
  contains [colon] s = true -> exists k v, split1 colon s = [k; v].
Proof.
  induction s as [|a s IH]; intros H; [discriminate|].
  rewrite contains_colon_cons in H. cbn [split1].
  destruct (a =? colon)%N eqn:E.
  - now exists [], s.
  - rewrite N.eqb_sym, E in H. destruct (IH H) as (k & v & ->).
    now exists (a :: k), v.
Qed.

(** What one fragment can do to the map: nothing, set a lower-cased header
    name, or set the cookie. *)
Lemma scan_line_cases headers line :
  Unicode.scan_line headers line = inr headers
  \/ (exists k v,
        Unicode.scan_line headers line = inr (<[lower k := v]> headers))
  \/ (exists v,
        Unicode.scan_line headers line
        = inr (<[latin "cookie" := v]> headers)).
Proof.
  unfold Unicode.scan_line. set (l := strip line).
  destruct (contains Unicode.H_squote l) eqn:E1; cbn [orb rbind].
  { destruct (contains [colon]
                (Unicode.quoted_content l Unicode.H_squote [squote])) eqn:E;
      [|now left].
    destruct (split1_colon _ E) as (k & v & ->). right; left; eauto. }
  destruct (contains Unicode.H_dquote l) eqn:E2; cbn [orb rbind].
  { destruct (contains [colon]
                (Unicode.quoted_content l Unicode.H_dquote [dquote])) eqn:E;
      [|now left].
    destruct (split1_colon _ E) as (k & v & ->). right; left; eauto. }
  destruct (contains Unicode.b_squote l) eqn:E3; cbn [orb rbind].
  { right; right; eauto. }
  destruct (contains Unicode.b_dquote l) eqn:E4; cbn [orb rbind].
  { right; right; eauto. }
  now left.
Qed.

Lemma settled_keys_insert headers k v :
  settled k -> settled_keys headers -> settled_keys (<[k := v]> headers).
Proof.
  intros Hk Hh k' Hk'. destruct (decide (k = k')) as [<-|Hne]; [exact Hk|].
  rewrite lookup_insert_ne in Hk' by exact Hne. now apply Hh.
Qed.

Lemma latin_settled (s : string) :
  forallb (fun c => negb (has_lower_case c)) (latin s) = true ->
  settled (latin s).
Proof.
  intros H c Hc. rewrite forallb_forall in H.
  apply negb_true_iff, H. now apply list_elem_of_In.
Qed.

Lemma scan_line_settled_keys headers line :
  settled_keys headers ->
  exists h', Unicode.scan_line headers line = inr h' /\ settled_keys h'.
Proof.
  intros Hh.
  destruct (scan_line_cases headers line) as [E|[(k & v & E)|(v & E)]];
    rewrite E; eexists; split; try reflexivity.
  - exact Hh.
  - apply settled_keys_insert; [apply lower_from_settled | exact Hh].
  - apply settled_keys_insert; [now apply latin_settled | exact Hh].
Qed.

Lemma scan_lines_settled_keys lines headers :
  settled_keys headers ->
  exists h', Unicode.scan_lines lines headers = inr h' /\ settled_keys h'.
Proof.
  revert headers; induction lines as [|line rest IH]; intros headers Hh.
  - now exists headers.
  - destruct (scan_line_settled_keys headers line Hh) as (h1 & E & H1).
    cbn [Unicode.scan_lines]. rewrite E. cbn [rbind]. now apply IH.
Qed.

(** Scanning a capture never raises, and stores settled keys only. *)
Lemma scan_capture_settled_keys content :
  exists h, Unicode.scan_capture content = inr h /\ settled_keys h.
Proof.
  apply scan_lines_settled_keys. intros k [v Hv].
  now rewrite lookup_empty in Hv.
Qed.

(** The loop over the defaults adds settled keys only. *)
Lemma fold_defaults_settled_keys (table : list (string * string)) headers :
  Forall (fun kv => settled (latin kv.1)) table ->
  settled_keys headers ->
  settled_keys
    (fold_left
       (fun hd kv =>
          if bool_decide (is_Some (hd !! latin kv.1)) then hd
          else <[latin kv.1 := latin kv.2]> hd)
       table headers).
Proof.
  revert headers; induction table as [|kv table IH]; intros headers Ht Hh.
  - exact Hh.
  - apply Forall_cons in Ht as [Hkv Ht]. cbn [fold_left]. apply IH; [exact Ht|].
    case_bool_decide; [exact Hh|]. now apply settled_keys_insert.
Qed.

Lemma add_defaults_settled_keys headers :
  settled_keys headers -> settled_keys (Unicode.add_defaults headers).
Proof.
  apply fold_defaults_settled_keys.
  unfold defaults. repeat constructor; now apply latin_settled.
Qed.

(** C10, amended. Every key of a Header Map that
    [extract_headers_from_curl] returns is as [str.lower()] leaves it: the
    key is its own lower case, none of its characters has a lower case other
    than itself, and so it has no upper-case character below 256 (no [A-Z]
    in particular).  An upper-case character that has no lower case stays. *)
Theorem header_keys_are_their_own_lower_case content h :
  Unicode.extract_headers_from_curl content = Some h ->
  forall k, is_Some (h !! k) ->
    lower k = k
    /\ (forall c, c ∈ k -> has_lower_case c = false)
    /\ (forall c, c ∈ k -> (c < 256)%N -> isupper c = false).
Proof.
  unfold Unicode.extract_headers_from_curl.
  destruct (scan_capture_settled_keys (universal_newlines content))
    as (h0 & -> & Hsettled).
  destruct (Unicode.missing_headers h0); [|discriminate].
  intros Heq k Hk.
  assert (Unicode.add_defaults h0 = h) as <- by congruence.
  pose proof (add_defaults_settled_keys h0 Hsettled k Hk) as Hkey.
  split; [now apply settled_lower_from|]. split; [exact Hkey|].
  intros c Hc Hlatin. specialize (Hkey c Hc).
  destruct (isupper c) eqn:Hup; [|reflexivity].
  rewrite (latin_upper_has_lower_case c Hlatin Hup) in Hkey. discriminate.
Qed.

End UnicodeFacts.

(** * Further properties *)

(** ** The parser and the reader leave the world alone *)

Section ReadOnlyFacts.
Context {P : Platform}.
Implicit Types (w : world P).

(** Printing taken not to fail, [extract_headers_from_curl] lets no
    exception out and changes nothing but the console: whatever opening,
    reading or scanning the file raises is caught, and the files, the call
    log and the service are as before.  When the file is missing or cannot
    be read it returns [None] after the two lines that report the error. *)
Theorem extract_headers_only_prints filename w :
  (exists parsed ms,
      extract_headers_from_curl filename w = (inr parsed, say ms w))
  /\ (fs w !! filename = None ->
      extract_headers_from_curl filename w
      = (inr None,
         say [MsgErrorProcessingPaste (FileNotFoundError filename);
              MsgValidCurlHint] w))
  /\ (fs w !! filename = Some Unreadable ->
      extract_headers_from_curl filename w
      = (inr None,
         say [MsgErrorProcessingPaste (OSError filename);
              MsgValidCurlHint] w)).
Proof.
  split; [|split].
  - destruct (extract_headers_says filename w) as (parsed & ms & H & _).
    now exists parsed, ms.
  - intros H. rewrite extract_headers_unfold. unfold read_text.
    now rewrite H.
  - intros H. rewrite extract_headers_unfold. unfold read_text.
    now rewrite H.
Qed.

(** A Header Map that [extract_headers_from_curl] returns always has the
    two critical headers, whatever the capture was. *)
Theorem returned_map_has_critical_headers filename w w' h :
  extract_headers_from_curl filename w = (inr (Some h), w') ->
  is_Some (h !! "authorization") /\ is_Some (h !! "cookie").
Proof.
  rewrite extract_headers_unfold.
  destruct (read_text filename w).1 as [e|text]; [discriminate|].
  destruct (scan_capture text) as [e|h0]; [discriminate|].
  destruct (missing_headers h0) eqn:Hmiss; [|discriminate].
  intros Heq. apply (f_equal fst) in Heq. cbn [fst] in Heq.
  assert (add_defaults h0 = h) as <- by congruence.
  apply missing_headers_nil in Hmiss as [[a Ha] [c Hc]].
  rewrite !add_defaults_lookup, Ha, Hc. eauto.
Qed.

(** [read_setlist_from_file] by cases on the file. *)
Lemma read_setlist_unfold filename w :
  read_setlist_from_file filename w
  = match fs w !! filename with
    | None =>
        (inr [], say [MsgFileNotFound filename; MsgFormatHint] w)
    | Some Unreadable =>
        (inr [], say [MsgErrorReadingFile (OSError filename)] w)
    | Some (Text s) =>
        let setlist :=
          song_queries (PyStr.lines_of (PyStr.universal_newlines s)) in
        (inr setlist, say [MsgReadSongs (length setlist) filename] w)
    end.
Proof.
  unfold read_setlist_from_file, try_except, bind, readlines, read_text, bind.
  destruct (fs w !! filename) as [[|s]|]; unfold print, ret, say;
    cbn [fs console calls remote]; rewrite <- ?app_assoc;
    rewrite ?collect_songs_spec; reflexivity.
Qed.

(** Printing taken not to fail, [read_setlist_from_file] lets no
    exception out and changes nothing but the console: whatever opening or
    reading the file raises is caught.  A missing file gives the empty
    setlist after the two lines that tell the format; a file that cannot be
    read gives the empty setlist after the line that reports the error. *)
Theorem read_setlist_only_prints filename w :
  (exists setlist ms,
      read_setlist_from_file filename w = (inr setlist, say ms w))
  /\ (fs w !! filename = None ->
      read_setlist_from_file filename w
      = (inr [], say [MsgFileNotFound filename; MsgFormatHint] w))
  /\ (fs w !! filename = Some Unreadable ->
      read_setlist_from_file filename w
      = (inr [], say [MsgErrorReadingFile (OSError filename)] w)).
Proof.
  rewrite read_setlist_unfold. split; [|split].
  - destruct (fs w !! filename) as [[|s]|]; eexists _, _; reflexivity.
  - now intros ->.
  - now intros ->.
Qed.

End ReadOnlyFacts.

(** ** Lines, line ends and stripping *)

Section LineFacts.
Import PyStr.

Lemma append_nil_r (s : string) : s +:+ EmptyString = s.
Proof.
  induction s as [|c s IH]; [reflexivity|]. rewrite append_cons. now rewrite IH.
Qed.

Lemma rstrip_rstrip (s : string) : rstrip (rstrip s) = rstrip s.
Proof.
  induction s as [|c s IH]; [reflexivity|].
  cbn [rstrip]. destruct (rstrip s) as [|d r] eqn:E.
  - destruct (isspace c) eqn:Ec; [reflexivity|].
    cbn [rstrip]. now rewrite Ec.
  - change (rstrip (String c (String d r))) with
      (match rstrip (String d r) with
       | EmptyString => if isspace c then EmptyString else String c EmptyString
       | r' => String c r'
       end).
    now rewrite IH.
Qed.

Lemma lstrip_no_blank_in_front (s : string) : no_blank_in_front (lstrip s).
Proof.
  induction s as [|c s IH]; [exact I|].
  cbn [lstrip]. destruct (isspace c) eqn:E; [exact IH | exact E].
Qed.

Lemma lstrip_fixed (s : string) : no_blank_in_front s -> lstrip s = s.
Proof. destruct s as [|c s]; [reflexivity|]. cbn. now intros ->. Qed.

Lemma rstrip_no_blank_in_front (s : string) :
  no_blank_in_front s -> no_blank_in_front (rstrip s).
Proof.
  destruct s as [|c s]; [intros _; exact I|].
  cbn [no_blank_in_front rstrip]. intros Hc.
  destruct (rstrip s); [rewrite Hc|]; exact Hc.
Qed.

(** Stripping twice is stripping once. *)
Lemma strip_strip (s : string) : strip (strip s) = strip s.
Proof.
  unfold strip.
  rewrite (lstrip_fixed (rstrip (lstrip s))).
  - apply rstrip_rstrip.
  - apply rstrip_no_blank_in_front, lstrip_no_blank_in_front.
Qed.

Lemma contains_char_lstrip (c : ascii) (s : string) :
  contains (chr c) s = false -> contains (chr c) (lstrip s) = false.
Proof.
  induction s as [|a s IH]; [reflexivity|].
  intros H. cbn [lstrip]. destruct (isspace a); [|exact H].
  rewrite contains_char_cons in H. apply orb_false_iff in H as [_ H].
  now apply IH.
Qed.

Lemma contains_char_rstrip (c : ascii) (s : string) :
  contains (chr c) s = false -> contains (chr c) (rstrip s) = false.
Proof.
  induction s as [|a s IH]; [reflexivity|].
  rewrite contains_char_cons. intros H.
  apply orb_false_iff in H as [Ha Hs]. specialize (IH Hs).
  cbn [rstrip]. destruct (rstrip s) as [|d r].
  - destruct (isspace a); [reflexivity|].
    now rewrite contains_char_cons, Ha.
  - now rewrite contains_char_cons, Ha, IH.
Qed.

Lemma contains_char_strip (c : ascii) (s : string) :
  contains (chr c) s = false -> contains (chr c) (strip s) = false.
Proof.
  intros H. unfold strip. now apply contains_char_rstrip, contains_char_lstrip.
Qed.

(** Reading in text mode leaves no carriage return. *)
Lemma universal_newlines_no_cr (s : string) :
  contains (chr CR) (universal_newlines s) = false.
Proof.
  assert (forall n s, (String.length s <= n)%nat ->
            contains (chr CR) (universal_newlines s) = false) as Hn.
  { clear s. induction n as [|n IH]; intros s Hlen.
    - destruct s; [reflexivity | cbn in Hlen; lia].
    - destruct s as [|c s]; [reflexivity|]. cbn [String.length] in Hlen.
      cbn [universal_newlines]. destruct (Ascii.eqb c CR) eqn:Ec.
      + destruct s as [|c' s'].
        * reflexivity.
        * destruct (Ascii.eqb c' LF); rewrite contains_char_cons;
            cbn [String.length] in Hlen; rewrite IH by (cbn; lia);
            reflexivity.
      + rewrite contains_char_cons, Ascii.eqb_sym, Ec. cbn [orb].
        apply IH. lia. }
  now apply (Hn (String.length s)).
Qed.

(** A line of a text is free of line feeds but for the one that may end
    it. *)
Lemma lines_of_shape (s l : string) :
  l ∈ lines_of s ->
  exists body,
    contains (chr LF) body = false /\ (l = body \/ l = body +:+ chr LF).
Proof.
  revert l; induction s as [|c s IH]; intros l Hl.
  - cbn in Hl. now apply elem_of_nil in Hl.
  - cbn [lines_of] in Hl. destruct (Ascii.eqb c LF) eqn:Ec.
    + apply elem_of_cons in Hl as [-> | Hl]; [|now apply IH].
      exists EmptyString. split; [reflexivity | now right].
    + destruct (lines_of s) as [|l0 ls] eqn:E.
      * apply list_elem_of_singleton in Hl as ->.
        exists (chr c). split; [|now left].
        unfold chr at 2. now rewrite contains_char_cons, Ascii.eqb_sym, Ec.
      * apply elem_of_cons in Hl as [-> | Hl].
        -- destruct (IH l0) as (body & Hbody & Hl0); [constructor|].
           exists (String c body). split.
           ++ now rewrite contains_char_cons, Ascii.eqb_sym, Ec.
           ++ destruct Hl0 as [-> | ->]; [now left | now right].
        -- apply IH. now constructor.
Qed.

Lemma lines_of_stripped (s l : string) :
  l ∈ lines_of s -> contains (chr LF) (strip l) = false.
Proof.
  intros Hl. destruct (lines_of_shape s l Hl) as (body & Hbody & [-> | ->]).
  - now apply contains_char_strip.
  - rewrite strip_line_feed. now apply contains_char_strip.
Qed.

Lemma lines_of_no_cr (s l : string) :
  contains (chr CR) s = false -> l ∈ lines_of s -> contains (chr CR) l = false.
Proof.
  revert l; induction s as [|c s IH]; intros l Hs Hl.
  - cbn in Hl. now apply elem_of_nil in Hl.
  - rewrite contains_char_cons in Hs. apply orb_false_iff in Hs as [Hc Hs].
    cbn [lines_of] in Hl. destruct (Ascii.eqb c LF) eqn:Ec.
    + apply elem_of_cons in Hl as [-> | Hl]; [reflexivity | now apply IH].
    + destruct (lines_of s) as [|l0 ls] eqn:E.
      * apply list_elem_of_singleton in Hl as ->.
        unfold chr at 2. now rewrite contains_char_cons, Hc.
      * apply elem_of_cons in Hl as [-> | Hl].
        -- rewrite contains_char_cons, Hc. apply IH; [exact Hs | constructor].
        -- apply IH; [exact Hs | now constructor].
Qed.

End LineFacts.

Section CleanQueries.
Context {P : Platform}.
Implicit Types (w : world P).

(** Every query that [read_setlist_from_file] returns is ready to be
    searched for: it is not empty, it is not a comment, it has no blank at
    either end (stripping it again changes nothing) and it is one line, with
    no line feed and no carriage return in it. *)
Theorem setlist_queries_are_clean filename w w' setlist query :
  read_setlist_from_file filename w = (inr setlist, w') ->
  query ∈ setlist ->
  query <> ""
  /\ PyStr.startswith query "#" = false
  /\ PyStr.strip query = query
  /\ one_line query = true.
Proof.
  rewrite read_setlist_unfold.
  destruct (fs w !! filename) as [[|s]|].
  1, 3: intros [= <- _] Hq; now apply elem_of_nil in Hq.
  cbn zeta. intros [= <- _] Hq. unfold song_queries in Hq.
  apply list_elem_of_fmap in Hq as (l & -> & Hl).
  apply list_elem_of_In, filter_In in Hl as [Hl Hsong].
  apply list_elem_of_In in Hl.
  unfold is_song_line in Hsong. cbn zeta in Hsong.
  apply andb_true_iff in Hsong as [Hne Hcomment].
  apply negb_true_iff in Hne, Hcomment.
  split; [now apply String.eqb_neq|]. split; [exact Hcomment|].
  split; [apply strip_strip|].
  unfold one_line. rewrite (lines_of_stripped _ _ Hl).
  rewrite contains_char_strip; [reflexivity|].
  apply (lines_of_no_cr _ _ (universal_newlines_no_cr s) Hl).
Qed.

End CleanQueries.

(** ** Line ends *)

Section LineEndings.
Import PyStr.

Lemma universal_newlines_lf (l rest : string) :
  contains (chr CR) l = false ->
  universal_newlines (l +:+ chr LF +:+ rest)
  = l +:+ chr LF +:+ universal_newlines rest.
Proof.
  induction l as [|c l IH]; intros H.
  - reflexivity.
  - rewrite contains_char_cons in H. apply orb_false_iff in H as [Hc Hl].
    rewrite !append_cons. cbn [universal_newlines].
    rewrite Ascii.eqb_sym, Hc. now rewrite (IH Hl).
Qed.

Lemma universal_newlines_crlf (l rest : string) :
  contains (chr CR) l = false ->
  universal_newlines (l +:+ String CR (chr LF) +:+ rest)
  = l +:+ chr LF +:+ universal_newlines rest.
Proof.
  induction l as [|c l IH]; intros H.
  - reflexivity.
  - rewrite contains_char_cons in H. apply orb_false_iff in H as [Hc Hl].
    rewrite !(append_cons c l). cbn [universal_newlines].
    rewrite Ascii.eqb_sym, Hc. now rewrite (IH Hl).
Qed.

Lemma universal_newlines_cr (l rest : string) :
  contains (chr CR) l = false ->
  startswith rest (chr LF) = false ->
  universal_newlines (l +:+ chr CR +:+ rest)
  = l +:+ chr LF +:+ universal_newlines rest.
Proof.
  induction l as [|c l IH]; intros H Hrest.
  - rewrite !append_nil. unfold chr. rewrite !append_cons, !append_nil.
    cbn [universal_newlines]. rewrite Ascii.eqb_refl.
    destruct rest as [|c' rest']; [reflexivity|].
    cbn [startswith chr] in Hrest. rewrite andb_true_r in Hrest.
    rewrite (Ascii.eqb_sym c' LF), Hrest. reflexivity.
  - rewrite contains_char_cons in H. apply orb_false_iff in H as [Hc Hl].
    rewrite !append_cons. cbn [universal_newlines].
    rewrite Ascii.eqb_sym, Hc. now rewrite (IH Hl Hrest).
Qed.

Lemma one_line_parts (l : string) :
  one_line l = true ->
  contains (chr LF) l = false /\ contains (chr CR) l = false.
Proof.
  unfold one_line. intros H. apply andb_true_iff in H as [H1 H2].
  now apply negb_true_iff in H1, H2.
Qed.

(** What follows a line ended by a lone carriage return does not begin with
    a line feed. *)
Lemma cr_text_begins (lines : list string) (last : string) :
  forallb one_line lines = true ->
  one_line last = true ->
  startswith (text_with_endings (chr CR) lines +:+ last) (chr LF) = false.
Proof.
  intros Hlines Hlast.
  assert (forall s rest, one_line s = true ->
            startswith rest (chr LF) = false ->
            startswith (s +:+ rest) (chr LF) = false) as Hfront.
  { intros s rest Hs Hrest. destruct s as [|c s]; [exact Hrest|].
    apply one_line_parts in Hs as [Hs _].
    rewrite contains_char_cons in Hs. apply orb_false_iff in Hs as [Hc _].
    rewrite append_cons. cbn [startswith chr]. now rewrite Hc. }
  destruct lines as [|l rest].
  - cbn [text_with_endings]. rewrite append_nil.
    rewrite <- (append_nil_r last). now apply Hfront.
  - cbn [forallb] in Hlines. apply andb_true_iff in Hlines as [Hl _].
    cbn [text_with_endings]. rewrite !append_assoc. now apply Hfront.
Qed.

(** Read in text mode, a file whose lines end in line feeds, in carriage
    returns or in both is the file whose lines end in line feeds. *)
Lemma universal_newlines_text (ending : string) (lines : list string)
    (last : string) :
  line_ending ending = true ->
  forallb one_line lines = true ->
  one_line last = true ->
  universal_newlines (text_with_endings ending lines +:+ last)
  = text_of_lines lines +:+ last.
Proof.
  intros Hending Hlines Hlast.
  induction lines as [|l rest IH].
  - cbn [text_with_endings text_of_lines]. rewrite !append_nil.
    apply universal_newlines_plain. now apply one_line_parts.
  - cbn [forallb] in Hlines. apply andb_true_iff in Hlines as [Hl Hrest].
    specialize (IH Hrest). apply one_line_parts in Hl as [_ Hl].
    cbn [text_with_endings text_of_lines]. rewrite !append_assoc.
    unfold line_ending in Hending.
    apply orb_true_iff in Hending as [Hending | Hending];
      [apply orb_true_iff in Hending as [Hending | Hending]|];
      apply String.eqb_eq in Hending; subst ending.
    + now rewrite universal_newlines_lf, IH.
    + rewrite universal_newlines_cr, IH;
        [reflexivity | exact Hl | now apply cr_text_begins].
    + now rewrite universal_newlines_crlf, IH.
Qed.

Lemma lines_of_plain (s : string) :
  contains (chr LF) s = false ->
  lines_of s = match s with EmptyString => [] | _ => [s] end.
Proof.
  induction s as [|c s IH]; [reflexivity|].
  rewrite contains_char_cons. intros H.
  apply orb_false_iff in H as [Hc Hs].
  cbn [lines_of]. rewrite Ascii.eqb_sym, Hc, (IH Hs).
  now destruct s.
Qed.

Lemma lines_of_text_last (lines : list string) (last : string) :
  forallb one_line lines = true ->
  one_line last = true ->
  lines_of (text_of_lines lines +:+ last)
  = map (fun l => l +:+ chr LF) lines
    ++ match last with EmptyString => [] | _ => [last] end.
Proof.
  intros Hlines Hlast. induction lines as [|l rest IH].
  - cbn [text_of_lines map app]. rewrite append_nil.
    apply lines_of_plain. now apply one_line_parts.
  - cbn [forallb] in Hlines. apply andb_true_iff in Hlines as [Hl Hrest].
    apply one_line_parts in Hl as [Hl _].
    cbn [text_of_lines map app]. rewrite !append_assoc.
    now rewrite (lines_of_first _ _ Hl), (IH Hrest).
Qed.

Lemma song_queries_app (a b : list string) :
  song_queries (a ++ b) = song_queries a ++ song_queries b.
Proof. unfold song_queries. now rewrite List.filter_app, map_app. Qed.

Context {P : Platform}.

(** The setlist does not depend on how the lines of the file end: with
    line feeds, with carriage returns or with both, and whether or not the
    last line is ended, [read_setlist_from_file] returns the song lines among
    the lines of the file, stripped. *)
Theorem line_endings_do_not_matter (w : world P) filename ending lines last :
  line_ending ending = true ->
  forallb one_line lines = true ->
  one_line last = true ->
  fs w !! filename = Some (Text (text_with_endings ending lines +:+ last)) ->
  (read_setlist_from_file filename w).1
  = inr (map strip (List.filter is_song_line (lines ++ [last]))).
Proof.
  intros Hending Hlines Hlast Hfile.
  rewrite read_setlist_unfold, Hfile. cbn [fst]. f_equal.
  rewrite (universal_newlines_text _ _ _ Hending Hlines Hlast).
  rewrite (lines_of_text_last _ _ Hlines Hlast).
  change (map strip (List.filter is_song_line (lines ++ [last])))
    with (song_queries (lines ++ [last])).
  rewrite !song_queries_app, song_queries_line_feeds. f_equal.
  now destruct last.
Qed.

End LineEndings.

(** ** The playlist builder, case by case *)

Section BuilderCases.
Context {P : Platform}.
Implicit Types (w : world P) (t : tally) (ytmusic : client P).

(** The [try] block on a search that found something: what it does is
    decided by the three values read off the first result. *)
Lemma search_and_add_first ytmusic playlist_id song t w first others s :
  search P ytmusic song (remote w) = (inr (first :: others), s) ->
  search_and_add ytmusic playlist_id song t w
  = match first_result_fields first with
    | inl e =>
        (inl e, World (fs w) (console w) (calls w ++ [CallSearch song]) s)
    | inr (video_id, song_title, artist) =>
        match add_playlist_items P ytmusic playlist_id [video_id] s with
        | (inl e, s') =>
            (inl e,
             World (fs w) (console w)
                   (calls w ++ [CallSearch song;
                                CallAddPlaylistItems playlist_id [video_id]])
                   s')
        | (inr _, s') =>
            (inr (S t.1, t.2),
             World (fs w) (console w ++ [MsgAdded artist song_title])
                   (calls w ++ [CallSearch song;
                                CallAddPlaylistItems playlist_id [video_id]])
                   s')
        end
    end.
Proof.
  intros Hsearch. destruct t as [adds failed].
  unfold search_and_add, first_result_fields, bind, call_search,
    call_add_playlist_items, log_call, lift, print, ret.
  cbn [fs console calls remote]. rewrite Hsearch.
  destruct (getitem first "videoId") as [e|video_id]; cbn [rbind];
    [reflexivity|].
  destruct (get first "title" (PStr "Unknown")) as [e|song_title];
    cbn [rbind]; [reflexivity|].
  destruct (get first "artists" (PList [PDict []])) as [e|artists];
    cbn [rbind]; [reflexivity|].
  destruct (getitem0 artists) as [e|artist0]; cbn [rbind]; [reflexivity|].
  destruct (get artist0 "name" (PStr "Unknown")) as [e|artist]; cbn [rbind];
    [reflexivity|].
  cbn [fs console calls remote].
  destruct (add_playlist_items P ytmusic playlist_id [video_id] s)
    as [[e|status] s'];
    cbn [fs console calls remote fst snd]; now rewrite <- app_assoc.
Qed.

(** First result wins: when the search finds tracks, the track added is the
    one the first result names, whatever the other results are; and the song
    counts as added as soon as [add_playlist_items] returns, whatever it
    returns. *)
Theorem first_result_is_added ytmusic playlist_id n i song t w
    first others s video_id song_title artist status s' :
  search P ytmusic song (remote w) = (inr (first :: others), s) ->
  first_result_fields first = inr (video_id, song_title, artist) ->
  add_playlist_items P ytmusic playlist_id [video_id] s = (inr status, s') ->
  song_step ytmusic playlist_id n i song t w
  = (inr (S t.1, t.2),
     World (fs w)
           (console w ++ [MsgSearching i n song; MsgAdded artist song_title])
           (calls w ++ [CallSearch song;
                        CallAddPlaylistItems playlist_id [video_id]])
           s').
Proof.
  intros Hsearch Hfields Hadd.
  unfold song_step, bind, try_except, print at 1.
  cbn [fs console calls remote].
  rewrite (search_and_add_first ytmusic playlist_id song t _ first others s)
    by exact Hsearch.
  rewrite Hfields, Hadd. cbn [fs console calls remote].
  now rewrite <- app_assoc.
Qed.

(** A first result that has a [videoId] and neither [title] nor [artists]
    is still added; the line that reports it says [Unknown] for both. *)
Theorem result_with_video_id_only_is_added ytmusic playlist_id n i song t w
    items others s video_id status s' :
  search P ytmusic song (remote w) = (inr (PDict items :: others), s) ->
  dict_lookup items "videoId" = Some video_id ->
  dict_lookup items "title" = None ->
  dict_lookup items "artists" = None ->
  add_playlist_items P ytmusic playlist_id [video_id] s = (inr status, s') ->
  song_step ytmusic playlist_id n i song t w
  = (inr (S t.1, t.2),
     World (fs w)
           (console w ++ [MsgSearching i n song;
                          MsgAdded (PStr "Unknown") (PStr "Unknown")])
           (calls w ++ [CallSearch song;
                        CallAddPlaylistItems playlist_id [video_id]])
           s').
Proof.
  intros Hsearch Hid Htitle Hartists Hadd.
  unfold song_step, bind, try_except, print at 1.
  cbn [fs console calls remote].
  rewrite (search_and_add_first ytmusic playlist_id song t _ _ others s)
    by exact Hsearch.
  unfold first_result_fields, getitem, get.
  rewrite Hid, Htitle, Hartists. cbn [rbind getitem0 dict_lookup].
  rewrite Hadd. cbn [fs console calls remote].
  now rewrite <- app_assoc.
Qed.

(** A first result from which the three values cannot be read is not
    added, whatever the other results are: the song is recorded as failed
    and [add_playlist_items] is not called. That is so when the first result
    has no [videoId], and also when it has one but its [artists] list is
    empty. *)
Theorem unreadable_first_result_is_not_added ytmusic playlist_id n i song t w
    items others s :
  search P ytmusic song (remote w) = (inr (PDict items :: others), s) ->
  dict_lookup items "videoId" = None
  \/ dict_lookup items "artists" = Some (PList []) ->
  exists e,
    (e = KeyError (PStr "videoId") \/ e = IndexError)
    /\ song_step ytmusic playlist_id n i song t w
       = (inr (t.1, t.2 ++ [song]),
          World (fs w)
                (console w ++ [MsgSearching i n song; MsgErrorWith song e])
                (calls w ++ [CallSearch song])
                s).
Proof.
  intros Hsearch Hbad.
  assert (exists e, (e = KeyError (PStr "videoId") \/ e = IndexError)
                    /\ first_result_fields (PDict items) = inl e)
    as (e & He & Hfields).
  { unfold first_result_fields, getitem, get.
    destruct (dict_lookup items "videoId") as [v|] eqn:Hid.
    - destruct Hbad as [Hbad | Hbad]; [discriminate|].
      rewrite Hbad. cbn [rbind getitem0].
      destruct (dict_lookup items "title"); eexists; split;
        try reflexivity; now right.
    - eexists; split; [|reflexivity]. now left. }
  exists e. split; [exact He|].
  unfold song_step, bind, try_except, print at 1.
  cbn [fs console calls remote].
  rewrite (search_and_add_first ytmusic playlist_id song t _ _ others s)
    by exact Hsearch.
  rewrite Hfields. unfold print, ret. cbn [fs console calls remote].
  now rewrite <- app_assoc.
Qed.

End BuilderCases.

(** ** The playlist builder as a whole *)

(** Runs the next [print] of the goal. *)
Ltac print_next :=
  match goal with
  | |- context [print ?m ?w] =>
      change (print m w) with (@inr exn unit tt, say [m] w); cbv iota beta
  end.

Section BuilderWhole.
Context {P : Platform}.
Implicit Types (w : world P) (t : tally) (ytmusic : client P).

(** [create_playlist_from_setlist] by cases on the session, on the creation
    of the playlist and on the loop. *)
Lemma create_playlist_unfold setlist playlist_name description w :
  create_playlist_from_setlist setlist playlist_name description w
  = match setup_ytmusic w with
    | (inl e, w1) => (inr None, say [MsgErrorCreating e] w1)
    | (inr None, w1) => (inr None, w1)
    | (inr (Some ytmusic), w1) =>
        match create_playlist P ytmusic playlist_name description (remote w1) with
        | (inl e, s) =>
            (inr None,
             World (fs w1)
                   (console w1 ++ [MsgCreatingPlaylist playlist_name;
                                   MsgErrorCreating e])
                   (calls w1 ++ [CallCreatePlaylist playlist_name description])
                   s)
        | (inr playlist_id, s) =>
            match for_songs ytmusic playlist_id (length setlist) 1 setlist
                    (O, []) (created w1 playlist_name description playlist_id s)
            with
            | (inl e, w3) => (inr None, say [MsgErrorCreating e] w3)
            | (inr t, w3) =>
                (inr (Some playlist_id),
                 say (summary playlist_name (length setlist) t) w3)
            end
        end
    end.
Proof.
  unfold create_playlist_from_setlist, try_except, bind.
  destruct (setup_ytmusic w) as [[e|[ytmusic|]] w1]; try reflexivity.
  unfold print at 1, call_create_playlist, log_call.
  cbn [fs console calls remote].
  destruct (create_playlist P ytmusic playlist_name description (remote w1))
    as [[e|playlist_id] s].
  { unfold print, ret. cbn [fs console calls remote].
    now rewrite <- app_assoc. }
  unfold print at 1. cbn [fs console calls remote].
  rewrite <- app_assoc. cbn [app].
  change (World (fs w1)
            (console w1 ++ [MsgCreatingPlaylist playlist_name;
                            MsgPlaylistCreated playlist_id])
            (calls w1 ++ [CallCreatePlaylist playlist_name description]) s)
    with (created w1 playlist_name description playlist_id s).
  destruct (for_songs ytmusic playlist_id (length setlist) 1 setlist (O, [])
              (created w1 playlist_name description playlist_id s))
    as [[e|[successful_adds failed_songs]] w3]; [reflexivity|].
  unfold summary. cbn [fst snd].
  print_next. print_next. rewrite say_say.
  destruct failed_songs as [|song rest]; [reflexivity|].
  print_next. rewrite print_failed_says, !say_say. reflexivity.
Qed.

Lemma setup_ytmusic_returns w :
  exists r w1,
    setup_ytmusic w = (inr r, w1)
    /\ calls w1 = calls w
    /\ forall path, path <> "headers_auth.json" -> fs w1 !! path = fs w !! path.
Proof.
  destruct (extract_headers_says "paste.txt" w) as (parsed & ms & Hparse & Hne).
  rewrite (setup_ytmusic_unfold w parsed ms Hparse Hne).
  destruct (fs w !! "paste.txt") as [f|];
    [|eexists _, _; split; [reflexivity|]; now split].
  destruct parsed as [hd|];
    [|eexists _, _; split; [reflexivity|]; now split].
  cbn zeta.
  destruct (save P "headers_auth.json" (json_dump P hd)) as [|e|kept e];
    [destruct (YTMusic P (Some (Text (json_dump P hd))) (remote w))
       as [[e|c] s] | |];
    eexists _, _; (split; [reflexivity|]); (split; [reflexivity|]);
    intros path Hpath; cbn [fs]; now rewrite ?lookup_insert_ne.
Qed.

Lemma loop_call_more playlist_id (setlist more : list string) (c : call) :
  setlist ⊆ more -> loop_call playlist_id setlist c -> loop_call playlist_id more c.
Proof. intros Hsub. destruct c; cbn; auto. Qed.

(** One turn of the loop: the calls it makes, the files, the failed list. *)
Lemma song_step_calls ytmusic playlist_id n i song t w :
  exists t' w' new,
    song_step ytmusic playlist_id n i song t w = (inr t', w')
    /\ calls w' = calls w ++ new
    /\ Forall (loop_call playlist_id [song]) new
    /\ fs w' = fs w
    /\ (t'.2 = t.2 \/ t'.2 = t.2 ++ [song]).
Proof.
  assert (loop_call playlist_id [song] (CallSearch song)) as Hs
    by (cbn; constructor).
  destruct (search P ytmusic song (remote w)) as [[e|[|first others]] s]
    eqn:Hsearch.
  - unfold song_step, search_and_add, try_except, bind, print, call_search,
      log_call, ret. destruct t as [adds failed].
    cbn [fs console calls remote]. rewrite Hsearch.
    eexists _, _, [CallSearch song]. cbn [fs console calls remote fst snd].
    repeat split; [now constructor | now right].
  - unfold song_step, search_and_add, try_except, bind, print, call_search,
      log_call, ret. destruct t as [adds failed].
    cbn [fs console calls remote]. rewrite Hsearch.
    eexists _, _, [CallSearch song]. cbn [fs console calls remote fst snd].
    repeat split; [now constructor | now right].
  - unfold song_step, bind, try_except, print at 1.
    cbn [fs console calls remote].
    rewrite (search_and_add_first ytmusic playlist_id song t _ first others s)
      by exact Hsearch.
    destruct (first_result_fields first) as [e|[[video_id song_title] artist]].
    + unfold print, ret. cbn [fs console calls remote].
      eexists _, _, [CallSearch song]. cbn [fs console calls remote fst snd].
      repeat split; [now constructor | now right].
    + assert (loop_call playlist_id [song]
                (CallAddPlaylistItems playlist_id [video_id])) as Ha
        by now cbn.
      destruct (add_playlist_items P ytmusic playlist_id [video_id] s)
        as [[e|status] s']; unfold print, ret;
        cbn [fs console calls remote];
        eexists _, _, [CallSearch song;
                       CallAddPlaylistItems playlist_id [video_id]];
        cbn [fs console calls remote fst snd];
        (repeat split; [now repeat constructor|]); [now right | now left].
Qed.

(** The loop: the calls it makes, the files, the failed list. *)
Lemma for_songs_calls ytmusic playlist_id n i setlist t w :
  exists t' w' new failed,
    for_songs ytmusic playlist_id n i setlist t w = (inr t', w')
    /\ calls w' = calls w ++ new
    /\ Forall (loop_call playlist_id setlist) new
    /\ fs w' = fs w
    /\ t'.2 = t.2 ++ failed
    /\ sublist failed setlist.
Proof.
  revert i t w; induction setlist as [|song rest IH]; intros i t w.
  - exists t, w, [], []. cbn. rewrite !app_nil_r.
    repeat split; constructor.
  - cbn [for_songs]. unfold bind.
    destruct (song_step_calls ytmusic playlist_id n i song t w)
      as (t1 & w1 & new1 & -> & Hc1 & Hf1 & Hfs1 & Ht1).
    destruct (IH (S i) t1 w1)
      as (t' & w' & new & failed & -> & Hc & Hf & Hfs & Ht & Hsub).
    assert (Forall (loop_call playlist_id (song :: rest)) (new1 ++ new))
      as Hall.
    { apply Forall_app. split.
      - eapply Forall_impl; [exact Hf1|]. intros c. apply loop_call_more.
        intros x Hx. apply list_elem_of_singleton in Hx as ->. constructor.
      - eapply Forall_impl; [exact Hf|]. intros c. apply loop_call_more.
        intros x Hx. now constructor. }
    destruct Ht1 as [H1 | H1].
    + exists t', w', (new1 ++ new), failed.
      split; [reflexivity|]. split; [now rewrite Hc, Hc1, app_assoc|].
      split; [exact Hall|]. split; [now rewrite Hfs, Hfs1|].
      rewrite Ht, H1. split; [reflexivity | now apply sublist_cons].
    + exists t', w', (new1 ++ new), (song :: failed).
      split; [reflexivity|]. split; [now rewrite Hc, Hc1, app_assoc|].
      split; [exact Hall|]. split; [now rewrite Hfs, Hfs1|].
      rewrite Ht, H1. split; [now rewrite <- app_assoc | now apply sublist_skip].
Qed.

(** No exception leaves [setup_ytmusic] or
    [create_playlist_from_setlist]: whatever the files hold, and whatever
    the client library and the service return or raise (an instance of
    [Exception]; printing is taken not to fail), both functions return. *)
Theorem builder_never_raises setlist playlist_name description w :
  (exists r, (setup_ytmusic w).1 = inr r)
  /\ (exists r,
        (create_playlist_from_setlist setlist playlist_name description w).1
        = inr r).
Proof.
  destruct (setup_ytmusic_returns w) as (r & w1 & Hsetup & _).
  split; [exists r; now rewrite Hsetup|].
  rewrite create_playlist_unfold, Hsetup.
  destruct r as [ytmusic|]; [|now eexists].
  destruct (create_playlist P ytmusic playlist_name description (remote w1))
    as [[e|playlist_id] s]; [now eexists|].
  destruct (for_songs_calls ytmusic playlist_id (length setlist) 1 setlist
              (O, []) (created w1 playlist_name description playlist_id s))
    as (t' & w' & new & failed & -> & _).
  now eexists.
Qed.

(** Without a session there is no playlist: when [setup_ytmusic] gives no
    client, [create_playlist_from_setlist] returns [None] at once, in the
    world [setup_ytmusic] left, and no call has been made on any client. *)
Theorem no_session_no_playlist setlist playlist_name description w w1 :
  setup_ytmusic w = (inr None, w1) ->
  create_playlist_from_setlist setlist playlist_name description w
  = (inr None, w1)
  /\ calls w1 = calls w.
Proof.
  intros Hsetup. rewrite create_playlist_unfold, Hsetup.
  split; [reflexivity|].
  destruct (setup_ytmusic_returns w) as (r & w1' & Hsetup' & Hcalls & _).
  rewrite Hsetup in Hsetup'. congruence.
Qed.

(** The calls of a run.  Without a session [create_playlist_from_setlist]
    makes no call at all.  With a session it creates one playlist, with the
    name and the description it was given; when that call raises it makes no
    other, and when it returns an identifier every later call is a search for
    a song of the setlist or the addition of one track to the playlist of
    that very identifier. *)
Theorem builder_calls setlist playlist_name description w :
  exists new,
    calls (create_playlist_from_setlist setlist playlist_name description w).2
    = calls w ++ new
    /\ match setup_ytmusic w with
       | (inr (Some ytmusic), w1) =>
           match (create_playlist P ytmusic playlist_name description
                    (remote w1)).1 with
           | inr playlist_id =>
               exists rest,
                 new = CallCreatePlaylist playlist_name description :: rest
                 /\ Forall (loop_call playlist_id setlist) rest
           | inl _ => new = [CallCreatePlaylist playlist_name description]
           end
       | _ => new = []
       end.
Proof.
  destruct (setup_ytmusic_returns w) as (r & w1 & Hsetup & Hcalls & _).
  rewrite create_playlist_unfold, Hsetup.
  destruct r as [ytmusic|].
  2: { exists []. cbn [snd]. rewrite Hcalls, app_nil_r. now split. }
  destruct (create_playlist P ytmusic playlist_name description (remote w1))
    as [[e|playlist_id] s]; cbn [fst].
  { exists [CallCreatePlaylist playlist_name description].
    cbn [snd calls]. rewrite Hcalls. now split. }
  destruct (for_songs_calls ytmusic playlist_id (length setlist) 1 setlist
              (O, []) (created w1 playlist_name description playlist_id s))
    as (t' & w' & new & failed & -> & Hnew & Hall & _).
  exists (CallCreatePlaylist playlist_name description :: new).
  cbn [snd say calls]. rewrite Hnew. unfold created. cbn [calls].
  rewrite Hcalls, <- app_assoc. split; [reflexivity|].
  now exists new.
Qed.

(** The failed queries are reported in the order of the setlist: the failed
    list the loop ends with is the setlist with the songs that were added
    left out. *)
Theorem failed_songs_in_setlist_order ytmusic playlist_id n i setlist w :
  exists successful_adds failed_songs w',
    for_songs ytmusic playlist_id n i setlist (O, []) w
    = (inr (successful_adds, failed_songs), w')
    /\ sublist failed_songs setlist.
Proof.
  destruct (for_songs_calls ytmusic playlist_id n i setlist (O, []) w)
    as ([adds failed'] & w' & new & failed & Hrun & _ & _ & _ & Ht & Hsub).
  cbn [snd app] in Ht. subst failed'.
  now exists adds, failed, w'.
Qed.

(** An empty setlist still creates the playlist: with a session and a
    successful creation, the function returns the identifier of a playlist
    that stays empty, having made the one call and printed a summary of 0
    songs out of 0. *)
Theorem empty_setlist_creates_empty_playlist playlist_name description
    w ytmusic w1 playlist_id s :
  setup_ytmusic w = (inr (Some ytmusic), w1) ->
  create_playlist P ytmusic playlist_name description (remote w1)
  = (inr playlist_id, s) ->
  create_playlist_from_setlist [] playlist_name description w
  = (inr (Some playlist_id),
     World (fs w1)
           (console w1 ++ [MsgCreatingPlaylist playlist_name;
                           MsgPlaylistCreated playlist_id;
                           MsgPlaylistDone playlist_name;
                           MsgSongsAdded 0 0])
           (calls w ++ [CallCreatePlaylist playlist_name description])
           s).
Proof.
  intros Hsetup Hcreate.
  destruct (setup_ytmusic_returns w) as (r & w1' & Hsetup' & Hcalls & _).
  rewrite Hsetup in Hsetup'.
  assert (w1' = w1) as -> by congruence.
  rewrite create_playlist_unfold, Hsetup, Hcreate.
  cbn [for_songs length]. unfold ret, say, created, summary.
  cbn [fs console calls remote fst snd]. now rewrite Hcalls, <- app_assoc.
Qed.

(** The only file a run can write is [headers_auth.json]: every other path
    holds after [create_playlist_from_setlist] what it held before. *)
Theorem builder_writes_only_the_artifact setlist playlist_name description
    w path :
  path <> "headers_auth.json" ->
  fs (create_playlist_from_setlist setlist playlist_name description w).2
    !! path
  = fs w !! path.
Proof.
  intros Hpath.
  destruct (setup_ytmusic_returns w) as (r & w1 & Hsetup & _ & Hfs).
  rewrite create_playlist_unfold, Hsetup.
  destruct r as [ytmusic|]; [|now apply Hfs].
  destruct (create_playlist P ytmusic playlist_name description (remote w1))
    as [[e|playlist_id] s]; [now apply Hfs|].
  destruct (for_songs_calls ytmusic playlist_id (length setlist) 1 setlist
              (O, []) (created w1 playlist_name description playlist_id s))
    as (t' & w' & new & failed & -> & _ & _ & Hloop & _).
  cbn [snd say fs]. rewrite Hloop. now apply Hfs.
Qed.

End BuilderWhole.

(** ** The command line *)

Section CommandLineFacts.
Context {P : Platform}.
Implicit Types (w : world P) (t : terminal).

Lemma show_preview_numbered (i : nat) (songs : list string) t w :
  show_preview i songs t w
  = (inr tt, Terminal (stdin t) (shown t ++ numbered i songs), w).
Proof.
  revert i t; induction songs as [|song rest IH]; intros i t.
  - cbn. rewrite app_nil_r. now destruct t.
  - cbn [show_preview numbered]. unfold tbind, show. rewrite IH.
    cbn [stdin shown]. now rewrite <- app_assoc.
Qed.

(** [main] by cases on the setlist, on the lines typed and on the answer to
    the confirmation. *)
Lemma main_unfold t w :
  main t w
  = match read_setlist_from_file "setlist.txt" w with
    | (inl e, w1) => (inl (Escaped e), t, w1)
    | (inr [], w1) => (inr tt, t, w1)
    | (inr (song :: more), w1) =>
        let setlist := song :: more in
        let n := length setlist in
        let pre := shown t ++ preview_lines setlist in
        match stdin t with
        | [] =>
            (inl EOFError, Terminal [] (pre ++ [PromptPlaylistName]), w1)
        | answer1 :: [] =>
            (inl EOFError,
             Terminal [] (pre ++ [PromptPlaylistName;
                                  PromptConfirm (playlist_name_of answer1) n]),
             w1)
        | answer1 :: answer2 :: rest =>
            let name := playlist_name_of answer1 in
            if confirmed answer2 then
              match create_playlist_from_setlist setlist name
                      (description_of n) w1 with
              | (inl e, w2) =>
                  (inl (Escaped e),
                   Terminal rest (pre ++ [PromptPlaylistName;
                                          PromptConfirm name n]),
                   w2)
              | (inr returned, w2) =>
                  (inr tt,
                   Terminal rest (pre ++ [PromptPlaylistName;
                                          PromptConfirm name n]
                                      ++ closing_lines returned),
                   w2)
              end
            else
              (inr tt,
               Terminal rest (pre ++ [PromptPlaylistName;
                                      PromptConfirm name n; MsgCancelled]),
               w1)
        end
    end.
Proof.
  unfold main, tbind, run.
  destruct (read_setlist_from_file "setlist.txt" w) as [[e|[|song more]] w1];
    try reflexivity.
  unfold show at 1. rewrite show_preview_numbered. cbn [stdin shown].
  cbn zeta.
  set (setlist := song :: more).
  assert ((let
            '(y, w') :=
             (if (5 <? length setlist)%nat
              then show (MsgMoreSongs (length setlist - 5))
              else tret tt)
               (Terminal (stdin t)
                  ((shown t ++ [MsgSetlistPreview])
                   ++ numbered 1 (firstn 5 setlist))) w1 in
           (y, w'))
          = (@inr main_exn unit tt,
             Terminal (stdin t) (shown t ++ preview_lines setlist), w1))
    as Hpre.
  { unfold preview_lines.
    destruct (5 <? length setlist)%nat; unfold show, tret; cbn [stdin shown];
      now rewrite <- !app_assoc, ?app_nil_r. }
  destruct ((if (5 <? length setlist)%nat
             then show (MsgMoreSongs (length setlist - 5))
             else tret tt)
              (Terminal (stdin t)
                 ((shown t ++ [MsgSetlistPreview])
                  ++ numbered 1 (firstn 5 setlist))) w1)
    as [[r0 t0] w0] eqn:E.
  cbn in Hpre. injection Hpre as -> -> ->.
  unfold input at 1. cbn [stdin shown].
  destruct (stdin t) as [|answer1 [|answer2 rest]].
  - reflexivity.
  - unfold input. cbn [stdin shown]. now rewrite <- app_assoc.
  - unfold input. cbn [stdin shown].
    fold (playlist_name_of answer1). fold (description_of (length setlist)).
    fold (confirmed answer2).
    destruct (confirmed answer2); cbn [negb].
    + destruct (create_playlist_from_setlist setlist (playlist_name_of answer1)
                  (description_of (length setlist)) w1) as [[e|returned] w2].
      * now rewrite <- app_assoc.
      * unfold closing_lines. destruct returned as [v|].
        -- destruct (truthy v); unfold show, tret, tbind; cbn [stdin shown];
             now rewrite <- !app_assoc, ?app_nil_r.
        -- unfold tret. now rewrite <- !app_assoc, ?app_nil_r.
    + unfold show. cbn [stdin shown]. now rewrite <- !app_assoc.
Qed.

(** [main] does nothing behind the user's back: if a run of [main] has
    made a call on the client, written a file or changed the state of the
    service, then two lines were typed and the second, stripped and
    lower-cased, is [y] or [yes]. *)
Theorem main_needs_confirmation t w :
  calls (main t w).2 <> calls w
  \/ fs (main t w).2 <> fs w
  \/ remote (main t w).2 <> remote w ->
  exists answer1 answer2 rest,
    stdin t = answer1 :: answer2 :: rest
    /\ (PyStr.lower (PyStr.strip answer2) = "y"
        \/ PyStr.lower (PyStr.strip answer2) = "yes").
Proof.
  rewrite main_unfold.
  destruct (read_setlist_only_prints "setlist.txt" w)
    as ((setlist & ms & ->) & _).
  assert (forall (r : main_exn + unit) t',
            calls (r, t', say ms w).2 <> calls w
            \/ fs (r, t', say ms w).2 <> fs w
            \/ remote (r, t', say ms w).2 <> remote w -> False) as Hsame.
  { intros r t' [H | [H | H]]; now apply H. }
  destruct setlist as [|song more]; [intros H; now apply Hsame in H|].
  cbn zeta.
  destruct (stdin t) as [|answer1 [|answer2 rest]];
    try (intros H; now apply Hsame in H).
  destruct (confirmed answer2) eqn:Hyes;
    [|intros H; now apply Hsame in H].
  intros _. exists answer1, answer2, rest. split; [reflexivity|].
  unfold confirmed in Hyes. cbn [existsb] in Hyes.
  rewrite orb_false_r in Hyes.
  apply orb_true_iff in Hyes as [Hyes | Hyes];
    apply String.eqb_eq in Hyes; auto.
Qed.

(** With no song to add, [main] asks nothing: when the setlist read from
    [setlist.txt] is empty (the file is missing, cannot be read, or holds
    only blank lines and comments), [main] returns without a prompt, having
    read none of the lines typed and shown nothing of its own; all that has
    happened is what the reader printed. *)
Theorem main_without_songs_asks_nothing t w :
  (read_setlist_from_file "setlist.txt" w).1 = inr [] ->
  main t w = (inr tt, t, (read_setlist_from_file "setlist.txt" w).2)
  /\ exists ms, (read_setlist_from_file "setlist.txt" w).2 = say ms w.
Proof.
  intros H. split.
  - rewrite main_unfold.
    destruct (read_setlist_from_file "setlist.txt" w)
      as [[e|[|song more]] w1];
      cbn [fst snd] in *; try discriminate; reflexivity.
  - rewrite read_setlist_unfold.
    destruct (fs w !! "setlist.txt") as [[|s]|]; eexists; reflexivity.
Qed.

(** What a confirmed run does: with a setlist that is not empty, two lines
    typed and the second a yes, [main] calls [create_playlist_from_setlist]
    on the setlist read, with the first answer stripped as the name
    ([Concert Playlist] when it is blank) and with the description that
    tells the number of songs; it shows the preview, both prompts and, when
    an identifier comes back, the address of the playlist. *)
Theorem main_confirmed_runs_builder t w setlist w1 answer1 answer2 rest
    returned w2 :
  read_setlist_from_file "setlist.txt" w = (inr setlist, w1) ->
  setlist <> [] ->
  stdin t = answer1 :: answer2 :: rest ->
  confirmed answer2 = true ->
  create_playlist_from_setlist setlist
    (if String.eqb (PyStr.strip answer1) "" then "Concert Playlist"
     else PyStr.strip answer1)
    ("Setlist with " +:+ str_of_nat (length setlist)
     +:+ " songs imported from setlist.txt") w1
  = (inr returned, w2) ->
  main t w
  = (inr tt,
     Terminal rest
       (shown t ++ preview_lines setlist
        ++ [PromptPlaylistName;
            PromptConfirm (playlist_name_of answer1) (length setlist)]
        ++ closing_lines returned),
     w2).
Proof.
  intros Hread Hne Hstdin Hyes Hbuild.
  rewrite main_unfold, Hread.
  destruct setlist as [|song more]; [congruence|].
  cbn zeta. rewrite Hstdin, Hyes.
  unfold playlist_name_of, description_of. rewrite Hbuild.
  now rewrite <- !app_assoc.
Qed.

End CommandLineFacts.

(** ** Captures without flags *)

Section SubstringFacts.
Import PyStr.

Lemma startswith_inv (s p : string) :
  startswith s p = true -> exists r, s = p +:+ r.
Proof.
  revert s; induction p as [|a p IH]; intros s H.
  - now exists s.
  - destruct s as [|b s]; [discriminate|]. cbn [startswith] in H.
    apply andb_true_iff in H as [Hab Hp]. apply Ascii.eqb_eq in Hab as ->.
    destruct (IH s Hp) as [r ->]. now exists r.
Qed.

(** An occurrence of [sub] in [s] cuts [s] in three. *)
Lemma contains_inv (sub s : string) :
  contains sub s = true -> exists p q, s = p +:+ sub +:+ q.
Proof.
  induction s as [|c s IH]; rewrite contains_unfold; intros H;
    apply orb_true_iff in H as [H | H]; try discriminate.
  - apply startswith_inv in H as [r ->]. now exists EmptyString, r.
  - apply startswith_inv in H as [r ->]. now exists EmptyString, r.
  - destruct (IH H) as (p & q & ->). now exists (String c p), q.
Qed.

(** What occurs in a part occurs in the whole. *)
Lemma contains_middle (sub a x b : string) :
  contains sub x = true -> contains sub (a +:+ x +:+ b) = true.
Proof.
  intros H. destruct (contains_inv _ _ H) as (p & q & ->).
  replace (a +:+ (p +:+ sub +:+ q) +:+ b)
    with ((a +:+ p) +:+ sub +:+ (q +:+ b))
    by now rewrite !append_assoc.
  apply contains_append.
Qed.

Lemma lstrip_suffix (s : string) : exists a, s = a +:+ lstrip s.
Proof.
  induction s as [|c s [a IH]]; [now exists EmptyString|].
  cbn [lstrip]. destruct (isspace c).
  - exists (String c a). rewrite append_cons. now rewrite <- IH.
  - now exists EmptyString.
Qed.

Lemma rstrip_prefix (s : string) : exists b, s = rstrip s +:+ b.
Proof.
  induction s as [|c s [b IH]]; [now exists EmptyString|].
  cbn [rstrip]. destruct (rstrip s) as [|d r].
  - destruct (isspace c).
    + now exists (String c s).
    + exists s. reflexivity.
  - exists b. rewrite append_cons. now rewrite <- IH.
Qed.

Lemma strip_middle (s : string) : exists a b, s = a +:+ strip s +:+ b.
Proof.
  destruct (lstrip_suffix s) as [a Ha].
  destruct (rstrip_prefix (lstrip s)) as [b Hb].
  exists a, b. unfold strip. now rewrite <- Hb.
Qed.

Lemma contains_strip (sub s : string) :
  contains sub (strip s) = true -> contains sub s = true.
Proof.
  intros H. destruct (strip_middle s) as (a & b & Hs).
  rewrite Hs. now apply contains_middle.
Qed.

Lemma split_head (c : ascii) (s h : string) (t : list string) :
  split c s = h :: t -> exists b, s = h +:+ b.
Proof.
  revert h t; induction s as [|x s IH]; intros h t H.
  - injection H as <- <-. now exists EmptyString.
  - cbn [split] in H. destruct (Ascii.eqb x c).
    + injection H as <- <-. now exists (String x s).
    + destruct (split c s) as [|h0 t0] eqn:E.
      * injection H as <- <-. now exists s.
      * injection H as <- <-. destruct (IH h0 t0 eq_refl) as [b ->].
        now exists b.
Qed.

(** A fragment of a text is a part of it. *)
Lemma split_middle (c : ascii) (s frag : string) :
  frag ∈ split c s -> exists a b, s = a +:+ frag +:+ b.
Proof.
  revert frag; induction s as [|x s IH]; intros frag H.
  - apply list_elem_of_singleton in H as ->. now exists EmptyString, EmptyString.
  - cbn [split] in H. destruct (Ascii.eqb x c).
    + apply elem_of_cons in H as [-> | H].
      * now exists EmptyString, (String x s).
      * destruct (IH frag H) as (a & b & ->). now exists (String x a), b.
    + destruct (split c s) as [|h0 t0] eqn:E.
      * apply list_elem_of_singleton in H as ->. now exists EmptyString, s.
      * apply elem_of_cons in H as [-> | H].
        -- destruct (split_head c s h0 t0 E) as [b ->].
           now exists EmptyString, b.
        -- destruct (IH frag) as (a & b & ->); [now constructor|].
           now exists (String x a), b.
Qed.

(** A marker that does not occur in the capture occurs in none of its
    fragments, stripped. *)
Lemma marker_not_in_fragment (m text frag : string) :
  contains m text = false ->
  frag ∈ split "\"%char text ->
  contains m (strip frag) = false.
Proof.
  intros Htext Hfrag. destruct (contains m (strip frag)) eqn:E; [|reflexivity].
  apply contains_strip in E. destruct (split_middle _ _ _ Hfrag) as (a & b & ->).
  now rewrite (contains_middle m a frag b E) in Htext.
Qed.

Lemma scan_lines_without_markers (lines : list string)
    (headers : gmap string string) :
  (forall line, line ∈ lines ->
     contains H_squote (strip line) = false
     /\ contains H_dquote (strip line) = false
     /\ contains b_squote (strip line) = false
     /\ contains b_dquote (strip line) = false) ->
  scan_lines lines headers = inr headers.
Proof.
  induction lines as [|line rest IH]; intros H; [reflexivity|].
  cbn [scan_lines].
  destruct (H line) as (H1 & H2 & H3 & H4); [constructor|].
  unfold scan_line. rewrite H1, H2, H3, H4. cbn [orb rbind].
  apply IH. intros l Hl. apply H. now constructor.
Qed.

Context {P : Platform}.

(** Headers come from flags only: a capture in which none of the four
    markers occurs (an empty file, say) stores nothing, so
    [extract_headers_from_curl] returns [None] and reports both critical
    headers as missing. *)
Theorem capture_without_flags_fails (w : world P) filename text :
  read_text filename w = (inr text, w) ->
  forallb (fun m => negb (contains m text))
    [H_squote; H_dquote; b_squote; b_dquote] = true ->
  scan_capture text = inr ∅
  /\ extract_headers_from_curl filename w
     = (inr None,
        say [MsgHeadersFound ∅;
             MsgMissingCritical ["authorization"; "cookie"];
             MsgCompleteCurlHint] w).
Proof.
  intros Hread Hnone. cbn [forallb] in Hnone.
  apply andb_true_iff in Hnone as [H1 Hnone].
  apply andb_true_iff in Hnone as [H2 Hnone].
  apply andb_true_iff in Hnone as [H3 Hnone].
  apply andb_true_iff in Hnone as [H4 _].
  apply negb_true_iff in H1, H2, H3, H4.
  assert (scan_capture text = inr ∅) as Hscan.
  { unfold scan_capture. apply scan_lines_without_markers.
    intros line Hline. repeat split;
      eapply marker_not_in_fragment; eauto. }
  split; [exact Hscan|].
  rewrite extract_headers_unfold, Hread. cbn [fst]. rewrite Hscan.
  assert (missing_headers ∅ = ["authorization"; "cookie"]) as ->
    by reflexivity.
  now rewrite dom_empty_L.
Qed.

End SubstringFacts.

(** ** Closed quotes *)

Section ClosedQuotes.
Import PyStr.

Lemma take_append (a b : string) : take (String.length a) (a +:+ b) = a.
Proof.
  induction a as [|c a IH]; [now destruct b|].
  rewrite append_cons. cbn [String.length take]. now rewrite IH.
Qed.

Lemma find_present_after (a b sub : string) (n : nat) :
  find_first sub b = Some n ->
  find (a +:+ b) sub (Z.of_nat (String.length a))
  = Z.of_nat (String.length a) + Z.of_nat n.
Proof.
  intros H. unfold find.
  destruct (Z.ltb_spec (Z.of_nat (String.length a)) 0) as [Hlt|_]; [lia|].
  rewrite length_append.
  destruct (Z.ltb_spec (Z.of_nat (String.length a + String.length b))
              (Z.of_nat (String.length a))) as [Hlt|_]; [lia|].
  now rewrite Nat2Z.id, drop_append, H.
Qed.

Lemma find_first_char_here (q content after : string) :
  String.length q = 1%nat ->
  contains q content = false ->
  find_first q (content +:+ q +:+ after) = Some (String.length content).
Proof.
  intros Hq H.
  pose proof (find_first_here EmptyString q content after Hq) as Hhere.
  rewrite !append_nil, append_nil_r in Hhere. now apply Hhere.
Qed.

Lemma slice_middle (a b c : string) :
  slice (a +:+ b +:+ c) (Z.of_nat (String.length a))
    (Z.of_nat (String.length a) + Z.of_nat (String.length b))
  = b.
Proof.
  unfold slice, clip. rewrite !length_append.
  destruct (Z.ltb_spec (Z.of_nat (String.length a)) 0) as [Hlt|_]; [lia|].
  destruct (Z.ltb_spec (Z.of_nat (String.length a)
                        + Z.of_nat (String.length b)) 0) as [Hlt|_]; [lia|].
  rewrite !Z.min_l by lia.
  replace (Z.of_nat (String.length a) + Z.of_nat (String.length b)
           - Z.of_nat (String.length a))
    with (Z.of_nat (String.length b)) by lia.
  now rewrite !Nat2Z.id, drop_append, take_append.
Qed.

(** The block of [quoted_content] on a line whose first marker opens a quote
    that is closed: the content is what lies between the two quotes. *)
Lemma quoted_content_closed (flag q before content after : string) :
  String.length flag = 3%nat ->
  String.length q = 1%nat ->
  contains (flag +:+ q) (before +:+ flag) = false ->
  contains q content = false ->
  quoted_content (before +:+ (flag +:+ q) +:+ content +:+ q +:+ after)
    (flag +:+ q) q
  = content.
Proof.
  intros Hflag Hq Hfirst Hin. unfold quoted_content.
  rewrite (find_at_first _ _ _
             (find_first_here flag q before (content +:+ q +:+ after)
                Hq Hfirst)).
  replace (Z.of_nat (String.length before) + 4)
    with (Z.of_nat (String.length (before +:+ flag +:+ q)))
    by (rewrite !length_append, Hflag, Hq; lia).
  replace (before +:+ (flag +:+ q) +:+ content +:+ q +:+ after)
    with ((before +:+ flag +:+ q) +:+ content +:+ q +:+ after)
    by now rewrite !append_assoc.
  rewrite (find_present_after _ _ _ _
             (find_first_char_here q content after Hq Hin)).
  destruct (Z.eqb_spec
              (Z.of_nat (String.length (before +:+ flag +:+ q))
               + Z.of_nat (String.length content)) (-1)) as [Heq|_]; [lia|].
  apply slice_middle.
Qed.

(** A closed quote gives its content and nothing else. Take a fragment
    which, stripped, reads [before], a marker, [content], the closing quote,
    [after], the marker being the one [scan_line] reaches and [content]
    having no such quote. Then what follows the closing quote is ignored: a
    cookie marker stores [content] as it is under ["cookie"]; a header marker
    cuts [content] at its first [':'] and stores the value, stripped, under
    the name, stripped and lower-cased, whatever other [':'] the value has;
    without a [':'] nothing is stored. *)
Theorem closed_quote_takes_content (m : marker) (headers : gmap string string)
    (fragment before content after : string) :
  strip fragment
  = before +:+ marker_text m +:+ content +:+ quote_of m +:+ after ->
  selects m (strip fragment) before = true ->
  contains (quote_of m) content = false ->
  match m with
  | HeaderSingle | HeaderDouble =>
      (contains ":" content = false -> scan_line headers fragment = inr headers)
      /\ (forall name value,
            content = name +:+ ":" +:+ value ->
            contains ":" name = false ->
            scan_line headers fragment
            = inr (<[lower (strip name) := strip value]> headers))
  | CookieSingle | CookieDouble =>
      scan_line headers fragment = inr (<["cookie" := content]> headers)
  end.
Proof.
  intros Hline Hsel Hin. unfold selects in Hsel.
  apply andb_true_iff in Hsel as [Hearlier Hfirst].
  apply negb_true_iff in Hfirst.
  assert (contains (marker_text m) (strip fragment) = true) as Hmarker
    by (rewrite Hline; apply contains_append).
  assert (quoted_content (strip fragment) (marker_text m) (quote_of m)
          = content) as Hcontent.
  { rewrite Hline. unfold marker_text in *.
    apply quoted_content_closed; try assumption; now destruct m. }
  unfold scan_line.
  destruct m; cbn [tried_before forallb] in Hearlier;
    repeat (apply andb_true_iff in Hearlier as [?%negb_true_iff Hearlier]);
    change (marker_text HeaderSingle) with H_squote in *;
    change (marker_text HeaderDouble) with H_dquote in *;
    change (marker_text CookieSingle) with b_squote in *;
    change (marker_text CookieDouble) with b_dquote in *;
    change (quote_of HeaderSingle) with "'" in *;
    change (quote_of CookieSingle) with "'" in *;
    change (quote_of HeaderDouble) with (chr dquote) in *;
    change (quote_of CookieDouble) with (chr dquote) in *;
    repeat match goal with
           | H : contains _ (strip fragment) = _ |- _ => rewrite H
           end;
    cbn [orb rbind]; rewrite Hcontent.
  1, 2: split;
    [ intros ->; reflexivity
    | intros name value -> Hname;
      pose proof (split1_cut ":" name value Hname) as Hcut;
      unfold chr in Hcut; rewrite contains_append, Hcut;
      reflexivity ].
  all: reflexivity.
Qed.


End ClosedQuotes.

(** ** A capture as the browser writes it *)

Section BrowserCapture.
Import PyStr.

Lemma lstrip_blank (pad s : string) :
  blank pad = true -> lstrip (pad +:+ s) = lstrip s.
Proof.
  induction pad as [|c pad IH]; intros H; [reflexivity|].
  cbn [blank] in H. apply andb_true_iff in H as [Hc Hpad].
  rewrite append_cons. cbn [lstrip]. rewrite Hc. now apply IH.
Qed.

Lemma rstrip_all_blank (pad : string) : blank pad = true -> rstrip pad = EmptyString.
Proof.
  induction pad as [|c pad IH]; intros H; [reflexivity|].
  cbn [blank] in H. apply andb_true_iff in H as [Hc Hpad].
  cbn [rstrip]. now rewrite (IH Hpad), Hc.
Qed.

Lemma rstrip_blank (s pad : string) :
  blank pad = true -> rstrip (s +:+ pad) = rstrip s.
Proof.
  intros H. induction s as [|c s IH].
  - rewrite append_nil. now apply rstrip_all_blank.
  - rewrite append_cons. cbn [rstrip]. now rewrite IH.
Qed.

Lemma rstrip_quote (s : string) : rstrip (s +:+ "'") = s +:+ "'".
Proof.
  induction s as [|c s IH]; [reflexivity|].
  rewrite append_cons. cbn [rstrip]. rewrite IH.
  destruct s; reflexivity.
Qed.

(** Stripping an item that begins with a character that is no blank and
    ends with a quote, with blanks around it, gives the item. *)
Lemma strip_padded (pad1 pad2 : string) (c : ascii) (s : string) :
  blank pad1 = true -> blank pad2 = true -> isspace c = false ->
  strip (pad1 +:+ String c (s +:+ "'") +:+ pad2) = String c (s +:+ "'").
Proof.
  intros H1 H2 Hc. unfold strip.
  rewrite (lstrip_blank _ _ H1), append_cons. cbn [lstrip]. rewrite Hc.
  rewrite <- append_cons, (rstrip_blank _ _ H2), <- append_cons.
  apply rstrip_quote.
Qed.

Lemma plain_parts (s : string) :
  plain s = true -> contains "'" s = false /\ contains "\" s = false.
Proof.
  unfold plain. intros H. apply andb_true_iff in H as [H1 H2].
  now apply negb_true_iff in H1, H2.
Qed.

(** A header flag between blanks stores its header. *)
Lemma scan_header_flag (headers : gmap string string)
    (pad1 pad2 name value : string) :
  blank pad1 = true -> blank pad2 = true ->
  header_ok (name, value) = true ->
  scan_line headers (pad1 +:+ header_flag name value +:+ pad2)
  = inr (<[lower (strip name) := strip value]> headers).
Proof.
  intros H1 H2 Hok. unfold header_ok in Hok. cbn [fst snd] in Hok.
  apply andb_true_iff in Hok as [Hok Hcolon].
  apply andb_true_iff in Hok as [Hname Hvalue].
  apply negb_true_iff in Hcolon.
  apply plain_parts in Hname as [Hname _].
  apply plain_parts in Hvalue as [Hvalue _].
  assert (header_flag name value
          = String "-" (("H '" +:+ name +:+ ": " +:+ value) +:+ "'")) as Hshape.
  { unfold header_flag, H_squote. rewrite !append_cons, append_nil.
    now rewrite !append_assoc. }
  assert (strip (pad1 +:+ header_flag name value +:+ pad2)
          = header_flag name value) as Hstrip.
  { rewrite Hshape. now apply strip_padded. }
  assert (header_flag name value
          = EmptyString +:+ ("-H " +:+ "'") +:+ (name +:+ ": " +:+ value)
            +:+ "'" +:+ EmptyString) as Hparts.
  { unfold header_flag, H_squote. rewrite append_nil, append_nil_r.
    now rewrite !append_assoc. }
  assert (contains "'" (name +:+ ": " +:+ value) = false) as Hquote.
  { change "'" with (chr "'"). rewrite !contains_char_append.
    change (chr "'") with "'". now rewrite Hname, Hvalue. }
  unfold scan_line. rewrite Hstrip.
  assert (contains H_squote (header_flag name value) = true) as ->.
  { rewrite Hparts. apply contains_append. }
  cbn [orb rbind].
  assert (quoted_content (header_flag name value) H_squote "'"
          = name +:+ ": " +:+ value) as ->.
  { rewrite Hparts.
    apply (quoted_content_closed "-H " "'" EmptyString
             (name +:+ ": " +:+ value) EmptyString); try reflexivity.
    exact Hquote. }
  change (name +:+ ": " +:+ value) with (name +:+ ":" +:+ String " " value).
  rewrite contains_append.
  pose proof (split1_cut ":" name (String " " value) Hcolon) as Hcut.
  unfold chr in Hcut. rewrite Hcut.
  reflexivity.
Qed.

(** The cookie flag between blanks stores the cookie. *)
Lemma scan_cookie_flag (headers : gmap string string)
    (pad1 pad2 cookie : string) :
  blank pad1 = true -> blank pad2 = true ->
  cookie_ok cookie = true ->
  scan_line headers (pad1 +:+ cookie_flag cookie +:+ pad2)
  = inr (<["cookie" := cookie]> headers).
Proof.
  intros H1 H2 Hok. unfold cookie_ok in Hok.
  apply andb_true_iff in Hok as [Hok Hd].
  apply andb_true_iff in Hok as [Hplain Hs].
  apply negb_true_iff in Hs, Hd.
  apply plain_parts in Hplain as [Hquote _].
  assert (cookie_flag cookie = String "-" (("b '" +:+ cookie) +:+ "'"))
    as Hshape.
  { unfold cookie_flag, b_squote. rewrite !append_cons, append_nil.
    now rewrite !append_assoc. }
  assert (strip (pad1 +:+ cookie_flag cookie +:+ pad2) = cookie_flag cookie)
    as Hstrip.
  { rewrite Hshape. now apply strip_padded. }
  assert (cookie_flag cookie
          = EmptyString +:+ ("-b " +:+ "'") +:+ cookie
            +:+ "'" +:+ EmptyString) as Hparts.
  { unfold cookie_flag, b_squote. now rewrite append_nil, append_nil_r. }
  unfold scan_line. rewrite Hstrip, Hs, Hd.
  assert (contains b_squote (cookie_flag cookie) = true) as ->.
  { rewrite Hparts. apply contains_append. }
  cbn [orb rbind].
  assert (quoted_content (cookie_flag cookie) b_squote "'" = cookie) as ->.
  { rewrite Hparts.
    apply (quoted_content_closed "-b " "'" EmptyString cookie EmptyString);
      try reflexivity.
    exact Hquote. }
  reflexivity.
Qed.

(** The command line with its address stores nothing. *)
Lemma scan_curl_command (headers : gmap string string) (pad2 url : string) :
  blank pad2 = true ->
  url_ok url = true ->
  scan_line headers (curl_command url +:+ pad2) = inr headers.
Proof.
  intros H2 Hok. unfold url_ok in Hok.
  apply andb_true_iff in Hok as [_ Hok]. cbn [forallb] in Hok.
  apply andb_true_iff in Hok as [M1 Hok].
  apply andb_true_iff in Hok as [M2 Hok].
  apply andb_true_iff in Hok as [M3 Hok].
  apply andb_true_iff in Hok as [M4 _].
  apply negb_true_iff in M1, M2, M3, M4.
  assert (strip (curl_command url +:+ pad2) = curl_command url) as Hstrip.
  { assert (curl_command url = String "c" (("url '" +:+ url) +:+ "'")) as ->.
    { unfold curl_command. rewrite !append_cons, append_nil.
      now rewrite !append_assoc. }
    rewrite <- (append_nil (String "c" _ +:+ pad2)).
    now apply strip_padded. }
  unfold scan_line. rewrite Hstrip, M1, M2, M3, M4. reflexivity.
Qed.

Lemma split_first (c : ascii) (a rest : string) :
  contains (chr c) a = false ->
  split c (a +:+ chr c +:+ rest) = a :: split c rest.
Proof.
  induction a as [|x a IH]; intros H.
  - rewrite append_nil. unfold chr. rewrite append_cons, append_nil.
    cbn [split]. now rewrite Ascii.eqb_refl.
  - rewrite contains_char_cons in H. apply orb_false_iff in H as [Hx Ha].
    rewrite append_cons. cbn [split].
    rewrite Ascii.eqb_sym, Hx, (IH Ha). reflexivity.
Qed.

Lemma split_plain (c : ascii) (a : string) :
  contains (chr c) a = false -> split c a = [a].
Proof.
  induction a as [|x a IH]; intros H; [reflexivity|].
  rewrite contains_char_cons in H. apply orb_false_iff in H as [Hx Ha].
  cbn [split]. rewrite Ascii.eqb_sym, Hx, (IH Ha). reflexivity.
Qed.

(** Cutting at the backslashes gives the lines back. *)
Lemma split_continued (first : string) (flags : list string) :
  contains "\" first = false ->
  forallb (fun f => negb (contains "\" f)) flags = true ->
  split "\"%char (first +:+ continued flags) = pieces first flags.
Proof.
  revert first; induction flags as [|flag rest IH]; intros first Hfirst Hflags.
  - cbn [continued pieces]. rewrite append_nil_r. now apply split_plain.
  - cbn [forallb] in Hflags. apply andb_true_iff in Hflags as [Hflag Hrest].
    apply negb_true_iff in Hflag.
    cbn [continued pieces].
    replace (first +:+ " \" +:+ chr LF +:+ "  " +:+ flag +:+ continued rest)
      with ((first +:+ " ") +:+ chr "\"
            +:+ (chr LF +:+ "  " +:+ flag) +:+ continued rest)
      by (rewrite !append_assoc; reflexivity).
    rewrite split_first.
    + rewrite IH; [reflexivity | | exact Hrest].
      change "\" with (chr "\"). rewrite !contains_char_append.
      change (chr "\") with "\". now rewrite Hflag.
    + rewrite contains_char_append. change (chr "\") with "\".
      now rewrite Hfirst.
Qed.

(** Scanning the lines of a capture stores the headers in turn, then the
    cookie. *)
Lemma scan_pieces (hs : list (string * string)) (cookie first : string)
    (h h0 : gmap string string) :
  (forall pad2, blank pad2 = true -> scan_line h (first +:+ pad2) = inr h0) ->
  forallb header_ok hs = true ->
  cookie_ok cookie = true ->
  scan_lines
    (pieces first (map (fun nv => header_flag nv.1 nv.2) hs ++ [cookie_flag cookie]))
    h
  = inr (<["cookie" := cookie]> (headers_of hs h0)).
Proof.
  revert first h h0; induction hs as [|[name value] hs IH];
    intros first h h0 Hfirst Hhs Hcookie.
  - cbn [map app pieces scan_lines headers_of fold_left].
    rewrite (Hfirst " " eq_refl). cbn [rbind].
    replace (chr LF +:+ "  " +:+ cookie_flag cookie)
      with ((chr LF +:+ "  ") +:+ cookie_flag cookie +:+ EmptyString)
      by now rewrite append_nil_r, append_assoc.
    rewrite (scan_cookie_flag h0 (chr LF +:+ "  ") EmptyString cookie);
      try reflexivity; assumption.
  - cbn [forallb] in Hhs. apply andb_true_iff in Hhs as [Hnv Hhs].
    cbn [map app pieces scan_lines fst snd].
    rewrite (Hfirst " " eq_refl). cbn [rbind].
    unfold headers_of. cbn [fold_left fst snd].
    apply (IH _ h0 (<[lower (strip name) := strip value]> h0));
      try assumption.
    intros pad2 Hpad2.
    replace ((chr LF +:+ "  " +:+ header_flag name value) +:+ pad2)
      with ((chr LF +:+ "  ") +:+ header_flag name value +:+ pad2)
      by now rewrite !append_assoc.
    now apply scan_header_flag.
Qed.

Lemma header_flag_no_backslash (nv : string * string) :
  header_ok nv = true -> contains "\" (header_flag nv.1 nv.2) = false.
Proof.
  unfold header_ok. intros H. apply andb_true_iff in H as [H _].
  apply andb_true_iff in H as [Hn Hv].
  apply plain_parts in Hn as [_ Hn]. apply plain_parts in Hv as [_ Hv].
  unfold header_flag. change "\" with (chr "\").
  rewrite !contains_char_append. change (chr "\") with "\".
  now rewrite Hn, Hv.
Qed.

Lemma cookie_flag_no_backslash (cookie : string) :
  cookie_ok cookie = true -> contains "\" (cookie_flag cookie) = false.
Proof.
  unfold cookie_ok. intros H. apply andb_true_iff in H as [H _].
  apply andb_true_iff in H as [H _]. apply plain_parts in H as [_ H].
  unfold cookie_flag. change "\" with (chr "\").
  rewrite !contains_char_append. change (chr "\") with "\".
  now rewrite H.
Qed.

Context {P : Platform}.

(** The parser reads back what the browser wrote. For a capture made of
    the command with its address, one header flag on each line and the cookie
    flag on the last, the lines continued by backslashes, the scan stores
    each value, stripped, under its name, stripped and lower-cased, a later
    header replacing an earlier one of the same name, and the cookie under
    ["cookie"]; when one of the headers is the authorization,
    [extract_headers_from_curl] returns that map with the defaults filled
    in. *)
Theorem browser_capture_is_read_back (w : world P) filename url hs cookie :
  url_ok url = true ->
  forallb header_ok hs = true ->
  cookie_ok cookie = true ->
  read_text filename w = (inr (capture_of url hs cookie), w) ->
  scan_capture (capture_of url hs cookie)
  = inr (<["cookie" := cookie]> (headers_of hs ∅))
  /\ (is_Some (headers_of hs ∅ !! "authorization") ->
      (extract_headers_from_curl filename w).1
      = inr (Some (add_defaults (<["cookie" := cookie]> (headers_of hs ∅))))).
Proof.
  intros Hurl Hhs Hcookie Hread.
  assert (scan_capture (capture_of url hs cookie)
          = inr (<["cookie" := cookie]> (headers_of hs ∅))) as Hscan.
  { unfold scan_capture, capture_of. rewrite split_continued.
    - apply scan_pieces; try assumption.
      intros pad2 Hpad2. now apply scan_curl_command.
    - unfold url_ok in Hurl. apply andb_true_iff in Hurl as [Hurl _].
      apply negb_true_iff in Hurl. unfold curl_command.
      change "\" with (chr "\"). rewrite !contains_char_append.
      change (chr "\") with "\". now rewrite Hurl.
    - rewrite forallb_app. cbn [forallb].
      rewrite (cookie_flag_no_backslash _ Hcookie). cbn [negb andb].
      rewrite andb_true_r, forallb_forall. intros f Hf.
      apply in_map_iff in Hf as (nv & <- & Hnv).
      rewrite forallb_forall in Hhs.
      now rewrite (header_flag_no_backslash nv (Hhs nv Hnv)). }
  split; [exact Hscan|].
  intros Hauth. rewrite extract_headers_unfold, Hread. cbn [fst].
  rewrite Hscan.
  assert (missing_headers (<["cookie" := cookie]> (headers_of hs ∅)) = [])
    as ->; [|reflexivity].
  apply missing_headers_nil. split.
  - rewrite lookup_insert_ne by discriminate. exact Hauth.
  - rewrite lookup_insert_eq. eauto.
Qed.

End BrowserCapture.

(** * Worked examples *)

(** The parser theorems at the sample captures. *)

Lemma missing_critical_header_fails_witness :
  missing_headers (scanned capture_without_cookie) <> []
  /\ extract_headers_from_curl "paste.txt" (paste_world capture_without_cookie true)
     = (inr None,
        say [MsgHeadersFound (dom (scanned capture_without_cookie));
             MsgMissingCritical (missing_headers (scanned capture_without_cookie));
             MsgCompleteCurlHint] (paste_world capture_without_cookie true)).
Proof.
  apply (missing_critical_header_fails
           (paste_world capture_without_cookie true) "paste.txt"
           capture_without_cookie (scanned capture_without_cookie)).
  - reflexivity.
  - reflexivity.
  - right. reflexivity.
Defined.


(** The amended C8 at a header fragment cut short before its closing quote,
    and at a cookie fragment likewise. *)
Lemma unterminated_quote_takes_remainder_witness :
  scan_line ∅ "  -H 'Authorization: Bearer t0k  "
  = inr (<["authorization" := "Bearer t0k"]> ∅)
  /\ scan_line ∅ (" -b " +:+ PyStr.chr PyStr.dquote +:+ "SID=xyz; HSID=q")
     = inr (<["cookie" := "SID=xyz; HSID=q"]> ∅).
Proof.
  split.
  - apply (proj2 (unterminated_quote_takes_remainder HeaderSingle ∅
                    "  -H 'Authorization: Bearer t0k  " ""
                    "Authorization: Bearer t0k"
                    eq_refl eq_refl eq_refl)
             "Authorization" " Bearer t0k");
      reflexivity.
  - apply (unterminated_quote_takes_remainder CookieDouble ∅
             (" -b " +:+ PyStr.chr PyStr.dquote +:+ "SID=xyz; HSID=q") ""
             "SID=xyz; HSID=q");
      reflexivity.
Defined.

(** C8 as stated fails: the first fragment below has a cookie marker whose
    quote is never closed, yet no cookie is stored, because the fragment also
    has a header marker and [scan_line] looks no further. And what is taken
    is the remainder of the stripped fragment: in the second fragment the
    blanks that end it are not part of the cookie. *)
Lemma unterminated_cookie_after_header_ignored :
  PyStr.strip "-H 'a: b' -b 'c"
  = "-H 'a: b' " +:+ marker_text CookieSingle +:+ "c"
  /\ PyStr.contains (quote_of CookieSingle) "c" = false
  /\ scan_line ∅ "-H 'a: b' -b 'c" = inr (<["a" := "b"]> ∅)
  /\ scan_line ∅ "-H 'a: b' -b 'c" <> inr (<["cookie" := "c"]> ∅)
  /\ scan_line ∅ "-b 'c  " = inr (<["cookie" := "c"]> ∅).
Proof.
  split; [reflexivity|]. split; [reflexivity|]. split; [reflexivity|].
  split; [|reflexivity].
  intros H.
  assert ((<["cookie" := "c"]> ∅ : gmap string string) !! "cookie"
          = (<["a" := "b"]> ∅ : gmap string string) !! "cookie") as Hc.
  { assert (@inr exn _ (<["a" := "b"]> (∅ : gmap string string))
            = inr (<["cookie" := "c"]> ∅)) as E by (rewrite <- H; reflexivity).
    congruence. }
  rewrite lookup_insert_eq, lookup_insert_ne, lookup_empty in Hc;
    discriminate.
Defined.

(** C3 at the scenario of the specification. *)
Lemma setlist_reader_returns_song_lines_witness :
  (read_setlist_from_file "setlist.txt" scenario_world).1
  = inr ["Oasis - Wonderwall"; "Billy Idol - White Wedding"]
  /\ (read_setlist_from_file "setlist.txt" scenario_world).1
     = inr (map PyStr.strip
              (List.filter is_song_line
                 ["Oasis - Wonderwall"; ""; "# comment";
                  "Billy Idol - White Wedding"]))
  /\ length (song_queries
               (PyStr.lines_of
                  (text_of_lines ["Oasis - Wonderwall"; ""; "# comment";
                                  "Billy Idol - White Wedding"]))) = 2%nat.
Proof.
  destruct (setlist_reader_returns_song_lines scenario_world "setlist.txt")
    as (Hall & Hlines & Hscenario).
  split; [|split].
  - apply Hscenario. reflexivity.
  - apply Hlines; reflexivity.
  - destruct (Hall (PyStr.lines_of
                      (text_of_lines ["Oasis - Wonderwall"; ""; "# comment";
                                      "Billy Idol - White Wedding"])) eq_refl)
      as (_ & _ & ->).
    reflexivity.
Defined.


(** C7 on the jukebox when the service is off line. *)
Lemma playlist_creation_failure_is_fatal_witness :
  create_playlist_from_setlist ["a"; "b"] "Gig" "" (paste_world sample_capture false)
  = (inr None,
     @World jukebox (fs (setup_ytmusic (paste_world sample_capture false)).2)
           (console (setup_ytmusic (paste_world sample_capture false)).2
            ++ [MsgCreatingPlaylist "Gig";
                MsgErrorCreating (LibraryError "server error")])
           ([] ++ [CallCreatePlaylist "Gig" ""])
           false).
Proof.
  apply (playlist_creation_failure_is_fatal (P := jukebox) ["a"; "b"] "Gig" ""
           (paste_world sample_capture false) tt
           (setup_ytmusic (paste_world sample_capture false)).2
           (LibraryError "server error") false);
    reflexivity.
Defined.

(** The amended C6 on the jukebox: one song found, one not. *)
Lemma returns_identifier_prints_summary_witness :
  (create_playlist_from_setlist ["a"; "nothing"] "Gig" ""
     (paste_world sample_capture true)).1
  = inr (Some (PStr "PL-Gig"))
  /\ summary "Gig" 2 (1%nat, ["nothing"])
     = [MsgPlaylistDone "Gig"; MsgSongsAdded 1 2; MsgSongsNotFound;
        MsgFailedSong "nothing"].
Proof.
  split; [|reflexivity].
  rewrite (returns_identifier_prints_summary (P := jukebox)
             ["a"; "nothing"] "Gig" ""
             (paste_world sample_capture true) tt
             (setup_ytmusic (paste_world sample_capture true)).2
             (PStr "PL-Gig") true (1%nat, ["nothing"])
             (for_songs (P := jukebox) tt (PStr "PL-Gig") 2 1 ["a"; "nothing"]
                (O, [])
                (created (setup_ytmusic (paste_world sample_capture true)).2
                   "Gig" "" (PStr "PL-Gig") true)).2
             eq_refl eq_refl eq_refl).
  reflexivity.
Defined.

(** C6 as stated fails: two runs return the same value and leave different
    counters, so the counters are not part of what is returned. *)
Lemma counters_not_returned : ~ counters_returned jukebox.
Proof.
  intros [read Hread].
  pose (w := paste_world sample_capture true).
  pose (w1 := (setup_ytmusic w).2).
  pose proof (Hread ["a"] "Gig" "" w w1
                (for_songs (P := jukebox) tt (PStr "PL-Gig") 1 1 ["a"] (O, [])
                   (created w1 "Gig" "" (PStr "PL-Gig") true)).2
                tt (PStr "PL-Gig") true (1%nat, [])
                eq_refl eq_refl eq_refl) as Hfound.
  pose proof (Hread ["nothing"] "Gig" "" w w1
                (for_songs (P := jukebox) tt (PStr "PL-Gig") 1 1 ["nothing"]
                   (O, []) (created w1 "Gig" "" (PStr "PL-Gig") true)).2
                tt (PStr "PL-Gig") true (O, ["nothing"])
                eq_refl eq_refl eq_refl) as Hmissed.
  change (create_playlist_from_setlist ["a"] "Gig" "" w).1
    with (@inr exn _ (Some (PStr "PL-Gig"))) in Hfound.
  change (create_playlist_from_setlist ["nothing"] "Gig" "" w).1
    with (@inr exn _ (Some (PStr "PL-Gig"))) in Hmissed.
  rewrite Hfound in Hmissed. discriminate.
Defined.

(** C9 as stated fails: on a disk that cannot be written to, the parse of
    [paste.txt] succeeds and yet the artifact is not written: it holds what
    the earlier run left, and no client is returned. *)
Lemma parsed_but_not_written : ~ written_whenever_parsed read_only_jukebox.
Proof.
  intros Hwritten.
  pose proof (Hwritten read_only_world (add_defaults (scanned sample_capture))
                ltac:(eexists; reflexivity) eq_refl) as Hfile.
  assert (fs (setup_ytmusic read_only_world).2 !! "headers_auth.json"
          = Some (Text "{old}")) as Hold by reflexivity.
  rewrite Hold in Hfile. discriminate Hfile.
Defined.

(** The amended C10 at a capture whose header name is Greek capitals, two
    of them sigmas, and a capital I with a dot above: the key is all small,
    the first sigma a final one, the I two code points. *)
Lemma header_keys_are_their_own_lower_case_witness :
  Unicode.lower [959; 948; 959; 962; 45; 963; 105; 775]%N
  = [959; 948; 959; 962; 45; 963; 105; 775]%N
  /\ (forall c, c ∈ [959; 948; 959; 962; 45; 963; 105; 775]%N ->
                Unicode.has_lower_case c = false)
  /\ (forall c, c ∈ [959; 948; 959; 962; 45; 963; 105; 775]%N ->
                (c < 256)%N -> Unicode.isupper c = false).
Proof.
  apply (header_keys_are_their_own_lower_case
           Unicode.mixed_case_capture
           (Unicode.returned Unicode.mixed_case_capture)).
  - reflexivity.
  - exists (Unicode.latin "1"). reflexivity.
Defined.

(** C10 as stated fails: the capture below has a header named by the
    double-struck capital C, an upper-case letter that [str.lower()] leaves
    as it is; the parse succeeds and the returned map has that letter as a
    key. *)
Lemma upper_case_key_is_kept : ~ Unicode.keys_without_upper_case.
Proof.
  intros Hnone.
  assert (Unicode.has_upper [8450%N] = false) as Hupper.
  { apply (Hnone Unicode.double_struck_capture
             (Unicode.returned Unicode.double_struck_capture)).
    - reflexivity.
    - exists (Unicode.latin "1"). reflexivity. }
  discriminate Hupper.
Defined.

(** * Further worked examples *)

(** The parser on a missing capture. *)
Lemma extract_headers_only_prints_witness :
  extract_headers_from_curl "paste.txt" (jukebox_world ∅ true)
  = (inr None,
     say [MsgErrorProcessingPaste (FileNotFoundError "paste.txt");
          MsgValidCurlHint] (jukebox_world ∅ true)).
Proof.
  apply (proj1 (proj2 (extract_headers_only_prints (P := jukebox)
                         "paste.txt" (jukebox_world ∅ true)))).
  reflexivity.
Defined.

Lemma returned_map_has_critical_headers_witness :
  is_Some (add_defaults (scanned sample_capture) !! "authorization")
  /\ is_Some (add_defaults (scanned sample_capture) !! "cookie").
Proof.
  apply (returned_map_has_critical_headers (P := jukebox) "paste.txt"
           (paste_world sample_capture true)
           (extract_headers_from_curl "paste.txt"
              (paste_world sample_capture true)).2
           (add_defaults (scanned sample_capture))).
  reflexivity.
Defined.

(** The reader on a setlist that cannot be read. *)
Lemma read_setlist_only_prints_witness :
  read_setlist_from_file "setlist.txt"
    (jukebox_world {[ "setlist.txt" := Unreadable ]} true)
  = (inr [],
     say [MsgErrorReadingFile (OSError "setlist.txt")]
       (jukebox_world {[ "setlist.txt" := Unreadable ]} true)).
Proof.
  apply (proj2 (proj2 (read_setlist_only_prints (P := jukebox)
                         "setlist.txt"
                         (jukebox_world {[ "setlist.txt" := Unreadable ]} true)))).
  reflexivity.
Defined.

Lemma setlist_queries_are_clean_witness :
  "Billy Idol - White Wedding" <> ""
  /\ PyStr.startswith "Billy Idol - White Wedding" "#" = false
  /\ PyStr.strip "Billy Idol - White Wedding" = "Billy Idol - White Wedding"
  /\ one_line "Billy Idol - White Wedding" = true.
Proof.
  apply (setlist_queries_are_clean (P := jukebox) "setlist.txt" scenario_world
           (read_setlist_from_file "setlist.txt" scenario_world).2
           ["Oasis - Wonderwall"; "Billy Idol - White Wedding"]
           "Billy Idol - White Wedding").
  - reflexivity.
  - apply (bool_decide_unpack _). reflexivity.
Defined.

Lemma line_endings_do_not_matter_witness :
  (read_setlist_from_file "setlist.txt" windows_world).1
  = inr ["Oasis - Wonderwall"; "Billy Idol - White Wedding"].
Proof.
  apply (line_endings_do_not_matter (P := jukebox) windows_world "setlist.txt"
           (String PyStr.CR (PyStr.chr PyStr.LF))
           ["Oasis - Wonderwall"; ""; "# comment"]
           "Billy Idol - White Wedding");
    reflexivity.
Defined.

(** The loop at the record shop: the first of two results is added, and the
    status the service answers is not looked at. *)
Lemma first_result_is_added_witness :
  song_step (P := record_shop) tt (PStr "PL-Gig") 1 1 "Wonderwall" (O, [])
    record_shop_world
  = (inr (1%nat, []),
     @World record_shop ∅
       ([] ++ [MsgSearching 1 1 "Wonderwall";
               MsgAdded (PStr "Oasis") (PStr "Wonderwall")])
       ([] ++ [CallSearch "Wonderwall";
               CallAddPlaylistItems (PStr "PL-Gig") [PStr "v-1"]])
       2%nat).
Proof.
  apply (first_result_is_added (P := record_shop) tt (PStr "PL-Gig") 1 1
           "Wonderwall" (O, []) record_shop_world
           (PDict [("videoId", PStr "v-1"); ("title", PStr "Wonderwall");
                   ("artists", PList [PDict [("name", PStr "Oasis")]])])
           [PDict [("videoId", PStr "v-2"); ("title", PStr "Live")]]
           1%nat (PStr "v-1") (PStr "Wonderwall") (PStr "Oasis")
           (PStr "STATUS_FAILED") 2%nat);
    reflexivity.
Defined.

Lemma result_with_video_id_only_is_added_witness :
  song_step (P := record_shop) tt (PStr "PL-Gig") 1 1 "bare" (O, [])
    record_shop_world
  = (inr (1%nat, []),
     @World record_shop ∅
       ([] ++ [MsgSearching 1 1 "bare";
               MsgAdded (PStr "Unknown") (PStr "Unknown")])
       ([] ++ [CallSearch "bare";
               CallAddPlaylistItems (PStr "PL-Gig") [PStr "v-bare"]])
       2%nat).
Proof.
  apply (result_with_video_id_only_is_added (P := record_shop) tt
           (PStr "PL-Gig") 1 1 "bare" (O, []) record_shop_world
           [("videoId", PStr "v-bare")] [] 1%nat (PStr "v-bare")
           (PStr "STATUS_FAILED") 2%nat);
    reflexivity.
Defined.

Lemma unreadable_first_result_is_not_added_witness :
  (exists e,
      (e = KeyError (PStr "videoId") \/ e = IndexError)
      /\ song_step (P := record_shop) tt (PStr "PL-Gig") 1 1 "broken" (O, [])
           record_shop_world
         = (inr (O, [] ++ ["broken"]),
            @World record_shop ∅
              ([] ++ [MsgSearching 1 1 "broken"; MsgErrorWith "broken" e])
              ([] ++ [CallSearch "broken"])
              1%nat))
  /\ (exists e,
        (e = KeyError (PStr "videoId") \/ e = IndexError)
        /\ song_step (P := record_shop) tt (PStr "PL-Gig") 1 1 "anonymous"
             (O, []) record_shop_world
           = (inr (O, [] ++ ["anonymous"]),
              @World record_shop ∅
                ([] ++ [MsgSearching 1 1 "anonymous";
                        MsgErrorWith "anonymous" e])
                ([] ++ [CallSearch "anonymous"])
                1%nat)).
Proof.
  split.
  - apply (unreadable_first_result_is_not_added (P := record_shop) tt
             (PStr "PL-Gig") 1 1 "broken" (O, []) record_shop_world
             [("title", PStr "Broken")] [] 1%nat).
    + reflexivity.
    + left. reflexivity.
  - apply (unreadable_first_result_is_not_added (P := record_shop) tt
             (PStr "PL-Gig") 1 1 "anonymous" (O, []) record_shop_world
             [("videoId", PStr "v-anon"); ("title", PStr "Anonymous");
              ("artists", PList [])]
             [PDict [("videoId", PStr "v-other")]] 1%nat).
    + reflexivity.
    + right. reflexivity.
Defined.

(** The builder with no capture on disk. *)
Lemma no_session_no_playlist_witness :
  create_playlist_from_setlist ["a"; "b"] "Gig" "" (jukebox_world ∅ true)
  = (inr None, (setup_ytmusic (jukebox_world ∅ true)).2)
  /\ calls (setup_ytmusic (jukebox_world ∅ true)).2 = [].
Proof.
  apply (no_session_no_playlist (P := jukebox) ["a"; "b"] "Gig" ""
           (jukebox_world ∅ true) (setup_ytmusic (jukebox_world ∅ true)).2).
  reflexivity.
Defined.

Lemma empty_setlist_creates_empty_playlist_witness :
  create_playlist_from_setlist [] "Gig" "" (paste_world sample_capture true)
  = (inr (Some (PStr "PL-Gig")),
     @World jukebox
       (fs (setup_ytmusic (paste_world sample_capture true)).2)
       (console (setup_ytmusic (paste_world sample_capture true)).2
        ++ [MsgCreatingPlaylist "Gig"; MsgPlaylistCreated (PStr "PL-Gig");
            MsgPlaylistDone "Gig"; MsgSongsAdded 0 0])
       ([] ++ [CallCreatePlaylist "Gig" ""])
       true).
Proof.
  apply (empty_setlist_creates_empty_playlist (P := jukebox) "Gig" ""
           (paste_world sample_capture true) tt
           (setup_ytmusic (paste_world sample_capture true)).2
           (PStr "PL-Gig") true);
    reflexivity.
Defined.

Lemma builder_writes_only_the_artifact_witness :
  fs (create_playlist_from_setlist ["Oasis - Wonderwall"; "nothing"] "Gig" ""
        stage_world).2 !! "setlist.txt"
  = fs stage_world !! "setlist.txt".
Proof.
  apply (builder_writes_only_the_artifact (P := jukebox)
           ["Oasis - Wonderwall"; "nothing"] "Gig" "" stage_world
           "setlist.txt").
  discriminate.
Defined.

(** [main] on the stage, the user typing a name and a yes. *)
Lemma main_needs_confirmation_witness :
  exists answer1 answer2 rest,
    ["Gig"; " Yes "; "left over"] = answer1 :: answer2 :: rest
    /\ (PyStr.lower (PyStr.strip answer2) = "y"
        \/ PyStr.lower (PyStr.strip answer2) = "yes").
Proof.
  apply (main_needs_confirmation (P := jukebox)
           (Terminal ["Gig"; " Yes "; "left over"] []) stage_world).
  left. intros H. apply (f_equal (@length call)) in H.
  vm_compute in H. discriminate H.
Defined.

Lemma main_without_songs_asks_nothing_witness :
  main (Terminal ["Gig"; "y"] []) (jukebox_world ∅ true)
  = (inr tt, Terminal ["Gig"; "y"] [],
     (read_setlist_from_file "setlist.txt" (jukebox_world ∅ true)).2)
  /\ exists ms,
       (read_setlist_from_file "setlist.txt" (jukebox_world ∅ true)).2
       = say ms (jukebox_world ∅ true).
Proof.
  apply (main_without_songs_asks_nothing (P := jukebox)
           (Terminal ["Gig"; "y"] []) (jukebox_world ∅ true)).
  reflexivity.
Defined.

Lemma main_confirmed_runs_builder_witness :
  main (Terminal ["  "; " Yes "; "left over"] []) stage_world
  = (inr tt,
     Terminal ["left over"]
       ([] ++ preview_lines ["Oasis - Wonderwall"; "nothing"]
        ++ [PromptPlaylistName; PromptConfirm "Concert Playlist" 2]
        ++ [MsgPlaylistURL (PStr "PL-Concert Playlist"); MsgUseAgain]),
     (create_playlist_from_setlist ["Oasis - Wonderwall"; "nothing"]
        "Concert Playlist"
        "Setlist with 2 songs imported from setlist.txt"
        (read_setlist_from_file "setlist.txt" stage_world).2).2).
Proof.
  apply (main_confirmed_runs_builder (P := jukebox)
           (Terminal ["  "; " Yes "; "left over"] []) stage_world
           ["Oasis - Wonderwall"; "nothing"]
           (read_setlist_from_file "setlist.txt" stage_world).2
           "  " " Yes " ["left over"]
           (Some (PStr "PL-Concert Playlist"))
           (create_playlist_from_setlist ["Oasis - Wonderwall"; "nothing"]
              "Concert Playlist"
              "Setlist with 2 songs imported from setlist.txt"
              (read_setlist_from_file "setlist.txt" stage_world).2).2).
  - reflexivity.
  - discriminate.
  - reflexivity.
  - reflexivity.
  - vm_compute. reflexivity.
Defined.

(** The parser on an empty capture, on a flag followed by other options,
    and on a capture as the browser writes it. *)
Lemma capture_without_flags_fails_witness :
  scan_capture "" = inr ∅
  /\ extract_headers_from_curl "paste.txt" (paste_world "" true)
     = (inr None,
        say [MsgHeadersFound ∅;
             MsgMissingCritical ["authorization"; "cookie"];
             MsgCompleteCurlHint] (paste_world "" true)).
Proof.
  apply (capture_without_flags_fails (P := jukebox) (paste_world "" true)
           "paste.txt" "");
    reflexivity.
Defined.

Lemma closed_quote_takes_content_witness :
  scan_line ∅ "  -H 'Authorization: Bearer a:b' --compressed "
  = inr (<["authorization" := "Bearer a:b"]> ∅).
Proof.
  apply (proj2 (closed_quote_takes_content HeaderSingle ∅
                  "  -H 'Authorization: Bearer a:b' --compressed " ""
                  "Authorization: Bearer a:b" " --compressed"
                  eq_refl eq_refl eq_refl)
           "Authorization" " Bearer a:b");
    reflexivity.
Defined.

Lemma browser_capture_is_read_back_witness :
  scan_capture (capture_of sample_url sample_headers sample_cookie)
  = inr (<["cookie" := "SID=xyz; HSID=q"]>
           (<["authorization" := "SAPISIDHASH 2_def"]>
              (<["x-goog-authuser" := "0"]>
                 (<["authorization" := "SAPISIDHASH 1_abc"]> ∅))))
  /\ (extract_headers_from_curl "paste.txt"
        (paste_world (capture_of sample_url sample_headers sample_cookie) true)).1
     = inr (Some (add_defaults
                    (<["cookie" := sample_cookie]>
                       (headers_of sample_headers ∅)))).
Proof.
  destruct (browser_capture_is_read_back (P := jukebox)
              (paste_world (capture_of sample_url sample_headers sample_cookie)
                 true)
              "paste.txt" sample_url sample_headers sample_cookie
              eq_refl eq_refl eq_refl eq_refl) as [Hscan Hreturned].
  split.
  - exact Hscan.
  - apply Hreturned. exists "SAPISIDHASH 2_def". reflexivity.
Defined.
